(** * BOIFI recommender: session model, analyzer, executor client, proposer

    A shallow embedding of the Python sources under
    [recommender/src/boifi_recommender] (the service that is run) and
    [recommender/src/analyzer] (the typed analyzer), with the properties of
    the specification stated over it.

    Conventions.
    - Python [float] values (scores, latencies, weights, clock readings) are
      exact rationals [Q]; equality of computed scores is [==] (Qeq).
    - Python [int] values are [Z]; values validated as non-negative
      ([trial_id], [max_trials]) and loop indices are [nat].
    - [Optional[T]] is [option T]; a raised exception is the [Raise] case
      of [result].
    - Readings of the clock ([time.time()], [datetime.utcnow()]) and the
      outcomes of network requests are inputs of the functions that
      consume them; a method that reads the clock several times in a row
      is given one reading. *)

From Stdlib Require Import ZArith QArith Qround Bool List String Ascii Lia Lqa.
From stdpp Require Import gmap strings.
Import ListNotations.

Local Open Scope Q_scope.
Local Open Scope list_scope.

(** ** Exceptions *)

Inductive Exn : Type :=
| ValueError (msg : string)
| TypeError
| ZeroDivisionError
| IndexError
| ValidationError.

Inductive result (A : Type) : Type :=
| Ok (a : A)
| Raise (e : Exn).
Arguments Ok {A} a.
Arguments Raise {A} e.

Definition rbind {A B} (r : result A) (k : A -> result B) : result B :=
  match r with
  | Ok a => k a
  | Raise e => Raise e
  end.

Notation "'let*' x ':=' r 'in' k" := (rbind r (fun x => k))
  (at level 10, x name, r at level 100, k at level 200).

(** [try: ... except Exception: return d] *)
Definition except_default {A} (r : result A) (d : A) : A :=
  match r with
  | Ok a => a
  | Raise _ => d
  end.

(** ** Comparisons on floats *)

Definition Qltb (x y : Q) : bool := negb (Qle_bool y x).
Definition Qgtb (x y : Q) : bool := Qltb y x.
Definition Qgeb (x y : Q) : bool := Qle_bool y x.

(** Python [min(a, b)] and [max(a, b)]: the first argument wins ties. *)
Definition pymin (a b : Q) : Q := if Qltb b a then b else a.
Definition pymax (a b : Q) : Q := if Qltb a b then b else a.

(** [clamp(lo, hi, x)]: [x] brought into the interval from [lo] to [hi]. *)
Definition clamp (lo hi x : Q) : Q :=
  if Qltb x lo then lo else if Qltb hi x then hi else x.

(** The sum of a list of floats. *)
Definition Qsum (l : list Q) : Q := fold_right Qplus 0 l.

(** Truthiness of an optional number: [None] and zero are falsy. *)
Definition truthyZ (o : option Z) : bool :=
  match o with
  | Some z => negb (z =? 0)%Z
  | None => false
  end.

Definition truthyQ (o : option Q) : bool :=
  match o with
  | Some q => negb (Qeq_bool q 0)
  | None => false
  end.

(** ** models/session.py *)

Module Session.

Inductive SessionStatus : Type :=
| PENDING | RUNNING | STOPPING | COMPLETED | FAILED.

Definition status_eqb (a b : SessionStatus) : bool :=
  match a, b with
  | PENDING, PENDING | RUNNING, RUNNING | STOPPING, STOPPING
  | COMPLETED, COMPLETED | FAILED, FAILED => true
  | _, _ => false
  end.

Section Models.

(** Fault plans and observations are [Dict[str, Any]] payloads that the
    session only stores. *)
Context {Plan Obs : Type}.

Record Trial : Type := mkTrial {
  trial_id : nat;
  fault_plan : Plan;
  observation : option Obs;
  severity_score : option Q;
  timestamp : Q;
  trial_status : string;
}.

(** The field constraint [severity_score: Optional[float] = Field(ge=0.0,
    le=10.0)], checked when a [Trial] is constructed. *)
Definition score_in_range (q : Q) : bool := Qle_bool 0 q && Qle_bool q 10.

Definition valid_score (o : option Q) : bool :=
  match o with
  | Some q => score_in_range q
  | None => true
  end.

(** [Trial(trial_id=.., fault_plan=.., observation=.., severity_score=..)] *)
Definition new_Trial (now : Q) (tid : nat) (p : Plan) (o : option Obs)
    (sc : option Q) : result Trial :=
  if valid_score sc
  then Ok (mkTrial tid p o sc now "completed")
  else Raise ValidationError.

Record BestResult : Type := mkBestResult {
  best_fault_plan : Plan;
  best_severity_score : Q;
  best_trial_id : nat;
  best_timestamp : Q;
}.

Record OptimizationSession : Type := mkSession {
  id : string;
  service_name : string;
  status : SessionStatus;
  max_trials : nat;
  trials : list Trial;
  best_result : option BestResult;
  created_at : Q;
  updated_at : Q;
  started_at : option Q;
  completed_at : option Q;
}.

Definition trials_completed (s : OptimizationSession) : nat :=
  List.length (trials s).

Definition best_score (s : OptimizationSession) : Q :=
  match best_result s with
  | None => 0
  | Some b => best_severity_score b
  end.

Definition add_trial (now : Q) (s : OptimizationSession) (t : Trial)
    : OptimizationSession :=
  let trials' := trials s ++ [t] in
  let best' :=
    match severity_score t with
    | Some sc =>
        if match best_result s with
           | None => true
           | Some b => Qgtb sc (best_severity_score b)
           end
        then Some (mkBestResult (fault_plan t) sc (trial_id t) now)
        else best_result s
    | None => best_result s
    end in
  mkSession (id s) (service_name s) (status s) (max_trials s) trials' best'
            (created_at s) now (started_at s) (completed_at s).

Definition is_complete (s : OptimizationSession) : bool :=
  status_eqb (status s) COMPLETED || status_eqb (status s) FAILED.

Definition transition_to_running (now : Q) (s : OptimizationSession)
    : result OptimizationSession :=
  if negb (status_eqb (status s) PENDING)
  then Raise (ValueError "Cannot transition to RUNNING")
  else Ok (mkSession (id s) (service_name s) RUNNING (max_trials s) (trials s)
             (best_result s) (created_at s) now (Some now) (completed_at s)).

Definition transition_to_stopping (now : Q) (s : OptimizationSession)
    : result OptimizationSession :=
  if negb (status_eqb (status s) RUNNING)
  then Raise (ValueError "Cannot transition to STOPPING")
  else Ok (mkSession (id s) (service_name s) STOPPING (max_trials s) (trials s)
             (best_result s) (created_at s) now (started_at s)
             (completed_at s)).

Definition transition_to_completed (now : Q) (s : OptimizationSession)
    : result OptimizationSession :=
  if negb (status_eqb (status s) RUNNING || status_eqb (status s) STOPPING)
  then Raise (ValueError "Cannot transition to COMPLETED")
  else Ok (mkSession (id s) (service_name s) COMPLETED (max_trials s) (trials s)
             (best_result s) (created_at s) now (started_at s) (Some now)).

Definition transition_to_failed (now : Q) (s : OptimizationSession)
    : OptimizationSession :=
  mkSession (id s) (service_name s) FAILED (max_trials s) (trials s)
            (best_result s) (created_at s) now (started_at s) (Some now).

(** [OptimizationSession(service_name=..., max_trials=...)] as
    [create_session] calls it: the field constraints on [service_name] (1 to
    255 characters) and [max_trials] (at least 1) are checked, the id and
    the creation time are given. *)
Definition new_session (new_id : string) (now : Q) (name : string)
    (budget : nat) : result OptimizationSession :=
  if (1 <=? String.length name)%nat && (String.length name <=? 255)%nat
     && (1 <=? budget)%nat
  then Ok (mkSession new_id name PENDING budget [] None now now None None)
  else Raise ValidationError.

Definition progress_percent (s : OptimizationSession) : Q :=
  if (max_trials s =? 0)%nat then 0
  else pymin 100
         (inject_Z (Z.of_nat (trials_completed s))
          / inject_Z (Z.of_nat (max_trials s)) * 100).

(** One of the three guarded transitions takes [s] to [s']. *)
Definition guarded_step (now : Q) (s s' : OptimizationSession) : Prop :=
  transition_to_running now s = Ok s'
  \/ transition_to_stopping now s = Ok s'
  \/ transition_to_completed now s = Ok s'.

(** The edges of the status graph the guarded transitions can take. *)
Definition status_edge (a b : SessionStatus) : Prop :=
  (a = PENDING /\ b = RUNNING)
  \/ (a = RUNNING /\ b = STOPPING)
  \/ (a = RUNNING /\ b = COMPLETED)
  \/ (a = STOPPING /\ b = COMPLETED).

(** Trials appended one after the other, each at its own clock reading. *)
Definition add_trials (s : OptimizationSession) (ts : list (Q * Trial))
    : OptimizationSession :=
  fold_left (fun s nt => add_trial (fst nt) s (snd nt)) ts s.

(** [s'] is [s] some trials later: the trials of [s] come first in [s'],
    the best score is not lower and stays within 10 if it was, and the
    budget and the id are the same. *)
Definition grown_from (s s' : OptimizationSession) : Prop :=
  (exists new, trials s' = trials s ++ new)
  /\ best_score s <= best_score s'
  /\ (best_score s <= 10 -> best_score s' <= 10)
  /\ max_trials s' = max_trials s
  /\ id s' = id s.

End Models.

Arguments Trial : clear implicits.
Arguments BestResult : clear implicits.
Arguments OptimizationSession : clear implicits.

End Session.

(** ** services/session_manager.py *)

Module SessionManager.
Import Session.

Section Manager.
Context {Plan Obs : Type}.

Abbreviation session := (OptimizationSession Plan Obs).

(** [self._sessions: Dict[str, OptimizationSession]].  The map holds the
    session objects themselves: a worker and the HTTP handlers see the same
    object, so every access to a session goes through this map.  The JSON
    snapshots written by [_save_session] are not modelled. *)

Definition get_session (m : gmap string session) (session_id : string)
    : option session :=
  m !! session_id.

Definition update_session (m : gmap string session) (s : session)
    : gmap string session :=
  <[id s := s]> m.

Definition stop_session (now : Q) (m : gmap string session)
    (session_id : string) : result (gmap string session * option session) :=
  match m !! session_id with
  | Some s =>
      if status_eqb (status s) RUNNING then
        let* s1 := transition_to_stopping now s in
        let* s2 := transition_to_completed now s1 in
        Ok (<[session_id := s2]> m, Some s2)
      else Ok (m, Some s)
  | None => Ok (m, None)
  end.

(** [create_session]: the session id ([uuid4()]) and the clock are given. *)
Definition create_session (new_id : string) (now : Q)
    (m : gmap string session) (name : string) (budget : nat)
    : result (gmap string session * string) :=
  let* s := new_session new_id now name budget in
  Ok (<[id s := s]> m, id s).

Definition delete_session (m : gmap string session) (session_id : string)
    : gmap string session * bool :=
  match m !! session_id with
  | Some _ => (delete session_id m, true)
  | None => (m, false)
  end.

End Manager.
End SessionManager.

(** ** Observations and traces *)

Record Span : Type := mkSpan {
  operationName : string;
  duration : Z;
  span_status : option string;   (* the key [status], when present *)
  span_error : bool;             (* the key [error] *)
}.

Record TraceData : Type := mkTrace {
  spans : list Span;
}.

(** The status code is absent or below 400. *)
Definition below_400 (status : option Z) : Prop :=
  match status with
  | Some code => (code < 400)%Z
  | None => True
  end.

(** [keyword in log] on strings: [keyword] occurs as a contiguous,
    case-sensitive substring of [log]. *)
Fixpoint str_contains (keyword log : string) : bool :=
  if String.prefix keyword log then true
  else match log with
       | EmptyString => false
       | String _ rest => str_contains keyword rest
       end.

(** ** boifi_recommender/analyzer/service.py *)

Module Analyzer.

(** The observation dictionary returned by the executor, with the keys the
    scorers read. *)
Record Observation : Type := mkObservation {
  status_code : option Z;
  latency_ms : option Q;
  error_rate : option Q;
  error_logs : list string;
  trace_data : option TraceData;
}.

Module BugScorer.

Definition score (observation : Observation) : Q :=
  let status := status_code observation in
  let code := match status with Some c => c | None => 0%Z end in
  if truthyZ status && (500 <=? code)%Z && (code <? 600)%Z then 10
  else if truthyZ status && (400 <=? code)%Z && (code <? 500)%Z then 8
  else if (0 <? List.length (error_logs observation))%nat then 6
  else if truthyQ (error_rate observation)
          && match error_rate observation with
             | Some r => Qgtb r 0
             | None => false
             end
       then 3
  else 0.

End BugScorer.

Module PerformanceScorer.

Record t : Type := mk {
  baseline_ms : Q;
  threshold_ms : Q;
}.

Definition score (self : t) (observation : Observation) : Q :=
  match latency_ms observation with
  | None => 0
  | Some latency =>
      if Qle_bool latency (baseline_ms self) then 0
      else if Qgeb latency (threshold_ms self) then 9
      else
        let ratio := (latency - baseline_ms self)
                     / (threshold_ms self - baseline_ms self) in
        pymin 10 (ratio * 9)
  end.

End PerformanceScorer.

Module StructureScorer.

Definition is_error_span (s : Span) : bool :=
  match span_status s with
  | None => false                       (* default "ok" *)
  | Some st => negb (String.eqb st "ok" || String.eqb st "unset")
  end.

Definition score (observation : Observation) : Q :=
  match trace_data observation with
  | None => 0
  | Some trace =>
      let span_count := List.length (spans trace) in
      let span_score :=
        if (span_count <=? 2)%nat then 0
        else if (span_count <=? 5)%nat then 3
        else 6 in
      let error_spans := List.filter is_error_span (spans trace) in
      let error_score :=
        if (0 <? List.length error_spans)%nat then 2 else 0 in
      let edit_distance_score :=
        pymin 5 (inject_Z (Z.of_nat span_count) * (1 # 2)) in
      pymax (pymax span_score error_score) edit_distance_score
  end.

End StructureScorer.

Module AnalyzerService.

Record t : Type := mk {
  perf_scorer : PerformanceScorer.t;
  bug_weight : Q;
  perf_weight : Q;
  struct_weight : Q;
}.

(** Float division: a zero divisor raises [ZeroDivisionError]. *)
Definition fdiv (a b : Q) : result Q :=
  if Qeq_bool b 0 then Raise ZeroDivisionError else Ok (a / b).

(** [AnalyzerService.__init__] *)
Definition init (baseline_ms threshold_ms bug_weight perf_weight
    struct_weight : Q) : result t :=
  let total_weight := bug_weight + perf_weight + struct_weight in
  let* bw := fdiv bug_weight total_weight in
  let* pw := fdiv perf_weight total_weight in
  let* sw := fdiv struct_weight total_weight in
  Ok (mk (PerformanceScorer.mk baseline_ms threshold_ms) bw pw sw).

Record Severity : Type := mkSeverity {
  total_score : Q;
  bug_score : Q;
  perf_score : Q;
  struct_score : Q;
}.

Definition calculate_severity (self : t) (observation : Observation)
    : Severity :=
  let bug_score := BugScorer.score observation in
  let perf_score := PerformanceScorer.score (perf_scorer self) observation in
  let struct_score := StructureScorer.score observation in
  let total_score :=
    bug_weight self * bug_score
    + perf_weight self * perf_score
    + struct_weight self * struct_score in
  let total_score := pymax 0 (pymin 10 total_score) in
  mkSeverity total_score bug_score perf_score struct_score.

(** Constructing the service from the three weights and scoring one
    observation with it. *)
Definition severity_of (baseline_ms threshold_ms bug_weight perf_weight
    struct_weight : Q) (observation : Observation) : result Q :=
  let* service :=
    init baseline_ms threshold_ms bug_weight perf_weight struct_weight in
  Ok (total_score (calculate_severity service observation)).

End AnalyzerService.

End Analyzer.

(** ** analyzer/service.py with types.py (the typed analyzer) *)

Module TypedAnalyzer.

(** [RawObservation] is a dataclass: the annotations of [status_code] and
    [latency_ms] are not enforced, so either may hold [None];
    [__post_init__] compares [error_rate] with numbers, so it is a number. *)
Record RawObservation : Type := mkRawObservation {
  status_code : option Z;
  latency_ms : option Q;
  error_rate : Q;
  trace_data : option TraceData;
  logs : list string;
}.

Record AnalyzerConfig : Type := mkConfig {
  weights : gmap string Q;
  baseline_latency_ms : Q;
  threshold_latency_ms : Q;
  baseline_trace : option TraceData;
}.

(** [AnalyzerConfig.get_weight(dimension, None)]: [calculate_severity] passes
    no fault type, so only the global weights are read. *)
Definition get_weight (config : AnalyzerConfig) (dimension : string) : Q :=
  default 1 (weights config !! dimension).

(** Ordering comparisons with [None] raise [TypeError]. *)
Definition Zge_py (o : option Z) (k : Z) : result bool :=
  match o with
  | Some z => Ok (k <=? z)%Z
  | None => Raise TypeError
  end.

Definition Qgt_py (o : option Q) (k : Q) : result bool :=
  match o with
  | Some q => Ok (Qgtb q k)
  | None => Raise TypeError
  end.

Definition critical_keywords : list string :=
  ["ERROR"; "FATAL"; "CRITICAL"; "PANIC"; "EXCEPTION"].

Definition has_critical_log (logs : list string) : bool :=
  existsb (fun log => existsb (fun keyword => str_contains keyword log)
                              critical_keywords) logs.

Module BugScorer.

Definition score_body (observation : RawObservation) : result Q :=
  let* ge500 := Zge_py (status_code observation) 500 in
  if ge500 then Ok 10 else
  let* ge400 := Zge_py (status_code observation) 400 in
  if ge400 then Ok 8 else
  if (0 <? List.length (logs observation))%nat
     && has_critical_log (logs observation) then Ok 6 else
  if Qgtb (error_rate observation) 0 then Ok 3 else
  Ok 0.

Definition score (observation : RawObservation) (config : AnalyzerConfig)
    : Q :=
  except_default (score_body observation) 0.

End BugScorer.

Module PerformanceScorer.

Definition score_body (observation : RawObservation)
    (config : AnalyzerConfig) : result Q :=
  let baseline := baseline_latency_ms config in
  let threshold := threshold_latency_ms config in
  if Qle_bool baseline 0 then Ok 0 else
  let* above := Qgt_py (latency_ms observation) threshold in
  if above then Ok 10 else
  match latency_ms observation with
  | None => Raise TypeError
  | Some actual =>
      let score :=
        if Qgtb threshold baseline
        then (actual - baseline) / (threshold - baseline) * 9
        else 0 in
      Ok (pymin 10 (pymax 0 score))
  end.

Definition score (observation : RawObservation) (config : AnalyzerConfig)
    : Q :=
  except_default (score_body observation config) 0.

End PerformanceScorer.

Module StructureScorer.

(** A span of a trace, as far as the scorer reads it: the keys
    [operationName] and [duration] when present, the truth value of the
    key [error], and [tags["error"]] when present. *)
Record SpanDict : Type := mkSpanDict {
  sd_operationName : option string;
  sd_duration : option Q;
  sd_error : bool;
  sd_tags_error : option string;
}.

(** A trace dict that is not empty (an empty one is falsy, like [None]);
    [td_spans] is [trace.get("spans", [])]. *)
Record TraceDict : Type := mkTraceDict {
  td_spans : list SpanDict;
}.

(** [l[i]] and [l[i] = x] on a Python list, for an index that is not
    negative: out of range they raise IndexError. *)
Definition getitem {A} (l : list A) (i : nat) : result A :=
  match l !! i with
  | Some x => Ok x
  | None => Raise IndexError
  end.

Definition setitem {A} (l : list A) (i : nat) (x : A) : result (list A) :=
  if (i <? List.length l)%nat then Ok (<[i := x]> l) else Raise IndexError.

(** [dp[i][j]] and [dp[i][j] = v]; the rows of [dp] are separate lists. *)
Definition get2 (dp : list (list nat)) (i j : nat) : result nat :=
  let* row := getitem dp i in
  getitem row j.

Definition set2 (dp : list (list nat)) (i j v : nat)
    : result (list (list nat)) :=
  let* row := getitem dp i in
  let* row' := setitem row j v in
  setitem dp i row'.

(** [for i in range(start, stop): state = body(i, state)] *)
Fixpoint for_each {St} (indices : list nat) (body : nat -> St -> result St)
    (state : St) : result St :=
  match indices with
  | [] => Ok state
  | i :: rest =>
      let* state' := body i state in
      for_each rest body state'
  end.

Definition for_range {St} (start stop : nat) (body : nat -> St -> result St)
    (state : St) : result St :=
  for_each (seq start (stop - start)) body state.

(** The table is filled row by row; the loops start at 1, so [i - 1] and
    [j - 1] are never negative. *)
Definition _edit_distance (list1 list2 : list string) : result nat :=
  let m := List.length list1 in
  let n := List.length list2 in
  let dp := replicate (m + 1) (replicate (n + 1) 0%nat) in
  let* dp := for_range 0 (m + 1) (fun i dp => set2 dp i 0 i) dp in
  let* dp := for_range 0 (n + 1) (fun j dp => set2 dp 0 j j) dp in
  let* dp :=
    for_range 1 (m + 1) (fun i dp =>
      for_range 1 (n + 1) (fun j dp =>
        let* a := getitem list1 (i - 1) in
        let* b := getitem list2 (j - 1) in
        if String.eqb a b then
          let* v := get2 dp (i - 1) (j - 1) in
          set2 dp i j v
        else
          let* x := get2 dp (i - 1) j in
          let* y := get2 dp i (j - 1) in
          let* z := get2 dp (i - 1) (j - 1) in
          set2 dp i j (1 + Nat.min x (Nat.min y z))) dp) dp in
  get2 dp m n.

(** The Levenshtein distance of two lists, by recursion on their first
    elements. *)
Fixpoint levenshtein (l1 : list string) : list string -> nat :=
  fix inner (l2 : list string) : nat :=
    match l1, l2 with
    | [], _ => List.length l2
    | _, [] => List.length l1
    | a :: l1', b :: l2' =>
        if String.eqb a b then levenshtein l1' l2'
        else S (Nat.min (levenshtein l1' l2)
                  (Nat.min (inner l2') (levenshtein l1' l2')))
    end.

(** The shape of the table: [m + 1] rows of [n + 1] cells. *)
Definition table_shape (m n : nat) (dp : list (list nat)) : Prop :=
  List.length dp = S m
  /\ forall (i : nat) row, dp !! i = Some row -> List.length row = S n.

(** The distance between the first [i] elements of [list1] and the first
    [j] elements of [list2], both read from their last element backwards,
    as the table does. *)
Definition prefix_distance (list1 list2 : list string) (i j : nat) : nat :=
  levenshtein (List.rev (take i list1)) (List.rev (take j list2)).

Definition _check_span_count_change (current_trace baseline_trace : TraceDict)
    : Q :=
  let baseline_spans := List.length (td_spans baseline_trace) in
  let current_spans := List.length (td_spans current_trace) in
  if (baseline_spans =? 0)%nat then 0
  else if Qgtb (inject_Z (Z.of_nat current_spans))
               (inject_Z (Z.of_nat baseline_spans) * (3 # 2))
  then 3
  else 0.

(** [[s.get("operationName", "") for s in trace.get("spans", [])]] *)
Definition operation_names (trace : TraceDict) : list string :=
  List.map (fun s => default EmptyString (sd_operationName s))
           (td_spans trace).

Definition _check_operation_sequence_change
    (current_trace baseline_trace : TraceDict) : Q :=
  let baseline_ops := operation_names baseline_trace in
  let current_ops := operation_names current_trace in
  if (List.length baseline_ops =? 0)%nat || (List.length current_ops =? 0)%nat
  then 0
  else
    except_default
      (let* distance := _edit_distance baseline_ops current_ops in
       Ok (if (2 <? distance)%nat then 5 else 0))
      0.

Definition is_error_span (span : SpanDict) : bool :=
  sd_error span
  || match sd_tags_error span with
     | Some tag => String.eqb tag "true"
     | None => false
     end.

Definition _check_error_spans (current_trace : TraceDict) : Q :=
  if existsb is_error_span (td_spans current_trace) then 2 else 0.

(** A Python dict with optional strings as keys: the items in the order in
    which their keys were first inserted, each key once, with the value
    inserted last. *)
Fixpoint dict_set {V} (d : list (option string * V)) (k : option string)
    (v : V) : list (option string * V) :=
  match d with
  | [] => [(k, v)]
  | (k', v') :: rest =>
      if decide (k' = k) then (k, v) :: rest
      else (k', v') :: dict_set rest k v
  end.

Fixpoint dict_get {V} (d : list (option string * V)) (k : option string)
    : option V :=
  match d with
  | [] => None
  | (k', v') :: rest => if decide (k' = k) then Some v' else dict_get rest k
  end.

(** [{s.get("operationName"): s.get("duration", 0) for s in spans}] *)
Definition durations (trace : TraceDict) : list (option string * Q) :=
  fold_left
    (fun d s => dict_set d (sd_operationName s) (default 0 (sd_duration s)))
    (td_spans trace) [].

Definition _check_span_latency_spike
    (current_trace baseline_trace : TraceDict) : Q :=
  let baseline_spans := durations baseline_trace in
  let current_spans := durations current_trace in
  if existsb
       (fun item =>
          match dict_get baseline_spans (fst item) with
          | Some baseline_duration =>
              Qgtb baseline_duration 0
              && Qgtb (snd item / baseline_duration) 5
          | None => false
          end)
       current_spans
  then 2
  else 0.

(** [scores.append(x)] for each sub-score that is positive. *)
Definition append_positive (scores : list Q) (x : Q) : list Q :=
  if Qgtb x 0 then scores ++ [x] else scores.

(** [StructureScorer.score]: of the observation it reads [trace_data], of
    the configuration [baseline_trace]. *)
Definition score (trace_data baseline_trace : option TraceDict) : Q :=
  match baseline_trace with
  | None => 0
  | Some baseline =>
      match trace_data with
      | None => 0
      | Some current =>
          let scores := [] in
          let scores :=
            append_positive scores
              (_check_span_count_change current baseline) in
          let scores :=
            append_positive scores
              (_check_operation_sequence_change current baseline) in
          let scores :=
            append_positive scores (_check_error_spans current) in
          let scores :=
            append_positive scores
              (_check_span_latency_spike current baseline) in
          let final_score :=
            match scores with
            | [] => 0
            | s :: rest => fold_left pymax rest s
            end in
          pymin 10 final_score
      end
  end.

End StructureScorer.

Module AnalyzerService.

Section Service.

(** [StructureScorer.score]: wrapped in [try/except], it always returns a
    number; it compares traces and plays no part in the properties below. *)
Variable struct_scorer : RawObservation -> AnalyzerConfig -> Q.

Record ScoringBreakdown : Type := mkBreakdown {
  bd_bug_score : Q;
  bd_perf_score : Q;
  bd_struct_score : Q;
  bd_total_score : Q;
  bd_weights : Q * Q * Q;
}.

Definition calculate_severity (config : AnalyzerConfig)
    (observation : RawObservation) : Q * option ScoringBreakdown :=
  let score_bug := BugScorer.score observation config in
  let score_perf := PerformanceScorer.score observation config in
  let score_struct := struct_scorer observation config in
  let w_bug := get_weight config "bug" in
  let w_perf := get_weight config "perf" in
  let w_struct := get_weight config "struct" in
  let total_weight := w_bug + w_perf + w_struct in
  if Qeq_bool total_weight 0 then (0, None)
  else
    let total_score :=
      (w_bug * score_bug + w_perf * score_perf + w_struct * score_struct)
      / total_weight in
    let total_score := pymin 10 (pymax 0 total_score) in
    (total_score,
     Some (mkBreakdown score_bug score_perf score_struct total_score
             (w_bug, w_perf, w_struct))).

End Service.

End AnalyzerService.

End TypedAnalyzer.

(** ** boifi_recommender/clients/executor_client.py *)

Module Executor.

Inductive CircuitBreakerState : Type :=
| CLOSED | OPEN | HALF_OPEN.

Record CircuitBreaker : Type := mkBreaker {
  failure_threshold : Z;
  recovery_timeout : Z;
  state : CircuitBreakerState;
  failure_count : Z;
  last_failure_time : option Q;
}.

(** [CircuitBreaker.__init__] *)
Definition new_breaker (failure_threshold recovery_timeout : Z)
    : CircuitBreaker :=
  mkBreaker failure_threshold recovery_timeout CLOSED 0 None.

Definition set_state (st : CircuitBreakerState) (cb : CircuitBreaker)
    : CircuitBreaker :=
  mkBreaker (failure_threshold cb) (recovery_timeout cb) st
            (failure_count cb) (last_failure_time cb).

(** [can_attempt], at clock reading [now]: the answer and the breaker
    after the call. *)
Definition can_attempt (now : Q) (cb : CircuitBreaker)
    : bool * CircuitBreaker :=
  match state cb with
  | CLOSED => (true, cb)
  | OPEN =>
      if truthyQ (last_failure_time cb)
         && match last_failure_time cb with
            | Some t => Qgtb (now - t) (inject_Z (recovery_timeout cb))
            | None => false
            end
      then (true, set_state HALF_OPEN cb)
      else (false, cb)
  | HALF_OPEN => (true, cb)
  end.

Definition record_success (cb : CircuitBreaker) : CircuitBreaker :=
  match state cb with
  | HALF_OPEN =>
      mkBreaker (failure_threshold cb) (recovery_timeout cb) CLOSED 0
                (last_failure_time cb)
  | CLOSED =>
      mkBreaker (failure_threshold cb) (recovery_timeout cb) CLOSED 0
                (last_failure_time cb)
  | OPEN => cb
  end.

Definition record_failure (now : Q) (cb : CircuitBreaker) : CircuitBreaker :=
  let count := (failure_count cb + 1)%Z in
  mkBreaker (failure_threshold cb) (recovery_timeout cb)
            (if (failure_threshold cb <=? count)%Z then OPEN else state cb)
            count (Some now).

(** Failures recorded one after the other, at the given clock readings. *)
Definition record_failures (times : list Q) (cb : CircuitBreaker)
    : CircuitBreaker :=
  fold_left (fun b now => record_failure now b) times cb.

(** The calls made on a breaker: asking [can_attempt], and recording a
    success or a failure. *)
Inductive BreakerCall : Type :=
| AskCanAttempt (now : Q)
| RecordSuccess
| RecordFailure (now : Q).

Definition breaker_call (cb : CircuitBreaker) (call : BreakerCall)
    : CircuitBreaker :=
  match call with
  | AskCanAttempt now => snd (can_attempt now cb)
  | RecordSuccess => record_success cb
  | RecordFailure now => record_failure now cb
  end.

Definition breaker_calls (calls : list BreakerCall) (cb : CircuitBreaker)
    : CircuitBreaker :=
  fold_left breaker_call calls cb.

(** The count is below the threshold exactly while the breaker is closed,
    and an open or half-open breaker has a failure time. *)
Definition breaker_consistent (cb : CircuitBreaker) : Prop :=
  (0 <= failure_count cb)%Z
  /\ (state cb = CLOSED -> (failure_count cb < failure_threshold cb)%Z)
  /\ (state cb <> CLOSED ->
      (failure_threshold cb <= failure_count cb)%Z
      /\ last_failure_time cb <> None).

Section Client.
Context {Obs : Type}.

(** What one [client.post] does: a response with its status code and its
    decoded JSON body ([None]: [response.json()] raises), one of the two
    exceptions that are retried, or any other exception. *)
Inductive Outcome : Type :=
| Response (status_code : Z) (json : option Obs)
| TimeoutException
| ConnectError
| OtherException.

(** The surroundings of one [apply_policy] call: the clock when the breaker
    is asked, and per attempt the outcome of the request, the clock when a
    failure is recorded and the value of [random.uniform(-jitter, jitter)]. *)
Record Env : Type := mkEnv {
  call_time : Q;
  outcome : nat -> Outcome;
  failure_time : nat -> Q;
  jitter_draw : nat -> Q;
}.

Record ExecutorClient : Type := mkClient {
  max_retries : nat;
  base_delay : Q;
  max_delay : Q;
  jitter_percent : Q;
  circuit_breaker : CircuitBreaker;
}.

Definition with_breaker (c : ExecutorClient) (cb : CircuitBreaker)
    : ExecutorClient :=
  mkClient (max_retries c) (base_delay c) (max_delay c) (jitter_percent c) cb.

(** [ExecutorClient.__init__] with its default arguments: the breaker is
    always [CircuitBreaker()], threshold 5 and recovery timeout 60. *)
Definition default_client : ExecutorClient :=
  mkClient 5 (1 # 2) 8 10 (new_breaker 5 60).

(** The delay computed by [_delay_with_backoff] before jitter. *)
Definition backoff_delay (c : ExecutorClient) (attempt : nat) : Q :=
  pymin (max_delay c) (base_delay c * inject_Z (2 ^ Z.of_nat attempt)).

(** The time slept by [_delay_with_backoff]. *)
Definition jittered_delay (c : ExecutorClient) (e : Env) (attempt : nat)
    : Q :=
  backoff_delay c attempt + jitter_draw e attempt.

(** The result of [apply_policy] with its effects: what is returned, the
    client afterwards, the number of requests sent and the sleeps made. *)
Record Applied : Type := mkApplied {
  returned : option Obs;
  client_after : ExecutorClient;
  requests : nat;
  sleeps : list Q;
}.

(** The body of [for attempt in range(self.max_retries)], from [attempt]
    on with [remaining] iterations left. *)
Fixpoint attempts (c : ExecutorClient) (e : Env) (remaining attempt : nat)
    (cb : CircuitBreaker) (slept : list Q) : Applied :=
  match remaining with
  | O => mkApplied None (with_breaker c cb) attempt slept
  | S remaining' =>
      match outcome e attempt with
      | Response code body =>
          if (code =? 200)%Z then
            let cb1 := record_success cb in
            match body with
            | Some obs =>
                mkApplied (Some obs) (with_breaker c cb1) (S attempt) slept
            | None =>
                (* [response.json()] raised: [except Exception] *)
                mkApplied None
                  (with_breaker c (record_failure (failure_time e attempt) cb1))
                  (S attempt) slept
            end
          else if (500 <=? code)%Z then
            attempts c e remaining' (S attempt) cb
                     (slept ++ [jittered_delay c e attempt])
          else
            mkApplied None
              (with_breaker c (record_failure (failure_time e attempt) cb))
              (S attempt) slept
      | TimeoutException | ConnectError =>
          attempts c e remaining' (S attempt)
                   (record_failure (failure_time e attempt) cb)
                   (slept ++ [jittered_delay c e attempt])
      | OtherException =>
          mkApplied None
            (with_breaker c (record_failure (failure_time e attempt) cb))
            (S attempt) slept
      end
  end.

Definition apply_policy (c : ExecutorClient) (e : Env) : Applied :=
  let '(allowed, cb) := can_attempt (call_time e) (circuit_breaker c) in
  if negb allowed then mkApplied None (with_breaker c cb) 0 []
  else attempts c e (max_retries c) 0 cb [].

(** [health_check], with the outcome of its GET request and the clock when
    a failure is recorded. *)
Definition health_check (c : ExecutorClient) (now : Q) (o : Outcome)
    : bool * ExecutorClient :=
  match o with
  | Response code _ =>
      if (code =? 200)%Z
      then (true, with_breaker c (record_success (circuit_breaker c)))
      else (false, with_breaker c (record_failure now (circuit_breaker c)))
  | TimeoutException | ConnectError | OtherException =>
      (false, with_breaker c (record_failure now (circuit_breaker c)))
  end.

(** Health checks made one after the other. *)
Definition health_checks (probes : list (Q * Outcome)) (c : ExecutorClient)
    : ExecutorClient :=
  fold_left (fun c p => snd (health_check c (fst p) (snd p))) probes c.

(** The GET request of a health check was answered with status 200. *)
Definition is_healthy (o : Outcome) : bool :=
  match o with
  | Response code _ => (code =? 200)%Z
  | _ => false
  end.

(** How an attempt ends, as [apply_policy] distinguishes it. *)
Definition is_success (o : Outcome) : bool :=
  match o with
  | Response code (Some _) => (code =? 200)%Z
  | _ => false
  end.

Definition is_5xx (o : Outcome) : bool :=
  match o with
  | Response code _ => negb (code =? 200)%Z && (500 <=? code)%Z
  | _ => false
  end.

Definition is_retried (o : Outcome) : bool :=
  match o with
  | Response code _ => negb (code =? 200)%Z && (500 <=? code)%Z
  | TimeoutException | ConnectError => true
  | OtherException => false
  end.

Definition is_4xx (o : Outcome) : bool :=
  match o with
  | Response code _ => (400 <=? code)%Z && (code <? 500)%Z
  | _ => false
  end.

(** The attempt ends the call with [None]: a response that is neither 200
    nor 500 and above, a 200 whose body does not decode, or an exception
    other than a timeout or a connection error. *)
Definition is_permanent (o : Outcome) : bool :=
  negb (is_success o) && negb (is_retried o).

End Client.

Arguments Outcome : clear implicits.
Arguments Env : clear implicits.
Arguments Applied : clear implicits.

End Executor.

(** ** boifi_recommender/config.py *)

Module Settings.

Definition OPTIMIZER_MAX_TRIALS : nat := 100.
Definition OPTIMIZER_INITIAL_POINTS : nat := 5.
Definition ANALYZER_BASELINE_MS : Q := 100.
Definition ANALYZER_THRESHOLD_MS : Q := 500.
Definition CIRCUIT_BREAKER_FAILURE_THRESHOLD : Z := 5.
Definition CIRCUIT_BREAKER_RECOVERY_TIMEOUT_SECONDS : Z := 60.

End Settings.

(** ** boifi_recommender/optimizer/core.py *)

Module Optimizer.

(** A coordinate of a point: a category or a number. *)
Inductive Value : Type :=
| VStr (s : string)
| VNum (q : Q).

(** One entry of [search_space_config["dimensions"]]. *)
Record DimConfig : Type := mkDimConfig {
  dim_type : string;
  dim_name : string;
  dim_values : list Value;
  dim_bounds : list Q;
}.

(** The [skopt.space] dimension objects, as far as [propose] reads them:
    [categories] for a categorical, [low] and [high] otherwise. *)
Inductive Dimension : Type :=
| Categorical (categories : list Value) (name : string)
| Integer (low high : Q) (name : string)
| Real (low high : Q) (name : string).



(** The types [SpaceConverter.convert] knows. *)
Definition known_type (dim_config : DimConfig) : bool :=
  String.eqb (dim_type dim_config) "categorical"
  || String.eqb (dim_type dim_config) "integer"
  || String.eqb (dim_type dim_config) "real".

(** The [name] attribute of a dimension object. *)
Definition dimension_name (dim : Dimension) : string :=
  match dim with
  | Categorical _ name | Integer _ _ name | Real _ _ name => name
  end.

(** A dimension the cold start can sample: some category to choose, or a
    lower bound below the upper one. *)
Definition samplable (dim : Dimension) : Prop :=
  match dim with
  | Categorical categories _ => categories <> []
  | Integer low high _ | Real low high _ => low < high
  end.

(** A coordinate that lies in its dimension. *)
Definition in_dimension (dim : Dimension) (v : Value) : Prop :=
  match dim with
  | Categorical categories _ => In v categories
  | Integer low high _ | Real low high _ =>
      match v with
      | VNum q => low <= q /\ q < high
      | VStr _ => False
      end
  end.

Module SpaceConverter.

Definition bounds_pair (bounds : list Q) : result (Q * Q) :=
  match bounds with
  | lo :: hi :: _ => Ok (lo, hi)
  | _ => Raise IndexError
  end.

Fixpoint convert (dimensions : list DimConfig) : result (list Dimension) :=
  match dimensions with
  | [] => Ok []
  | dim_config :: rest =>
      let name := dim_name dim_config in
      if String.eqb (dim_type dim_config) "categorical" then
        let* ds := convert rest in
        Ok (Categorical (dim_values dim_config) name :: ds)
      else if String.eqb (dim_type dim_config) "integer" then
        let* b := bounds_pair (dim_bounds dim_config) in
        let* ds := convert rest in
        Ok (Integer (fst b) (snd b) name :: ds)
      else if String.eqb (dim_type dim_config) "real" then
        let* b := bounds_pair (dim_bounds dim_config) in
        let* ds := convert rest in
        Ok (Real (fst b) (snd b) name :: ds)
      else convert rest
  end.

(** [result[dim_config["name"]] = point[i]] for each configured dimension,
    in order. *)
Fixpoint point_to_dict_from (result_ : gmap string Value)
    (dimensions_config : list DimConfig) (point : list Value)
    : result (gmap string Value) :=
  match dimensions_config with
  | [] => Ok result_
  | dim_config :: rest =>
      match point with
      | [] => Raise IndexError
      | v :: point' =>
          point_to_dict_from (<[dim_name dim_config := v]> result_) rest point'
      end
  end.

Definition point_to_dict (dimensions_config : list DimConfig)
    (point : list Value) : result (gmap string Value) :=
  point_to_dict_from ∅ dimensions_config point.



End SpaceConverter.

(** The state of the [random] module: the stream of numbers in [0, 1) it
    will hand out, and how many were taken. *)
Record Random : Type := mkRandom {
  draws : nat -> Q;
  position : nat;
}.

Definition random_random (rng : Random) : Q * Random :=
  (draws rng (position rng), mkRandom (draws rng) (S (position rng))).

(** [random.choice(seq)]: a uniformly drawn index into [seq]. *)
Definition random_choice (rng : Random) (seq : list Value)
    : result (Value * Random) :=
  let '(u, rng') := random_random rng in
  let i := Z.to_nat (Qfloor (u * inject_Z (Z.of_nat (List.length seq)))) in
  match nth_error seq i with
  | Some v => Ok (v, rng')
  | None => Raise IndexError
  end.

(** The surrogate: whether it was fitted, and on which history. *)
Record ProxyModel : Type := mkProxy {
  is_fitted : bool;
  fitted_X : list (list (option Value));
  fitted_y : list Q;
}.

Definition fit (model : ProxyModel) (X : list (list (option Value)))
    (y : list Q) : ProxyModel :=
  if (List.length X =? 0)%nat then model else mkProxy true X y.

Record OptimizerCore : Type := mkOptimizer {
  search_space_config : list DimConfig;
  dimensions : list Dimension;
  surrogate_model : ProxyModel;
  observation_history_X : list (list (option Value));
  observation_history_y : list Q;
  best_value : Q;
  best_point : option (gmap string Value);
}.

(** [OptimizerCore.__init__] *)
Definition init (config : list DimConfig) : result OptimizerCore :=
  let* dims := SpaceConverter.convert config in
  Ok (mkOptimizer config dims (mkProxy false [] []) [] [] 0 None).

(** One coordinate per dimension, drawn from [random]. *)
Fixpoint random_point (dims : list Dimension) (rng : Random)
    : result (list Value * Random) :=
  match dims with
  | [] => Ok ([], rng)
  | dim :: rest =>
      let* vr :=
        match dim with
        | Categorical categories _ => random_choice rng categories
        | Integer low high _ | Real low high _ =>
            let '(u, rng') := random_random rng in
            Ok (VNum (low + u * (high - low)), rng')
        end in
      let* pr := random_point rest (snd vr) in
      Ok (fst vr :: fst pr, snd pr)
  end.

Section Propose.

(** [PointSelector.select_next_point(dimensions, surrogate_model,
    best_value)]: candidate generation with numpy, the random forest and the
    Expected Improvement are library computations and stay a parameter. *)
Variable select_next_point :
  list Dimension -> ProxyModel -> Q -> option (list Value).

Definition propose (self : OptimizerCore) (rng : Random)
    : result (gmap string Value * Random) :=
  if (List.length (observation_history_y self) =? 0)%nat then
    (* Initial random point *)
    let* pr := random_point (dimensions self) rng in
    let* plan :=
      SpaceConverter.point_to_dict (search_space_config self) (fst pr) in
    Ok (plan, snd pr)
  else
    (* Use surrogate model + EI *)
    match select_next_point (dimensions self) (surrogate_model self)
                            (best_value self) with
    | Some next_point =>
        let* plan :=
          SpaceConverter.point_to_dict (search_space_config self) next_point in
        Ok (plan, rng)
    | None =>
        (* Fallback to random *)
        let* pr := random_point (dimensions self) rng in
        let* plan :=
          SpaceConverter.point_to_dict (search_space_config self) (fst pr) in
        Ok (plan, snd pr)
    end.

End Propose.

Definition record (self : OptimizerCore) (fault_plan : gmap string Value)
    (score : Q) : OptimizerCore :=
  let point :=
    List.map (fun dim => fault_plan !! dim_name dim)
             (search_space_config self) in
  let X := observation_history_X self ++ [point] in
  let y := observation_history_y self ++ [score] in
  let better := Qgtb score (best_value self) in
  mkOptimizer (search_space_config self) (dimensions self)
    (if (2 <=? List.length X)%nat
     then fit (surrogate_model self) X y
     else surrogate_model self)
    X y
    (if better then score else best_value self)
    (if better then Some fault_plan else best_point self).

(** [OptimizerCore.get_best]: the plan ([{}] while there is none) and the
    score. *)
Definition get_best (self : OptimizerCore) : gmap string Value * Q :=
  (match best_point self with
   | Some plan => plan
   | None => ∅
   end,
   best_value self).

(** Results recorded one after the other. *)
Fixpoint records (results : list (gmap string Value * Q))
    (self : OptimizerCore) : OptimizerCore :=
  match results with
  | [] => self
  | (fault_plan, score) :: rest => records rest (record self fault_plan score)
  end.


End Optimizer.

(** ** boifi_recommender/coordinator/worker.py *)

Module Worker.
Import Session.

Section Run.

(** The collaborators handed to [OptimizationWorker.__init__]. *)
Context {Plan Obs Optimizer Client ClientEnv : Type}.
Variable propose : Optimizer -> result (Plan * Optimizer).
Variable record : Optimizer -> Plan -> Q -> result Optimizer.
Variable apply_policy : Client -> ClientEnv -> Plan -> option Obs * Client.
(** [analyzer.calculate_severity(observation).get("total_score", 0.0)] *)
Variable calculate_severity : Obs -> result Q.

Variable session_id : string.

(** What happens around the worker while it runs: the clock, calls of
    [OptimizationWorker.stop()] made before iteration [i] tests the flag,
    calls of [SessionManager.stop_session(session_id)] served while
    iteration [i] awaits the executor, and the executor's surroundings. *)
Record Events : Type := mkEvents {
  start_time : Q;
  clock : nat -> Q;
  end_time : Q;
  stop_called : nat -> bool;
  http_stop : nat -> bool;
  executor_env : nat -> ClientEnv;
}.

Record State : Type := mkState {
  sessions : gmap string (OptimizationSession Plan Obs);
  optimizer : Optimizer;
  executor_client : Client;
  stop_flag : bool;
}.

Variable ev : Events.

(** The session object of this worker, as it is now. *)
Definition session_of (st : State) : option (OptimizationSession Plan Obs) :=
  sessions st !! session_id.

(** [self.session_manager.update_session(session)] *)
Definition update_session (m : gmap string (OptimizationSession Plan Obs))
    : gmap string (OptimizationSession Plan Obs) :=
  match m !! session_id with
  | Some s => SessionManager.update_session m s
  | None => m
  end.

(** A [stop_session] request served by the HTTP handler. *)
Definition serve_stop (now : Q)
    (m : gmap string (OptimizationSession Plan Obs))
    : gmap string (OptimizationSession Plan Obs) :=
  match SessionManager.stop_session now m session_id with
  | Ok (m', _) => m'
  | Raise _ => m
  end.

Inductive Flow : Type :=
| Next (st : State)
| Break (st : State)
| Failed (st : State) (e : Exn).

(** The state an iteration leaves behind, whichever way it ends. *)
Definition state_after (f : Flow) : State :=
  match f with
  | Next st | Break st | Failed st _ => st
  end.

(** One pass through the body of [for trial_id in range(max_trials)]. *)
Definition iteration (trial_id : nat) (st : State) : Flow :=
  let flag := stop_flag st || stop_called ev trial_id in
  if flag then
    Break (mkState (sessions st) (optimizer st) (executor_client st) flag)
  else
    match propose (optimizer st) with
    | Raise e => Failed st e
    | Ok (fault_plan, opt1) =>
        let '(observation, client1) :=
          apply_policy (executor_client st) (executor_env ev trial_id)
                       fault_plan in
        let m1 :=
          if http_stop ev trial_id
          then serve_stop (clock ev trial_id) (sessions st)
          else sessions st in
        match observation with
        | None => Next (mkState m1 opt1 client1 flag)
        | Some obs =>
            match calculate_severity obs with
            | Raise e => Failed (mkState m1 opt1 client1 flag) e
            | Ok severity_score =>
                match new_Trial (clock ev trial_id) trial_id fault_plan
                                (Some obs) (Some severity_score) with
                | Raise e => Failed (mkState m1 opt1 client1 flag) e
                | Ok trial =>
                    let m2 :=
                      alter (fun s => add_trial (clock ev trial_id) s trial)
                            session_id m1 in
                    match record opt1 fault_plan severity_score with
                    | Raise e => Failed (mkState m2 opt1 client1 flag) e
                    | Ok opt2 =>
                        Next (mkState (update_session m2) opt2 client1 flag)
                    end
                end
            end
        end
    end.

(** The [for] loop over the remaining trial ids: the state it ends in and
    the exception that ended it, if any. *)
Fixpoint loop (trial_ids : list nat) (st : State) : State * option Exn :=
  match trial_ids with
  | [] => (st, None)
  | trial_id :: rest =>
      match iteration trial_id st with
      | Next st' => loop rest st'
      | Break st' => (st', None)
      | Failed st' e => (st', Some e)
      end
  end.

(** The [except Exception] handler of [run]. *)
Definition on_exception (st : State) : State :=
  mkState
    (update_session
       (alter (transition_to_failed (end_time ev)) session_id (sessions st)))
    (optimizer st) (executor_client st) (stop_flag st).

Definition run (st : State) : State :=
  match SessionManager.get_session (sessions st) session_id with
  | None => st
  | Some session =>
      match transition_to_running (start_time ev) session with
      | Raise _ => on_exception st
      | Ok s1 =>
          let st1 :=
            mkState (update_session (<[session_id := s1]> (sessions st)))
                    (optimizer st) (executor_client st) (stop_flag st) in
          match loop (seq 0 (max_trials s1)) st1 with
          | (st2, Some _) => on_exception st2
          | (st2, None) =>
              match session_of st2 with
              | None => st2
              | Some s2 =>
                  match transition_to_completed (end_time ev) s2 with
                  | Raise _ => on_exception st2
                  | Ok s3 =>
                      mkState
                        (update_session (<[session_id := s3]> (sessions st2)))
                        (optimizer st2) (executor_client st2) (stop_flag st2)
                  end
              end
          end
      end
  end.

(** The ids of the trials recorded in this worker's session. *)
Definition recorded_ids (st : State) : list nat :=
  match session_of st with
  | Some s => List.map trial_id (trials s)
  | None => []
  end.

End Run.

Arguments Events : clear implicits.
Arguments State : clear implicits.
Arguments Flow : clear implicits.

End Worker.

(** ** The service: the worker with the concrete collaborators *)

Module Service.

Abbreviation Plan := (gmap string Optimizer.Value).
Abbreviation Obs := Analyzer.Observation.

Section Wiring.

Variable select_next_point :
  list Optimizer.Dimension -> Optimizer.ProxyModel -> Q ->
  option (list Optimizer.Value).
Variable analyzer : Analyzer.AnalyzerService.t.

(** The optimizer together with the state of the [random] module. *)
Definition propose (o : Optimizer.OptimizerCore * Optimizer.Random)
    : result (Plan * (Optimizer.OptimizerCore * Optimizer.Random)) :=
  let* pr := Optimizer.propose select_next_point (fst o) (snd o) in
  Ok (fst pr, (fst o, snd pr)).

Definition record (o : Optimizer.OptimizerCore * Optimizer.Random)
    (fault_plan : Plan) (score : Q)
    : result (Optimizer.OptimizerCore * Optimizer.Random) :=
  Ok (Optimizer.record (fst o) fault_plan score, snd o).

Definition apply_policy (c : Executor.ExecutorClient) (e : Executor.Env Obs)
    (fault_plan : Plan) : option Obs * Executor.ExecutorClient :=
  let a := Executor.apply_policy c e in
  (Executor.returned a, Executor.client_after a).

Definition calculate_severity (observation : Obs) : result Q :=
  Ok (Analyzer.AnalyzerService.total_score
        (Analyzer.AnalyzerService.calculate_severity analyzer observation)).

Definition run (session_id : string) (ev : Worker.Events (Executor.Env Obs)) :=
  Worker.run propose record apply_policy calculate_severity session_id ev.

End Wiring.

End Service.

(** ** Concrete inputs used by the examples below *)

Module Scenario.
Import Session.

(** Analyzer of scenario 2 of the specification: baseline 100, threshold
    500, weights 1/1/1 (normalized to thirds). *)
Definition analyzer : Analyzer.AnalyzerService.t :=
  Analyzer.AnalyzerService.mk (Analyzer.PerformanceScorer.mk 100 500)
    (1 # 3) (1 # 3) (1 # 3).

Definition slow_healthy : Analyzer.Observation :=
  Analyzer.mkObservation (Some 200%Z) (Some 600) (Some 0) [] None.


Definition at_threshold_typed : TypedAnalyzer.RawObservation :=
  TypedAnalyzer.mkRawObservation (Some 200%Z) (Some 500) 0 None [].

Definition typed_config : TypedAnalyzer.AnalyzerConfig :=
  TypedAnalyzer.mkConfig
    (<["bug" := 1]> (<["perf" := 1]> (<["struct" := 1]> ∅))) 100 500 None.

Definition zero_weight_config : TypedAnalyzer.AnalyzerConfig :=
  TypedAnalyzer.mkConfig
    (<["bug" := 0]> (<["perf" := 0]> (<["struct" := 0]> ∅))) 100 500 None.

(** A healthy response whose error log holds a line without any of the
    critical keywords. *)
Definition benign_log : Analyzer.Observation :=
  Analyzer.mkObservation (Some 200%Z) (Some 100) (Some 0)
    ["retrying payment request"] None.

Definition keyword_log_typed : TypedAnalyzer.RawObservation :=
  TypedAnalyzer.mkRawObservation (Some 200%Z) (Some 100) 0 None
    ["2025-11-11T10:00:00Z ERROR Payment service timeout"].

Definition lowercase_log_typed : TypedAnalyzer.RawObservation :=
  TypedAnalyzer.mkRawObservation (Some 200%Z) (Some 100) 0 None
    ["2025-11-11T10:00:00Z error payment service timeout"].

(** Executor surroundings: the same outcome at every attempt, no jitter,
    the clock standing at [now]. *)
Definition always (now : Q) (o : Executor.Outcome Analyzer.Observation)
    : Executor.Env Analyzer.Observation :=
  Executor.mkEnv now (fun _ => o) (fun _ => now) (fun _ => 0).



(** A one-dimensional search space and its optimizer. *)
Definition space : list Optimizer.DimConfig :=
  [Optimizer.mkDimConfig "real" "delay_ms" [] [0; 1000]].

Definition optimizer0 : Optimizer.OptimizerCore :=
  Optimizer.mkOptimizer space [Optimizer.Real 0 1000 "delay_ms"]
    (Optimizer.mkProxy false [] []) [] [] 0 None.

Definition rng (u : Q) : Optimizer.Random :=
  Optimizer.mkRandom (fun _ => u) 0.

(** A selector that always picks the same candidate. *)
Definition fixed_selector (ds : list Optimizer.Dimension)
    (model : Optimizer.ProxyModel) (best : Q)
    : option (list Optimizer.Value) :=
  Some [Optimizer.VNum 750].

(** A pending session with a budget of two trials, registered under its
    id, and a worker for it. *)
Definition session0 : OptimizationSession Service.Plan Service.Obs :=
  mkSession "s-1" "payment" PENDING 2 [] None 0 0 None None.

Definition state0
    : Worker.State Service.Plan Service.Obs
        (Optimizer.OptimizerCore * Optimizer.Random) Executor.ExecutorClient :=
  Worker.mkState (<["s-1" := session0]> ∅) (optimizer0, rng (1 # 2))
                 Executor.default_client false.

(** The executor answers 404 in iteration 0 and 200 afterwards; nobody asks
    to stop. *)
Definition first_call_fails : Worker.Events (Executor.Env Service.Obs) :=
  Worker.mkEvents 1 (fun i => 2 + inject_Z (Z.of_nat i)) 10
    (fun _ => false) (fun _ => false)
    (fun i => match i with
              | O => always 2 (Executor.Response 404 None)
              | S _ => always 3 (Executor.Response 200 (Some slow_healthy))
              end).

(** The executor always answers 200; [stop_session] is served while
    iteration 0 awaits the executor. *)
Definition stopped_during_first : Worker.Events (Executor.Env Service.Obs) :=
  Worker.mkEvents 1 (fun i => 2 + inject_Z (Z.of_nat i)) 10
    (fun _ => false) (fun i => (i =? 0)%nat)
    (fun _ => always 2 (Executor.Response 200 (Some slow_healthy))).

Definition run0 (ev : Worker.Events (Executor.Env Service.Obs)) :=
  Service.run fixed_selector analyzer "s-1" ev state0.

(** A running session without trials, and three scored trials for it: the
    second and the third share the highest score. *)
Definition empty_session : OptimizationSession unit unit :=
  mkSession "s" "svc" RUNNING 10 [] None 0 0 None None.

Definition three_trials : list (Q * Trial unit unit) :=
  [(1, mkTrial 0 tt (Some tt) (Some 5) 1 "completed");
   (2, mkTrial 1 tt (Some tt) (Some 7) 2 "completed");
   (3, mkTrial 2 tt (Some tt) (Some 7) 3 "completed")].

(** Collaborators that always answer: a proposer, an executor that returns
    an observation, an analyzer that scores it 5.  A pending session with a
    budget of three, and events in which [stop()] is called before
    iteration 2. *)
Definition steady_propose (o : unit) : result (unit * unit) := Ok (tt, tt).
Definition steady_record (o : unit) (p : unit) (q : Q) : result unit := Ok tt.
Definition steady_apply (c : unit) (e : unit) (p : unit)
    : option unit * unit := (Some tt, tt).
Definition steady_severity (o : unit) : result Q := Ok 5.


Definition stop_before_third : Worker.Events unit :=
  Worker.mkEvents 1 (fun i => 2 + inject_Z (Z.of_nat i)) 10
    (fun i => (i =? 2)%nat) (fun _ => false) (fun _ => tt).

(** A worker handed a session that is already COMPLETED. *)
Definition finished_session : OptimizationSession unit unit :=
  mkSession "s-3" "svc" COMPLETED 3 [] None 0 9 (Some 1) (Some 9).

Definition finished_state : Worker.State unit unit unit unit :=
  Worker.mkState (<["s-3" := finished_session]> ∅) tt tt false.

(** The breaker has counted three failures of five; the next two requests
    time out and the third is answered. *)
Definition worn_client : Executor.ExecutorClient :=
  Executor.mkClient 5 (1 # 2) 8 10
    (Executor.record_failures [1; 2; 3] (Executor.new_breaker 5 60)).

Definition two_timeouts_then_ok : Executor.Env Analyzer.Observation :=
  Executor.mkEnv 10
    (fun i => match i with
              | 0%nat | 1%nat => Executor.TimeoutException
              | _ => Executor.Response 200 (Some slow_healthy)
              end)
    (fun i => 11 + inject_Z (Z.of_nat i)) (fun _ => 0).

(** Four health checks that fail, each in its own way. *)
Definition failing_probes : list (Q * Executor.Outcome Analyzer.Observation) :=
  [(1, Executor.ConnectError); (2, Executor.Response 503 None);
   (3, Executor.TimeoutException); (4, Executor.ConnectError)].

Definition fifth_probe : Executor.Outcome Analyzer.Observation :=
  Executor.Response 500 None.

(** A search space whose second entry has a type the converter does not
    know, and the optimizer built for it. *)
Definition odd_space : list Optimizer.DimConfig :=
  [Optimizer.mkDimConfig "real" "delay_ms" [] [0; 1000];
   Optimizer.mkDimConfig "boolean" "abort" [] []].

Definition odd_optimizer : Optimizer.OptimizerCore :=
  Optimizer.mkOptimizer odd_space [Optimizer.Real 0 1000 "delay_ms"]
    (Optimizer.mkProxy false [] []) [] [] 0 None.

(** Two recorded results for [space]. *)
Definition two_results : list (gmap string Optimizer.Value * Q) :=
  [(<["delay_ms" := Optimizer.VNum 250]> ∅, 3);
   (<["delay_ms" := Optimizer.VNum 750]> ∅, 7)].

End Scenario.

(** * Properties *)

(** ** Comparisons *)

Lemma Qltb_lt x y : Qltb x y = true <-> x < y.
Proof.
  unfold Qltb. rewrite negb_true_iff. split.
  - intros H. apply Qnot_le_lt. intros Hle.
    apply Qle_bool_iff in Hle. congruence.
  - intros H. destruct (Qle_bool y x) eqn:E; [|reflexivity].
    apply Qle_bool_iff in E. exfalso. exact (Qlt_not_le _ _ H E).
Qed.

Lemma Qltb_ge x y : Qltb x y = false <-> y <= x.
Proof.
  unfold Qltb. rewrite negb_false_iff. apply Qle_bool_iff.
Qed.


Lemma Qgeb_lt x y : Qgeb x y = false <-> x < y.
Proof.
  unfold Qgeb. split.
  - intros H. apply Qnot_le_lt. intros Hle.
    apply Qle_bool_iff in Hle. congruence.
  - intros H. destruct (Qle_bool y x) eqn:E; [|reflexivity].
    apply Qle_bool_iff in E. exfalso. exact (Qlt_not_le _ _ H E).
Qed.

Lemma Qgtb_gt x y : Qgtb x y = true <-> y < x.
Proof. apply Qltb_lt. Qed.

Lemma Qgtb_le x y : Qgtb x y = false <-> x <= y.
Proof. apply Qltb_ge. Qed.

(** Case analysis on the float comparisons of a goal, leaving linear
    arithmetic. *)
Ltac cases_Qltb :=
  repeat match goal with
  | |- context [Qltb ?a ?b] =>
      lazymatch a with
      | context [Qltb _ _] => fail
      | _ =>
          lazymatch b with
          | context [Qltb _ _] => fail
          | _ =>
              let E := fresh "E" in
              destruct (Qltb a b) eqn:E;
              [apply Qltb_lt in E | apply Qltb_ge in E]
          end
      end
  end.


Lemma pymax_pymin_clamp lo hi x :
  lo <= hi -> pymax lo (pymin hi x) == clamp lo hi x.
Proof.
  intros Hle. unfold pymin, pymax, clamp. cases_Qltb; lra.
Qed.

(** ** The session model *)

Section SessionFacts.
Import Session.
Context {Plan Obs : Type}.
Implicit Types (s : OptimizationSession Plan Obs) (t : Trial Plan Obs).

Lemma add_trial_best_cases now s t :
  best_result (add_trial now s t) = best_result s
  \/ exists sc,
       severity_score t = Some sc
       /\ best_result (add_trial now s t)
          = Some (mkBestResult (fault_plan t) sc (trial_id t) now)
       /\ forall b, best_result s = Some b -> best_severity_score b < sc.
Proof.
  unfold add_trial; cbn.
  destruct (severity_score t) as [sc|]; [|now left].
  destruct (best_result s) as [b|] eqn:Eb.
  - destruct (Qgtb sc (best_severity_score b)) eqn:E; [|now left].
    right. exists sc. repeat split.
    intros b' [= <-]. now apply Qgtb_gt.
  - right. exists sc. repeat split. intros b' [=].
Qed.

Lemma add_trial_best_score_le now s t :
  valid_score (severity_score t) = true ->
  best_score s <= best_score (add_trial now s t).
Proof.
  intros Hvalid.
  destruct (add_trial_best_cases now s t) as [Hsame|(sc & Hsc & Hnew & Hgt)].
  - unfold best_score. rewrite Hsame. apply Qle_refl.
  - unfold best_score. rewrite Hnew; cbn.
    destruct (best_result s) as [b|].
    + apply Qlt_le_weak, Hgt. reflexivity.
    + rewrite Hsc in Hvalid; cbn in Hvalid. unfold score_in_range in Hvalid.
      apply andb_true_iff in Hvalid as [H0 _]. now apply Qle_bool_iff.
Qed.

(** C10. Appending a trial changes only [trials], [updated_at] and possibly
    [best_result]; a trial without a score leaves [best_result] and
    [best_score] as they were; [best_result] changes only to the appended
    trial, and only when that trial has a score and either no best exists
    yet or the score is strictly greater than the best one; for a trial
    that passes the model's range check, [best_score] does not decrease. *)
Theorem add_trial_best_result now s t :
  valid_score (severity_score t) = true ->
  (trials (add_trial now s t) = trials s ++ [t]
   /\ updated_at (add_trial now s t) = now
   /\ id (add_trial now s t) = id s
   /\ service_name (add_trial now s t) = service_name s
   /\ status (add_trial now s t) = status s
   /\ max_trials (add_trial now s t) = max_trials s
   /\ created_at (add_trial now s t) = created_at s
   /\ started_at (add_trial now s t) = started_at s
   /\ completed_at (add_trial now s t) = completed_at s)
  /\ (severity_score t = None ->
      best_result (add_trial now s t) = best_result s
      /\ best_score (add_trial now s t) = best_score s)
  /\ (best_result (add_trial now s t) <> best_result s ->
      exists sc,
        severity_score t = Some sc
        /\ best_result (add_trial now s t)
           = Some (mkBestResult (fault_plan t) sc (trial_id t) now)
        /\ forall b, best_result s = Some b -> best_severity_score b < sc)
  /\ best_score s <= best_score (add_trial now s t).
Proof.
  intros Hvalid. split; [|split; [|split]].
  - repeat split.
  - intros Hnone. unfold best_score, add_trial; cbn. now rewrite Hnone.
  - intros Hchanged.
    destruct (add_trial_best_cases now s t) as [Hsame|Hnew]; [|exact Hnew].
    contradiction.
  - now apply add_trial_best_score_le.
Qed.

(** Over any sequence of appended trials the best score only grows. *)
Lemma best_score_monotone now s (ts : list (Trial Plan Obs)) :
  Forall (fun t => valid_score (severity_score t) = true) ts ->
  best_score s <= best_score (fold_left (add_trial now) ts s).
Proof.
  intros Hall. revert s.
  induction Hall as [|t ts Ht _ IH]; intros s; cbn.
  - apply Qle_refl.
  - eapply Qle_trans; [|apply IH].
    now apply add_trial_best_score_le.
Qed.

End SessionFacts.

Lemma add_trial_best_result_witness :
  Session.valid_score (Some 7) = true
  /\ Session.best_score
       (Session.add_trial 3
          (Session.mkSession "s" "svc" Session.RUNNING 10 [] None 0 0 None None)
          (Session.mkTrial 0 tt (Some tt) None 3 "completed"))
     = 0
  /\ 0 <= Session.best_score
            (Session.add_trial 3
               (Session.mkSession "s" "svc" Session.RUNNING 10 [] None 0 0
                  None None)
               (Session.mkTrial 0 tt (Some tt) (Some 7) 3 "completed")).
Proof.
  split; [reflexivity|]. split.
  - reflexivity.
  - exact (proj2 (proj2 (proj2
      (add_trial_best_result 3
         (Session.mkSession "s" "svc" Session.RUNNING 10 [] None 0 0 None None)
         (Session.mkTrial 0 tt (Some tt) (Some 7) 3 "completed") eq_refl)))).
Defined.

(** ** Substrings *)

Lemma prefix_app (keyword log : string) :
  String.prefix keyword log = true <->
  exists post, log = (keyword ++ post)%string.
Proof.
  revert log. induction keyword as [|a keyword IH]; intros log.
  - destruct log; cbn; split; eauto.
  - destruct log as [|b log]; cbn.
    + split; [discriminate|]. intros [post [=]].
    + destruct (ascii_dec a b) as [->|Hne].
      * rewrite IH. split; intros [post H]; exists post.
        -- now rewrite H.
        -- now injection H.
      * split; [discriminate|]. intros [post [= Hab _]]. congruence.
Qed.

(** [str_contains keyword log] holds exactly when [log] is some text, then
    [keyword] character for character, then some text. *)
Lemma str_contains_spec (keyword log : string) :
  str_contains keyword log = true <->
  exists pre post, log = (pre ++ keyword ++ post)%string.
Proof.
  induction log as [|c log IH].
  - cbn [str_contains]. destruct (String.prefix keyword "") eqn:E.
    + apply prefix_app in E as [post E]. split; [|reflexivity].
      intros _. exists ""%string, post. exact E.
    + split; [discriminate|]. intros (pre & post & H).
      destruct pre; cbn in H.
      * assert (String.prefix keyword "" = true) by (apply prefix_app; eauto).
        congruence.
      * discriminate.
  - cbn [str_contains]. destruct (String.prefix keyword (String c log)) eqn:E.
    + apply prefix_app in E as [post E]. split; [|reflexivity].
      intros _. exists ""%string, post. exact E.
    + rewrite IH. split.
      * intros (pre & post & ->). now exists (String c pre), post.
      * intros (pre & post & H). destruct pre as [|c' pre]; cbn in H.
        -- assert (String.prefix keyword (String c log) = true)
             by (apply prefix_app; eauto).
           congruence.
        -- injection H as _ ->. eauto.
Qed.

Lemma has_critical_log_spec (logs : list string) :
  TypedAnalyzer.has_critical_log logs = true <->
  exists log keyword,
    In log logs /\ In keyword TypedAnalyzer.critical_keywords
    /\ str_contains keyword log = true.
Proof.
  unfold TypedAnalyzer.has_critical_log. rewrite existsb_exists. split.
  - intros (log & Hin & H). apply existsb_exists in H as (kw & Hkw & H).
    eauto.
  - intros (log & kw & Hin & Hkw & H). exists log. split; [exact Hin|].
    apply existsb_exists. eauto.
Qed.

(** ** Score_Perf *)

Section Ramp.

Variables B T : Q.
Hypothesis HBT : B < T.

Let inv_pos : 0 < / (T - B).
Proof. apply Qinv_lt_0_compat. lra. Qed.

Let inv_one : / (T - B) * (T - B) == 1.
Proof. rewrite Qmult_comm. apply Qmult_inv_r. lra. Qed.


Lemma ramp_pos A : B < A -> 0 < (A - B) / (T - B) * 9.
Proof. intros H. unfold Qdiv. pose proof inv_pos. nra. Qed.

Lemma ramp_below A : A < T -> (A - B) / (T - B) * 9 < 9.
Proof.
  intros H. unfold Qdiv. pose proof inv_pos. pose proof inv_one. nra.
Qed.


End Ramp.

Lemma typed_perf_missing obs config :
  TypedAnalyzer.latency_ms obs = None ->
  TypedAnalyzer.PerformanceScorer.score obs config = 0.
Proof.
  intros Hnone. unfold TypedAnalyzer.PerformanceScorer.score,
    TypedAnalyzer.PerformanceScorer.score_body.
  rewrite Hnone. now destruct (Qle_bool _ 0).
Qed.

Lemma typed_perf_bad_baseline obs config :
  TypedAnalyzer.baseline_latency_ms config <= 0 ->
  TypedAnalyzer.PerformanceScorer.score obs config = 0.
Proof.
  intros Hle. unfold TypedAnalyzer.PerformanceScorer.score,
    TypedAnalyzer.PerformanceScorer.score_body.
  apply Qle_bool_iff in Hle. now rewrite Hle.
Qed.

Lemma typed_perf_present obs config A :
  TypedAnalyzer.latency_ms obs = Some A ->
  0 < TypedAnalyzer.baseline_latency_ms config ->
  TypedAnalyzer.PerformanceScorer.score obs config
  = if Qgtb A (TypedAnalyzer.threshold_latency_ms config) then 10
    else pymin 10 (pymax 0
           (if Qgtb (TypedAnalyzer.threshold_latency_ms config)
                    (TypedAnalyzer.baseline_latency_ms config)
            then (A - TypedAnalyzer.baseline_latency_ms config)
                 / (TypedAnalyzer.threshold_latency_ms config
                    - TypedAnalyzer.baseline_latency_ms config) * 9
            else 0)).
Proof.
  intros HA HB. unfold TypedAnalyzer.PerformanceScorer.score,
    TypedAnalyzer.PerformanceScorer.score_body.
  rewrite HA; cbn.
  destruct (Qle_bool (TypedAnalyzer.baseline_latency_ms config) 0) eqn:E.
  - apply Qle_bool_iff in E. lra.
  - now destruct (Qgtb A _).
Qed.




(** ** Zero weights *)

Lemma fdiv_zero a b :
  b == 0 -> Analyzer.AnalyzerService.fdiv a b = Raise ZeroDivisionError.
Proof.
  intros H. unfold Analyzer.AnalyzerService.fdiv.
  apply Qeq_bool_iff in H. now rewrite H.
Qed.

(** Whenever the three weights sum to zero, the service's analyzer cannot
    be constructed. *)
Lemma init_zero_sum baseline threshold w_bug w_perf w_struct :
  w_bug + w_perf + w_struct == 0 ->
  Analyzer.AnalyzerService.init baseline threshold w_bug w_perf w_struct
  = Raise ZeroDivisionError.
Proof.
  intros H. unfold Analyzer.AnalyzerService.init.
  now rewrite (fdiv_zero _ _ H).
Qed.

(** C7 on the service's analyzer.  With all three weights zero,
    [AnalyzerService.__init__] divides by the zero weight sum: no analyzer
    is built and no score is computed, for any observation. *)
Theorem zero_weights_raise baseline threshold observation :
  Analyzer.AnalyzerService.severity_of baseline threshold 0 0 0 observation
  = Raise ZeroDivisionError.
Proof.
  unfold Analyzer.AnalyzerService.severity_of.
  now rewrite init_zero_sum.
Qed.

(** The typed analyzer has the guard: a zero weight sum gives the score 0
    and no breakdown, whatever the sub-scores are. *)
Lemma typed_zero_weights struct_scorer config observation :
  TypedAnalyzer.get_weight config "bug" == 0 ->
  TypedAnalyzer.get_weight config "perf" == 0 ->
  TypedAnalyzer.get_weight config "struct" == 0 ->
  TypedAnalyzer.AnalyzerService.calculate_severity struct_scorer config
    observation = (0, None).
Proof.
  intros Hb Hp Hs. unfold TypedAnalyzer.AnalyzerService.calculate_severity.
  assert (Qeq_bool (TypedAnalyzer.get_weight config "bug"
                    + TypedAnalyzer.get_weight config "perf"
                    + TypedAnalyzer.get_weight config "struct") 0 = true)
    as ->; [|reflexivity].
  apply Qeq_bool_iff. rewrite Hb, Hp, Hs. reflexivity.
Qed.

Example typed_zero_weights_example struct_scorer :
  TypedAnalyzer.AnalyzerService.calculate_severity struct_scorer
    Scenario.zero_weight_config Scenario.at_threshold_typed = (0, None).
Proof. apply typed_zero_weights; reflexivity. Qed.

(** ** Score_Bug *)

Lemma service_bug_ladder (obs : Analyzer.Observation) :
  below_400 (Analyzer.status_code obs) ->
  Analyzer.BugScorer.score obs
  = if (0 <? List.length (Analyzer.error_logs obs))%nat then 6
    else match Analyzer.error_rate obs with
         | Some r => if negb (Qeq_bool r 0) && Qgtb r 0 then 3 else 0
         | None => 0
         end.
Proof.
  intros Hlow. unfold Analyzer.BugScorer.score.
  destruct (Analyzer.status_code obs) as [code|]; cbn in *.
  - assert ((500 <=? code)%Z = false) as -> by lia.
    assert ((400 <=? code)%Z = false) as -> by lia.
    rewrite !andb_false_r.
    destruct (Analyzer.error_logs obs), (Analyzer.error_rate obs); reflexivity.
  - destruct (Analyzer.error_logs obs), (Analyzer.error_rate obs); reflexivity.
Qed.

Lemma typed_bug_ladder (obs : TypedAnalyzer.RawObservation) config code :
  TypedAnalyzer.status_code obs = Some code ->
  TypedAnalyzer.BugScorer.score obs config
  = if (500 <=? code)%Z then 10
    else if (400 <=? code)%Z then 8
    else if TypedAnalyzer.has_critical_log (TypedAnalyzer.logs obs) then 6
    else if Qgtb (TypedAnalyzer.error_rate obs) 0 then 3
    else 0.
Proof.
  intros Hcode. unfold TypedAnalyzer.BugScorer.score,
    TypedAnalyzer.BugScorer.score_body.
  rewrite Hcode; cbn.
  destruct (500 <=? code)%Z; [reflexivity|]. cbn.
  destruct (400 <=? code)%Z; [reflexivity|].
  destruct (TypedAnalyzer.logs obs) as [|log logs]; cbn.
  - now destruct (Qgtb _ 0).
  - destruct (_ || _); [reflexivity|]. now destruct (Qgtb _ 0).
Qed.

(** C9, as the code has it.  The typed analyzer follows the ladder for an
    observation that carries a status code (500 and above: 10, 400 and
    above: 8, a log line containing ERROR, FATAL, CRITICAL, PANIC or
    EXCEPTION: 6, a positive error rate: 3, otherwise 0), so below 400 the
    score is 6 exactly when some log line contains a keyword.  The service's
    analyzer does not look into the lines: with the status code absent or
    below 400 its score is 6 exactly when [error_logs] is not empty. *)
Theorem score_bug_log_rule :
  (forall (obs : TypedAnalyzer.RawObservation) config code,
      TypedAnalyzer.status_code obs = Some code ->
      let score := TypedAnalyzer.BugScorer.score obs config in
      ((500 <= code)%Z -> score = 10)
      /\ ((400 <= code < 500)%Z -> score = 8)
      /\ ((code < 400)%Z ->
          (score = 6 <->
           exists log keyword,
             In log (TypedAnalyzer.logs obs)
             /\ In keyword ["ERROR"; "FATAL"; "CRITICAL"; "PANIC"; "EXCEPTION"]
             /\ str_contains keyword log = true)
          /\ (score = 3 <->
              TypedAnalyzer.has_critical_log (TypedAnalyzer.logs obs) = false
              /\ 0 < TypedAnalyzer.error_rate obs)
          /\ (score = 6 \/ score = 3 \/ score = 0)))
  /\ (forall obs : Analyzer.Observation,
      below_400 (Analyzer.status_code obs) ->
      (Analyzer.BugScorer.score obs = 6 <-> Analyzer.error_logs obs <> [])).
Proof.
  split.
  - intros obs config code Hcode score. subst score.
    rewrite (typed_bug_ladder obs config code Hcode).
    split; [|split].
    + intros H. now assert ((500 <=? code)%Z = true) as -> by lia.
    + intros H. assert ((500 <=? code)%Z = false) as -> by lia.
      now assert ((400 <=? code)%Z = true) as -> by lia.
    + intros H.
      assert ((500 <=? code)%Z = false) as -> by lia.
      assert ((400 <=? code)%Z = false) as -> by lia.
      pose proof (has_critical_log_spec (TypedAnalyzer.logs obs)) as Hspec.
      destruct (TypedAnalyzer.has_critical_log (TypedAnalyzer.logs obs)).
      * split; [|split].
        -- split; [intros _; now apply Hspec|reflexivity].
        -- split; [discriminate|intros [[=] _]].
        -- now left.
      * assert (Hno : ~ exists log keyword,
                   In log (TypedAnalyzer.logs obs)
                   /\ In keyword
                        ["ERROR"; "FATAL"; "CRITICAL"; "PANIC"; "EXCEPTION"]
                   /\ str_contains keyword log = true).
        { intros Hex. apply Hspec in Hex. discriminate. }
        destruct (Qgtb (TypedAnalyzer.error_rate obs) 0) eqn:E.
        -- apply Qgtb_gt in E. split; [|split].
           ++ split; [discriminate|]. intros Hex. now destruct Hno.
           ++ split; [now intros _|reflexivity].
           ++ right; now left.
        -- apply Qgtb_le in E. split; [|split].
           ++ split; [discriminate|]. intros Hex. now destruct Hno.
           ++ split; [discriminate|]. intros [_ Hpos]. lra.
           ++ right; now right.
  - intros obs Hlow. rewrite (service_bug_ladder obs Hlow).
    destruct (Analyzer.error_logs obs) as [|log logs]; cbn.
    + split; [|congruence].
      destruct (Analyzer.error_rate obs) as [r|]; [|discriminate].
      destruct (_ && _); discriminate.
    + split; [discriminate|reflexivity].
Qed.

Lemma score_bug_log_rule_witness :
  TypedAnalyzer.status_code Scenario.keyword_log_typed = Some 200%Z
  /\ (200 < 400)%Z
  /\ TypedAnalyzer.BugScorer.score Scenario.keyword_log_typed
       Scenario.typed_config = 6.
Proof.
  split; [reflexivity|]. split; [lia|].
  apply (proj1 (proj2 (proj2 (proj1 score_bug_log_rule
           Scenario.keyword_log_typed Scenario.typed_config 200%Z eq_refl))
           eq_refl)).
  exists "2025-11-11T10:00:00Z ERROR Payment service timeout"%string,
         "ERROR"%string.
  split; [now left|]. split; [now left|reflexivity].
Defined.

(** The keyword test is case-sensitive: the same line in lower case does
    not trigger the 6.0 rule of the typed analyzer. *)
Example lowercase_keyword_is_ignored :
  TypedAnalyzer.BugScorer.score Scenario.lowercase_log_typed
    Scenario.typed_config = 0.
Proof. reflexivity. Qed.

(** C9 as stated fails on the service's analyzer: a 200 response whose
    error log holds one line without any of the keywords is scored 6. *)
Lemma score_bug_benign_log_scores_6 :
  below_400 (Analyzer.status_code Scenario.benign_log)
  /\ TypedAnalyzer.has_critical_log (Analyzer.error_logs Scenario.benign_log)
     = false
  /\ Analyzer.BugScorer.score Scenario.benign_log = 6.
Proof.
  split; [cbn; lia|]. split; reflexivity.
Qed.

(** ** The executor client *)

Section ExecutorFacts.
Import Executor.
Context {Obs : Type}.
Implicit Types (c : ExecutorClient) (e : Env Obs) (cb : CircuitBreaker).

Lemma is_4xx_permanent (o : Outcome Obs) :
  is_4xx o = true -> is_permanent o = true.
Proof.
  destruct o as [code body| | |]; cbn; try discriminate.
  intros H. apply andb_true_iff in H as [H1 H2].
  unfold is_permanent, is_success, is_retried.
  assert ((code =? 200)%Z = false) as -> by lia.
  assert ((500 <=? code)%Z = false) as -> by lia.
  now destruct body.
Qed.

Lemma record_failure_time now cb :
  last_failure_time (record_failure now cb) = Some now.
Proof. reflexivity. Qed.

Lemma record_failure_count now cb :
  failure_count (record_failure now cb) = (failure_count cb + 1)%Z.
Proof. reflexivity. Qed.




End ExecutorFacts.



(** ** 5xx answers and the breaker *)

Section RetryFacts.
Import Executor.
Context {Obs : Type}.
Implicit Types (c : ExecutorClient) (e : Env Obs) (cb : CircuitBreaker).

(** While every answer is a 5xx, the loop sleeps and tries again, and the
    breaker it carries is never touched. *)
Lemma attempts_all_5xx c e n : forall a cb sl,
  (forall i, (a <= i < a + n)%nat -> is_5xx (outcome e i) = true) ->
  attempts c e n a cb sl
  = mkApplied None (with_breaker c cb) (a + n)
      (sl ++ List.map (jittered_delay c e) (seq a n)).
Proof.
  induction n as [|n IH]; intros a cb sl Hall; cbn [attempts seq List.map].
  - now rewrite Nat.add_0_r, app_nil_r.
  - pose proof (Hall a ltac:(lia)) as Ha.
    destruct (outcome e a) as [code body| | |]; cbn in Ha; try discriminate.
    apply andb_true_iff in Ha as [H200 H500].
    apply negb_true_iff in H200. rewrite H200, H500.
    rewrite IH by (intros i Hi; apply Hall; lia).
    rewrite <- app_assoc. cbn. f_equal. lia.
Qed.

(** While every request times out, each attempt records a failure. *)
Lemma attempts_all_timeouts c e n : forall a cb sl,
  (forall i, (a <= i < a + n)%nat -> outcome e i = TimeoutException) ->
  failure_count (circuit_breaker (client_after (attempts c e n a cb sl)))
  = (failure_count cb + Z.of_nat n)%Z.
Proof.
  induction n as [|n IH]; intros a cb sl Hall; cbn [attempts].
  - cbn. lia.
  - rewrite (Hall a) by lia.
    rewrite IH by (intros i Hi; apply Hall; lia).
    rewrite record_failure_count. lia.
Qed.

(** C5 on the code.  A call that the breaker lets through and whose
    attempts are all answered with a 5xx status is retried with the
    exponential backoff until the attempts are used up, and returns [None];
    the breaker is left exactly as [can_attempt] left it: no failure was
    counted. *)
Theorem all_5xx_not_counted c e :
  fst (can_attempt (call_time e) (circuit_breaker c)) = true ->
  (forall i, (i < max_retries c)%nat -> is_5xx (outcome e i) = true) ->
  returned (apply_policy c e) = None
  /\ requests (apply_policy c e) = max_retries c
  /\ sleeps (apply_policy c e)
     = List.map (fun attempt => backoff_delay c attempt + jitter_draw e attempt)
                (seq 0 (max_retries c))
  /\ circuit_breaker (client_after (apply_policy c e))
     = snd (can_attempt (call_time e) (circuit_breaker c))
  /\ failure_count (circuit_breaker (client_after (apply_policy c e)))
     = failure_count (circuit_breaker c).
Proof.
  intros Hgate Hall. unfold apply_policy.
  destruct (can_attempt (call_time e) (circuit_breaker c)) as [allowed cb']
    eqn:Egate.
  cbn in Hgate. subst allowed. cbn.
  rewrite attempts_all_5xx by (intros i Hi; apply Hall; lia). cbn.
  repeat split.
  unfold can_attempt in Egate.
  destruct (state (circuit_breaker c)); try (now injection Egate as <-).
  destruct (_ && _); [|discriminate]. now injection Egate as <-.
Qed.

End RetryFacts.

Lemma all_5xx_not_counted_witness :
  Executor.requests
    (Executor.apply_policy Executor.default_client
       (Scenario.always 7 (Executor.Response 503 None))) = 5%nat
  /\ Executor.failure_count
       (Executor.circuit_breaker
          (Executor.client_after
             (Executor.apply_policy Executor.default_client
                (Scenario.always 7 (Executor.Response 503 None))))) = 0%Z.
Proof.
  pose proof (all_5xx_not_counted Executor.default_client
                (Scenario.always 7 (Executor.Response 503 None))
                eq_refl (fun i _ => eq_refl)) as H.
  split; [apply H|apply H].
Defined.

(** The same call with five timeouts instead: five failures are counted
    and the breaker opens. *)
Example five_timeouts_open_the_breaker :
  Executor.circuit_breaker
    (Executor.client_after
       (Executor.apply_policy Executor.default_client
          (Scenario.always 7 Executor.TimeoutException)))
  = Executor.mkBreaker 5 60 Executor.OPEN 5 (Some 7).
Proof. reflexivity. Qed.

(** The sleeps of that call: 0.5, 1, 2, 4 and 8 seconds before jitter. *)
Example backoff_delays :
  List.map (Executor.backoff_delay Executor.default_client) (seq 0 5)
  = [1 # 2; 2 # 2; 4 # 2; 8 # 2; 8].
Proof. reflexivity. Qed.

(** ** The circuit breaker *)

Section BreakerFacts.
Import Executor.
Implicit Types (cb : CircuitBreaker).

Lemma record_failures_app ts1 ts2 cb :
  record_failures (ts1 ++ ts2) cb
  = record_failures ts2 (record_failures ts1 cb).
Proof. unfold record_failures. apply fold_left_app. Qed.

Lemma record_failures_fields ts : forall cb,
  failure_threshold (record_failures ts cb) = failure_threshold cb
  /\ recovery_timeout (record_failures ts cb) = recovery_timeout cb
  /\ failure_count (record_failures ts cb)
     = (failure_count cb + Z.of_nat (List.length ts))%Z.
Proof.
  induction ts as [|t ts IH]; intros cb; cbn.
  - repeat split. lia.
  - destruct (IH (record_failure t cb)) as (H1 & H2 & H3).
    unfold record_failures in *. rewrite H1, H2, H3. cbn.
    repeat split. lia.
Qed.

(** Below the threshold a closed breaker stays closed. *)
Lemma record_failures_closed ts : forall cb,
  state cb = CLOSED ->
  (failure_count cb + Z.of_nat (List.length ts) < failure_threshold cb)%Z ->
  state (record_failures ts cb) = CLOSED.
Proof.
  induction ts as [|t ts IH]; intros cb Hst Hlt; cbn in *; [exact Hst|].
  apply IH; cbn.
  - assert ((failure_threshold cb <=? failure_count cb + 1)%Z = false) as ->
      by lia.
    exact Hst.
  - lia.
Qed.

(** Once the count has reached the threshold, every state the breaker can
    be in keeps it there: only a recorded success resets it. *)
Lemma record_failure_opens now cb :
  (failure_threshold cb <= failure_count cb + 1)%Z ->
  state (record_failure now cb) = OPEN.
Proof.
  intros H. unfold record_failure; cbn.
  now assert ((failure_threshold cb <=? failure_count cb + 1)%Z = true) as ->
    by lia.
Qed.


End BreakerFacts.



(** ** Subsequences of the iteration indices *)

Lemma sublist_seq_bounds n : forall a (ks : list nat),
  ks `sublist_of` seq a n ->
  forall i k, ks !! i = Some k -> (a + i <= k < a + n)%nat.
Proof.
  induction n as [|n IH]; intros a ks Hsub i k Hk; cbn in Hsub.
  - apply sublist_nil_r in Hsub. subst ks. discriminate.
  - apply sublist_cons_r in Hsub as [Hsub|(ks' & -> & Hsub)].
    + pose proof (IH (S a) ks Hsub i k Hk). lia.
    + destruct i as [|i]; cbn in Hk.
      * injection Hk as <-. lia.
      * pose proof (IH (S a) ks' Hsub i k Hk). lia.
Qed.

Lemma sublist_seq_increasing n : forall a (ks : list nat),
  ks `sublist_of` seq a n ->
  forall i j ki kj,
    (i < j)%nat -> ks !! i = Some ki -> ks !! j = Some kj -> (ki < kj)%nat.
Proof.
  induction n as [|n IH]; intros a ks Hsub i j ki kj Hij Hi Hj; cbn in Hsub.
  - apply sublist_nil_r in Hsub. subst ks. discriminate.
  - apply sublist_cons_r in Hsub as [Hsub|(ks' & -> & Hsub)].
    + exact (IH (S a) ks Hsub i j ki kj Hij Hi Hj).
    + destruct j as [|j]; [lia|]. cbn in Hj.
      destruct i as [|i]; cbn in Hi.
      * injection Hi as <-.
        pose proof (sublist_seq_bounds n (S a) ks' Hsub j kj Hj). lia.
      * apply (IH (S a) ks' Hsub i j ki kj); [lia|assumption|assumption].
Qed.

(** ** The worker loop *)

Section WorkerFacts.
Import Session.
Context {Plan Obs Optimizer Client ClientEnv : Type}.
Variable propose : Optimizer -> result (Plan * Optimizer).
Variable record : Optimizer -> Plan -> Q -> result Optimizer.
Variable apply_policy : Client -> ClientEnv -> Plan -> option Obs * Client.
Variable calculate_severity : Obs -> result Q.
Variable session_id : string.
Variable ev : Worker.Events ClientEnv.

Local Abbreviation sessions_map := (gmap string (OptimizationSession Plan Obs)).
Local Abbreviation state := (Worker.State Plan Obs Optimizer Client).
Local Abbreviation iteration :=
  (Worker.iteration propose record apply_policy calculate_severity
     session_id ev).
Local Abbreviation loop :=
  (Worker.loop propose record apply_policy calculate_severity session_id ev).
Local Abbreviation run :=
  (Worker.run propose record apply_policy calculate_severity session_id ev).
Local Abbreviation recorded_ids := (Worker.recorded_ids session_id).
Local Abbreviation update_session := (Worker.update_session session_id).
Local Abbreviation serve_stop := (Worker.serve_stop session_id).

(** The ids recorded under this worker's session in a session map. *)
Local Abbreviation ids_in m :=
  (match m !! session_id with
   | Some s => List.map trial_id (trials s)
   | None => []
   end).

Lemma lookup_update_session (m : sessions_map) :
  update_session m !! session_id = m !! session_id.
Proof.
  unfold Worker.update_session, SessionManager.update_session.
  destruct (m !! session_id) as [s|] eqn:E; [|exact E].
  rewrite lookup_insert. case_decide; congruence.
Qed.

Lemma ids_insert (m : sessions_map) s :
  ids_in (<[session_id := s]> m) = List.map trial_id (trials s).
Proof. now rewrite lookup_insert_eq. Qed.

Lemma ids_alter
    (f : OptimizationSession Plan Obs -> OptimizationSession Plan Obs)
    (m : sessions_map) :
  (forall s, trials (f s) = trials s) ->
  ids_in (alter f session_id m) = ids_in m.
Proof.
  intros Hf. rewrite lookup_alter_eq.
  destruct (m !! session_id) as [s|]; cbn; [|reflexivity]. now rewrite Hf.
Qed.

Lemma ids_add_trial now t (m : sessions_map) s :
  m !! session_id = Some s ->
  ids_in (alter (fun s => add_trial now s t) session_id m)
  = ids_in m ++ [trial_id t].
Proof.
  intros Hs. rewrite lookup_alter_eq, Hs. cbn. now rewrite map_app.
Qed.

Lemma lookup_serve_stop now (m : sessions_map) :
  m !! session_id = None -> serve_stop now m !! session_id = None.
Proof.
  intros Hnone. unfold Worker.serve_stop, SessionManager.stop_session.
  now rewrite Hnone.
Qed.

Lemma ids_serve_stop now (m : sessions_map) :
  ids_in (serve_stop now m) = ids_in m.
Proof.
  unfold Worker.serve_stop, SessionManager.stop_session.
  destruct (m !! session_id) as [s|] eqn:Es; [|now rewrite Es].
  destruct (status_eqb (status s) RUNNING) eqn:Erun; [|now rewrite Es].
  unfold transition_to_stopping. rewrite Erun. cbn.
  now rewrite lookup_insert_eq.
Qed.

Lemma new_Trial_id now tid p o sc (t : Trial Plan Obs) :
  new_Trial now tid p o sc = Ok t -> trial_id t = tid.
Proof.
  unfold new_Trial. destruct (valid_score sc); [|discriminate].
  now intros [= <-].
Qed.

(** An iteration records nothing, or one trial carrying its own index. *)
Lemma iteration_ids i (st : state) :
  recorded_ids (Worker.state_after (iteration i st)) = recorded_ids st
  \/ recorded_ids (Worker.state_after (iteration i st))
     = recorded_ids st ++ [i].
Proof.
  unfold Worker.iteration, Worker.recorded_ids, Worker.session_of.
  destruct (Worker.stop_flag st || Worker.stop_called ev i); [now left|].
  destruct (propose (Worker.optimizer st)) as [[plan opt1]|e]; [|now left].
  destruct (apply_policy _ _ plan) as [observation client1].
  set (m1 := if Worker.http_stop ev i
             then serve_stop (Worker.clock ev i) (Worker.sessions st)
             else Worker.sessions st).
  assert (Hm1 : ids_in m1 = ids_in (Worker.sessions st)).
  { subst m1. destruct (Worker.http_stop ev i); [|reflexivity].
    apply ids_serve_stop. }
  destruct observation as [obs|]; cbn; [|now left].
  destruct (calculate_severity obs) as [score|e]; cbn; [|now left].
  destruct (new_Trial _ i plan (Some obs) (Some score)) as [t|e] eqn:Et;
    cbn; [|now left].
  apply new_Trial_id in Et.
  assert (Hm2 : ids_in (alter (fun s => add_trial (Worker.clock ev i) s t)
                          session_id m1)
                = ids_in (Worker.sessions st)
                  \/ ids_in (alter (fun s => add_trial (Worker.clock ev i) s t)
                               session_id m1)
                     = ids_in (Worker.sessions st) ++ [i]).
  { revert Hm1. destruct (m1 !! session_id) as [s|] eqn:Es; intros Hm1.
    - right. rewrite (ids_add_trial _ t m1 s Es), Es, Hm1. now rewrite Et.
    - left. rewrite lookup_alter_eq, Es. exact Hm1. }
  destruct (record opt1 plan score) as [opt2|e]; cbn.
  - now rewrite lookup_update_session.
  - exact Hm2.
Qed.

(** The loop appends a subsequence of the indices it runs over. *)
Lemma loop_ids (trial_ids : list nat) : forall st : state,
  exists ks,
    recorded_ids (fst (loop trial_ids st)) = recorded_ids st ++ ks
    /\ ks `sublist_of` trial_ids.
Proof.
  induction trial_ids as [|i rest IH]; intros st; cbn.
  - exists []. now rewrite app_nil_r.
  - pose proof (iteration_ids i st) as Hstep.
    destruct (iteration i st) as [st'|st'|st' e]; cbn in Hstep |- *.
    + destruct (IH st') as (ks & Hks & Hsub). rewrite Hks.
      destruct Hstep as [->| ->].
      * exists ks. split; [reflexivity|]. now apply sublist_cons.
      * exists (i :: ks). rewrite <- app_assoc. split; [reflexivity|].
        now apply sublist_skip.
    + destruct Hstep as [->| ->].
      * exists []. rewrite app_nil_r.
        split; [reflexivity|]. apply sublist_nil_l.
      * exists [i]. split; [reflexivity|]. apply sublist_skip, sublist_nil_l.
    + destruct Hstep as [->| ->].
      * exists []. rewrite app_nil_r.
        split; [reflexivity|]. apply sublist_nil_l.
      * exists [i]. split; [reflexivity|]. apply sublist_skip, sublist_nil_l.
Qed.

Lemma on_exception_ids (st : state) :
  recorded_ids (Worker.on_exception session_id ev st) = recorded_ids st.
Proof.
  unfold Worker.on_exception, Worker.recorded_ids, Worker.session_of; cbn.
  rewrite lookup_update_session. now apply ids_alter.
Qed.

(** An iteration whose executor call returns [None] records no trial and
    goes on to the next index. *)
Lemma iteration_without_observation i (st : state) plan opt client :
  Worker.stop_flag st = false ->
  Worker.stop_called ev i = false ->
  propose (Worker.optimizer st) = Ok (plan, opt) ->
  apply_policy (Worker.executor_client st) (Worker.executor_env ev i) plan
  = (None, client) ->
  exists st',
    iteration i st = Worker.Next st'
    /\ recorded_ids st' = recorded_ids st.
Proof.
  intros Hflag Hstop Hp Ha. unfold Worker.iteration.
  rewrite Hflag, Hstop, Hp, Ha. cbn. eexists. split; [reflexivity|].
  unfold Worker.recorded_ids, Worker.session_of; cbn.
  destruct (Worker.http_stop ev i); [|reflexivity]. apply ids_serve_stop.
Qed.

Lemma serve_stop_keeps_session now (m : sessions_map) s :
  m !! session_id = Some s ->
  exists s', serve_stop now m !! session_id = Some s'.
Proof.
  intros Hs. unfold Worker.serve_stop, SessionManager.stop_session.
  rewrite Hs. destruct (status_eqb (status s) RUNNING) eqn:Erun; [|eauto].
  unfold transition_to_stopping. rewrite Erun. cbn.
  rewrite lookup_insert_eq. eauto.
Qed.

(** An iteration whose executor call returns an observation that is scored
    and recorded appends one trial, numbered with the loop index. *)
Lemma iteration_with_observation i (st : state) s plan opt client obs score
    opt' :
  Worker.session_of session_id st = Some s ->
  Worker.stop_flag st = false ->
  Worker.stop_called ev i = false ->
  propose (Worker.optimizer st) = Ok (plan, opt) ->
  apply_policy (Worker.executor_client st) (Worker.executor_env ev i) plan
  = (Some obs, client) ->
  calculate_severity obs = Ok score ->
  valid_score (Some score) = true ->
  record opt plan score = Ok opt' ->
  exists st',
    iteration i st = Worker.Next st'
    /\ recorded_ids st' = recorded_ids st ++ [i].
Proof.
  intros Hs Hflag Hstop Hp Ha Hc Hv Hr. unfold Worker.iteration.
  rewrite Hflag, Hstop, Hp, Ha, Hc. cbn - [valid_score].
  unfold new_Trial. rewrite Hv, Hr. eexists. split; [reflexivity|].
  unfold Worker.recorded_ids, Worker.session_of in *; cbn.
  rewrite lookup_update_session.
  destruct (Worker.http_stop ev i).
  - destruct (serve_stop_keeps_session (Worker.clock ev i) _ s Hs) as [s' Hs'].
    rewrite (ids_add_trial _ _ _ s' Hs'). cbn. now rewrite ids_serve_stop.
  - now rewrite (ids_add_trial _ _ _ s Hs).
Qed.

Lemma transition_to_running_fields now (s s1 : OptimizationSession Plan Obs) :
  transition_to_running now s = Ok s1 ->
  trials s1 = trials s /\ max_trials s1 = max_trials s.
Proof.
  unfold transition_to_running. destruct (negb _); [discriminate|].
  now intros [= <-].
Qed.

Lemma transition_to_completed_fields now (s s1 : OptimizationSession Plan Obs) :
  transition_to_completed now s = Ok s1 -> trials s1 = trials s.
Proof.
  unfold transition_to_completed. destruct (negb _); [discriminate|].
  now intros [= <-].
Qed.

(** C1, as the code has it.  The trials a run records carry the index of
    the loop iteration that recorded them: their ids, in the order of
    recording, are a subsequence of 0, ..., max_trials - 1, hence strictly
    increasing, and the i-th of them is at least i.  An iteration whose
    executor call returns [None] records no trial and the loop goes on with
    the next index: that index is skipped, not reused.  An iteration whose
    observation is scored and recorded appends one trial with the loop
    index as its id. *)
Theorem run_trial_ids (st : state) s :
  Worker.session_of session_id st = Some s ->
  (exists ks,
      recorded_ids (run st) = List.map trial_id (trials s) ++ ks
      /\ ks `sublist_of` seq 0 (max_trials s)
      /\ (forall i k, ks !! i = Some k -> (i <= k < max_trials s)%nat)
      /\ (forall i j ki kj,
            (i < j)%nat -> ks !! i = Some ki -> ks !! j = Some kj ->
            (ki < kj)%nat))
  /\ (forall i (st0 : state) plan opt client,
        Worker.stop_flag st0 = false ->
        Worker.stop_called ev i = false ->
        propose (Worker.optimizer st0) = Ok (plan, opt) ->
        apply_policy (Worker.executor_client st0) (Worker.executor_env ev i)
                     plan = (None, client) ->
        exists st',
          iteration i st0 = Worker.Next st'
          /\ recorded_ids st' = recorded_ids st0)
  /\ (forall i (st0 : state) s0 plan opt client obs score opt',
        Worker.session_of session_id st0 = Some s0 ->
        Worker.stop_flag st0 = false ->
        Worker.stop_called ev i = false ->
        propose (Worker.optimizer st0) = Ok (plan, opt) ->
        apply_policy (Worker.executor_client st0) (Worker.executor_env ev i)
                     plan = (Some obs, client) ->
        calculate_severity obs = Ok score ->
        valid_score (Some score) = true ->
        record opt plan score = Ok opt' ->
        exists st',
          iteration i st0 = Worker.Next st'
          /\ recorded_ids st' = recorded_ids st0 ++ [i]).
Proof.
  intros Hs.
  split; [|split; [apply iteration_without_observation
                  |apply iteration_with_observation]].
  assert (Hids : recorded_ids st = List.map trial_id (trials s)).
  { unfold Worker.recorded_ids. now rewrite Hs. }
  assert (Hgoal : exists ks,
             recorded_ids (run st) = List.map trial_id (trials s) ++ ks
             /\ ks `sublist_of` seq 0 (max_trials s)).
  { unfold Worker.run, SessionManager.get_session.
    unfold Worker.session_of in Hs. rewrite Hs.
    destruct (transition_to_running _ s) as [s1|e] eqn:Erun.
    - apply transition_to_running_fields in Erun as [Htr Hmax].
      rewrite Hmax.
      set (st1 := Worker.mkState _ _ _ _).
      assert (Hst1 : recorded_ids st1 = List.map trial_id (trials s)).
      { unfold Worker.recorded_ids, Worker.session_of, st1; cbn.
        rewrite lookup_update_session, lookup_insert_eq. now rewrite Htr. }
      destruct (loop_ids (seq 0 (max_trials s)) st1) as (ks & Hks & Hsub).
      rewrite Hst1 in Hks.
      destruct (loop (seq 0 (max_trials s)) st1) as [st2 [e|]]; cbn in Hks.
      + exists ks. now rewrite on_exception_ids.
      + destruct (Worker.session_of session_id st2) as [s2|] eqn:Es2.
        * destruct (transition_to_completed _ s2) as [s3|e] eqn:Edone.
          -- exists ks. split; [|exact Hsub].
             apply transition_to_completed_fields in Edone.
             unfold Worker.recorded_ids, Worker.session_of; cbn.
             rewrite lookup_update_session, lookup_insert_eq, Edone.
             rewrite <- Hks. unfold Worker.recorded_ids. now rewrite Es2.
          -- exists ks. now rewrite on_exception_ids.
        * exists ks. now split.
    - exists []. rewrite on_exception_ids, app_nil_r.
      split; [exact Hids|apply sublist_nil_l]. }
  destruct Hgoal as (ks & Hks & Hsub). exists ks.
  split; [exact Hks|]. split; [exact Hsub|]. split.
  - intros i k Hk. pose proof (sublist_seq_bounds _ _ _ Hsub i k Hk). lia.
  - exact (sublist_seq_increasing _ _ _ Hsub).
Qed.

End WorkerFacts.

Lemma run_trial_ids_witness :
  Worker.session_of "s-1" Scenario.state0 = Some Scenario.session0
  /\ exists ks,
       Worker.recorded_ids "s-1" (Scenario.run0 Scenario.first_call_fails)
       = List.map Session.trial_id (Session.trials Scenario.session0) ++ ks
       /\ ks `sublist_of` seq 0 (Session.max_trials Scenario.session0).
Proof.
  split; [reflexivity|].
  destruct (proj1 (run_trial_ids
                     (Service.propose Scenario.fixed_selector) Service.record
                     Service.apply_policy
                     (Service.calculate_severity Scenario.analyzer)
                     "s-1" Scenario.first_call_fails
                     Scenario.state0 Scenario.session0 eq_refl))
    as (ks & Hks & Hsub & _).
  exists ks. split; [exact Hks|exact Hsub].
Defined.

(** C1 as stated fails.  The session starts without trials and has a
    budget of two; the executor call of iteration 0 returns [None] (a 404),
    the one of iteration 1 returns an observation.  The run completes with
    one trial, and that first trial has id 1, not 0. *)
Lemma first_recorded_trial_has_id_1 :
  Worker.recorded_ids "s-1" Scenario.state0 = []
  /\ Executor.returned
       (Executor.apply_policy Executor.default_client
          (Worker.executor_env Scenario.first_call_fails 0)) = None
  /\ Worker.recorded_ids "s-1" (Scenario.run0 Scenario.first_call_fails)
     = [1%nat]
  /\ ~ (forall i k,
          Worker.recorded_ids "s-1" (Scenario.run0 Scenario.first_call_fails)
            !! i = Some k -> k = i).
Proof.
  assert (H : Worker.recorded_ids "s-1"
                (Scenario.run0 Scenario.first_call_fails) = [1%nat])
    by (vm_compute; reflexivity).
  split; [reflexivity|]. split; [reflexivity|]. split; [exact H|].
  intros Hall. specialize (Hall 0%nat 1%nat). rewrite H in Hall.
  specialize (Hall eq_refl). discriminate.
Qed.

(** ** Stopping a session *)

Section StopFacts.
Import Session.
Context {Plan Obs : Type}.

(** C3 on the code.  [stop_session] on a running session walks through
    STOPPING and on to COMPLETED before it returns: the session it hands
    back, and leaves in the map, is COMPLETED. *)
Theorem stop_session_completes_at_once now
    (m : gmap string (OptimizationSession Plan Obs)) session_id s :
  m !! session_id = Some s ->
  status s = RUNNING ->
  exists s',
    SessionManager.stop_session now m session_id
    = Ok (<[session_id := s']> m, Some s')
    /\ status s' = COMPLETED
    /\ completed_at s' = Some now
    /\ trials s' = trials s
    /\ status s' <> STOPPING.
Proof.
  intros Hs Hrun. unfold SessionManager.stop_session.
  rewrite Hs, Hrun. cbn. unfold transition_to_stopping. rewrite Hrun. cbn.
  eexists. split; [reflexivity|]. cbn. repeat split. discriminate.
Qed.

(** On any other session [stop_session] changes nothing. *)
Lemma stop_session_not_running now
    (m : gmap string (OptimizationSession Plan Obs)) session_id s :
  m !! session_id = Some s ->
  status s <> RUNNING ->
  SessionManager.stop_session now m session_id = Ok (m, Some s).
Proof.
  intros Hs Hrun. unfold SessionManager.stop_session. rewrite Hs.
  destruct (status s); try reflexivity. contradiction.
Qed.

End StopFacts.

Lemma stop_session_completes_at_once_witness :
  exists s',
    SessionManager.stop_session 5
      (<["s-1" := Session.mkSession "s-1" "payment" Session.RUNNING 2
                    ([] : list (Session.Trial unit unit)) None 0 1 (Some 1)
                    None]> ∅) "s-1"
    = Ok (<["s-1" := s']>
            (<["s-1" := Session.mkSession "s-1" "payment" Session.RUNNING 2
                          [] None 0 1 (Some 1) None]> ∅),
          Some s')
    /\ Session.status s' = Session.COMPLETED.
Proof.
  destruct (stop_session_completes_at_once 5
              (<["s-1" := Session.mkSession "s-1" "payment" Session.RUNNING 2
                            ([] : list (Session.Trial unit unit)) None 0 1
                            (Some 1) None]> ∅)
              "s-1" _ (lookup_insert_eq _ _ _) eq_refl)
    as (s' & Hstop & Hstatus & _).
  exists s'. split; [exact Hstop|exact Hstatus].
Defined.

(** What follows for the worker.  [stop_session] is served while iteration
    0 awaits the executor.  The worker's stop flag is not set, so both
    iterations run and record their trials in the completed session; the
    final [transition_to_completed] then raises, and the session ends
    FAILED. *)
Example stopped_session_ends_failed :
  Worker.stop_flag (Scenario.run0 Scenario.stopped_during_first) = false
  /\ Worker.recorded_ids "s-1" (Scenario.run0 Scenario.stopped_during_first)
     = [0%nat; 1%nat]
  /\ option_map Session.status
       (Worker.session_of "s-1" (Scenario.run0 Scenario.stopped_during_first))
     = Some Session.FAILED.
Proof. vm_compute. repeat split. Qed.

(** ** The proposer *)

Section ProposeFacts.
Import Optimizer.

Variable select_next_point :
  list Dimension -> ProxyModel -> Q -> option (list Value).

(** With an empty history [propose] draws its point from [random]. *)
Lemma propose_cold self rng :
  observation_history_y self = [] ->
  propose select_next_point self rng
  = (let* pr := random_point (dimensions self) rng in
     let* plan :=
       SpaceConverter.point_to_dict (search_space_config self) (fst pr) in
     Ok (plan, snd pr)).
Proof. intros H. unfold propose. now rewrite H. Qed.

Lemma record_history_length self fault_plan score :
  List.length (observation_history_y (record self fault_plan score))
  = S (List.length (observation_history_y self)).
Proof. cbn. rewrite length_app. cbn. lia. Qed.

(** C8 on the code.  As soon as one result is in the history, and while
    there are fewer than [OPTIMIZER_INITIAL_POINTS] of them, [propose]
    returns the point chosen by the selector from the surrogate and the best
    value: nothing is drawn from [random], whose state is left as it was. *)
Theorem propose_guided_during_cold_start self rng next_point :
  (0 < List.length (observation_history_y self)
     < Settings.OPTIMIZER_INITIAL_POINTS)%nat ->
  select_next_point (dimensions self) (surrogate_model self) (best_value self)
  = Some next_point ->
  propose select_next_point self rng
  = (let* plan :=
       SpaceConverter.point_to_dict (search_space_config self) next_point in
     Ok (plan, rng)).
Proof.
  intros [Hpos _] Hsel. unfold propose.
  destruct (observation_history_y self); [cbn in Hpos; lia|].
  cbn. now rewrite Hsel.
Qed.

End ProposeFacts.

Lemma propose_guided_during_cold_start_witness :
  List.length
    (Optimizer.observation_history_y
       (Optimizer.record Scenario.optimizer0
          (<["delay_ms" := Optimizer.VNum 500]> ∅) 3))
  = 1%nat
  /\ forall u,
       Optimizer.propose Scenario.fixed_selector
         (Optimizer.record Scenario.optimizer0
            (<["delay_ms" := Optimizer.VNum 500]> ∅) 3)
         (Scenario.rng u)
       = Ok (<["delay_ms" := Optimizer.VNum 750]> ∅, Scenario.rng u).
Proof.
  split; [reflexivity|]. intros u.
  apply (propose_guided_during_cold_start Scenario.fixed_selector
           (Optimizer.record Scenario.optimizer0
              (<["delay_ms" := Optimizer.VNum 500]> ∅) 3)
           (Scenario.rng u) [Optimizer.VNum 750]).
  - simpl. unfold Settings.OPTIMIZER_INITIAL_POINTS. lia.
  - reflexivity.
Defined.

(** The first proposal, with the history still empty, is the uniform
    sample: with the draw 1/2 the middle of the range. *)
Example first_proposal_is_sampled :
  Optimizer.propose Scenario.fixed_selector Scenario.optimizer0
    (Scenario.rng (1 # 2))
  = Ok (<["delay_ms" := Optimizer.VNum (0 + (1 # 2) * (1000 - 0))]> ∅,
        Optimizer.mkRandom (fun _ => 1 # 2) 1).
Proof. reflexivity. Qed.

(** * Further properties of the code *)

(** ** Session: transitions, best result, progress *)

Section SessionMore.
Import Session.
Context {Plan Obs : Type}.
Implicit Types (s : OptimizationSession Plan Obs) (t : Trial Plan Obs).

(** The guarded transitions move along the four edges PENDING to RUNNING,
    RUNNING to STOPPING, RUNNING to COMPLETED and STOPPING to COMPLETED, and
    touch nothing but the status and the timestamps.  From COMPLETED or
    FAILED none of them succeeds; [transition_to_failed] is unguarded and
    turns any session, a COMPLETED one included, into a FAILED one. *)
Theorem transitions_follow_graph now s :
  (forall s', guarded_step now s s' ->
      status_edge (status s) (status s')
      /\ trials s' = trials s /\ best_result s' = best_result s
      /\ max_trials s' = max_trials s /\ id s' = id s
      /\ updated_at s' = now)
  /\ (is_complete s = true -> forall s', ~ guarded_step now s s')
  /\ status (transition_to_failed now s) = FAILED
  /\ completed_at (transition_to_failed now s) = Some now
  /\ trials (transition_to_failed now s) = trials s.
Proof.
  split; [|split; [|repeat split]].
  - intros s' [H|[H|H]];
      unfold transition_to_running, transition_to_stopping,
        transition_to_completed in H;
      destruct (status s) eqn:Es; cbn in H; try discriminate;
      injection H as <-; cbn; rewrite ?Es; unfold status_edge;
      repeat split; auto 10.
  - intros Hdone s' [H|[H|H]];
      unfold is_complete in Hdone;
      unfold transition_to_running, transition_to_stopping,
        transition_to_completed in H;
      destruct (status s); cbn in *; discriminate.
Qed.

(** After any trials appended to a session without a best result, the best
    result is that of the earliest trial with the highest score: it copies
    that trial's plan, score and id, no trial scores more, and every
    earlier trial scores strictly less.  It is absent exactly when no
    appended trial has a score. *)
Theorem best_result_is_first_maximum s (ts : list (Q * Trial Plan Obs)) :
  best_result s = None ->
  match best_result (add_trials s ts) with
  | None => forall k nt, ts !! k = Some nt -> severity_score (snd nt) = None
  | Some b =>
      exists k nt,
        ts !! k = Some nt
        /\ severity_score (snd nt) = Some (best_severity_score b)
        /\ best_trial_id b = trial_id (snd nt)
        /\ best_fault_plan b = fault_plan (snd nt)
        /\ (forall j nt' sc, ts !! j = Some nt' ->
              severity_score (snd nt') = Some sc ->
              sc <= best_severity_score b)
        /\ (forall j nt' sc, (j < k)%nat -> ts !! j = Some nt' ->
              severity_score (snd nt') = Some sc ->
              sc < best_severity_score b)
  end.
Proof.
  intros Hnone. induction ts as [|[now t] ts IH] using rev_ind.
  - cbn. rewrite Hnone. intros k nt Hk. discriminate.
  - unfold add_trials in *. rewrite fold_left_app. cbn [fold_left fst snd].
    set (s1 := fold_left _ ts s) in *.
    unfold add_trial at 1. cbn [best_result].
    destruct (severity_score t) as [sc|] eqn:Esc.
    + destruct (best_result s1) as [b|] eqn:Eb.
      * destruct IH as (k & nt & Hk & Hscore & Hid & Hplan & Hmax & Hfirst).
        destruct (Qgtb sc (best_severity_score b)) eqn:Egt.
        -- apply Qgtb_gt in Egt.
           exists (List.length ts), (now, t). cbn.
           rewrite lookup_app_r, Nat.sub_diag by lia.
           repeat split; auto.
           ++ intros j nt' sc' Hj Hsc'.
              destruct (decide (j < List.length ts)%nat) as [Hlt|Hge].
              ** rewrite lookup_app_l in Hj by exact Hlt.
                 apply Qle_trans with (best_severity_score b);
                   [eapply Hmax; eauto|lra].
              ** rewrite lookup_app_r in Hj by lia.
                 destruct (j - List.length ts)%nat as [|n] eqn:En;
                   cbn in Hj; [|destruct n; discriminate].
                 injection Hj as <-. cbn in Hsc'. rewrite Esc in Hsc'.
                 injection Hsc' as <-. apply Qle_refl.
           ++ intros j nt' sc' Hlt Hj Hsc'.
              rewrite lookup_app_l in Hj by exact Hlt.
              apply Qle_lt_trans with (best_severity_score b);
                [eapply Hmax; eauto|exact Egt].
        -- apply Qgtb_le in Egt.
           pose proof (lookup_lt_Some _ _ _ Hk) as Hklt.
           exists k, nt. rewrite lookup_app_l by exact Hklt.
           repeat split; auto.
           ++ intros j nt' sc' Hj Hsc'.
              destruct (decide (j < List.length ts)%nat) as [Hlt|Hge].
              ** rewrite lookup_app_l in Hj by exact Hlt. eapply Hmax; eauto.
              ** rewrite lookup_app_r in Hj by lia.
                 destruct (j - List.length ts)%nat as [|n] eqn:En;
                   cbn in Hj; [|destruct n; discriminate].
                 injection Hj as <-. cbn in Hsc'. rewrite Esc in Hsc'.
                 injection Hsc' as <-. exact Egt.
           ++ intros j nt' sc' Hlt Hj Hsc'.
              rewrite lookup_app_l in Hj by lia. eapply Hfirst; eauto.
      * exists (List.length ts), (now, t). cbn.
        rewrite lookup_app_r, Nat.sub_diag by lia.
        repeat split; auto.
        -- intros j nt' sc' Hj Hsc'.
           destruct (decide (j < List.length ts)%nat) as [Hlt|Hge].
           ** rewrite lookup_app_l in Hj by exact Hlt.
              rewrite (IH j nt' Hj) in Hsc'. discriminate.
           ** rewrite lookup_app_r in Hj by lia.
              destruct (j - List.length ts)%nat as [|n] eqn:En;
                cbn in Hj; [|destruct n; discriminate].
              injection Hj as <-. cbn in Hsc'. rewrite Esc in Hsc'.
              injection Hsc' as <-. apply Qle_refl.
        -- intros j nt' sc' Hlt Hj Hsc'.
           rewrite lookup_app_l in Hj by exact Hlt.
           rewrite (IH j nt' Hj) in Hsc'. discriminate.
    + destruct (best_result s1) as [b|] eqn:Eb.
      * destruct IH as (k & nt & Hk & Hscore & Hid & Hplan & Hmax & Hfirst).
        pose proof (lookup_lt_Some _ _ _ Hk) as Hklt.
        exists k, nt. rewrite lookup_app_l by exact Hklt.
        repeat split; auto.
        -- intros j nt' sc' Hj Hsc'.
           destruct (decide (j < List.length ts)%nat) as [Hlt|Hge].
           ** rewrite lookup_app_l in Hj by exact Hlt. eapply Hmax; eauto.
           ** rewrite lookup_app_r in Hj by lia.
              destruct (j - List.length ts)%nat as [|n] eqn:En;
                cbn in Hj; [|destruct n; discriminate].
              injection Hj as <-. cbn in Hsc'. congruence.
        -- intros j nt' sc' Hlt Hj Hsc'.
           rewrite lookup_app_l in Hj by lia. eapply Hfirst; eauto.
      * intros j nt' Hj.
        destruct (decide (j < List.length ts)%nat) as [Hlt|Hge].
        -- rewrite lookup_app_l in Hj by exact Hlt. eapply IH; eauto.
        -- rewrite lookup_app_r in Hj by lia.
           destruct (j - List.length ts)%nat as [|n] eqn:En;
             cbn in Hj; [|destruct n; discriminate].
           now injection Hj as <-.
Qed.

End SessionMore.

Lemma best_result_is_first_maximum_witness :
  Session.best_result Scenario.empty_session = None
  /\ Session.best_result
       (Session.add_trials Scenario.empty_session Scenario.three_trials)
     = Some (Session.mkBestResult tt 7 1 2)
  /\ match Session.best_result
             (Session.add_trials Scenario.empty_session
                Scenario.three_trials) with
     | None => False
     | Some b =>
         exists k nt,
           Scenario.three_trials !! k = Some nt
           /\ Session.severity_score (snd nt)
              = Some (Session.best_severity_score b)
           /\ Session.best_trial_id b = Session.trial_id (snd nt)
     end.
Proof.
  split; [reflexivity|]. split; [reflexivity|].
  pose proof (best_result_is_first_maximum Scenario.empty_session
                Scenario.three_trials eq_refl) as H.
  destruct (Session.best_result
              (Session.add_trials Scenario.empty_session
                 Scenario.three_trials)) as [b|];
    [|discriminate (H 0%nat _ eq_refl)].
  destruct H as (k & nt & Hk & Hsc & Hid & _).
  exists k, nt. split; [exact Hk|]. split; [exact Hsc|exact Hid].
Defined.

Section ProgressFacts.
Import Session.
Context {Plan Obs : Type}.
Implicit Types (s : OptimizationSession Plan Obs).

Lemma inject_nat_nonneg (n : nat) : 0 <= inject_Z (Z.of_nat n).
Proof. unfold Qle; cbn. lia. Qed.

Lemma inject_nat_le (n m : nat) :
  (n <= m)%nat <-> inject_Z (Z.of_nat n) <= inject_Z (Z.of_nat m).
Proof. rewrite <- Zle_Qle. lia. Qed.

Lemma inject_nat_lt (n m : nat) :
  (n < m)%nat <-> inject_Z (Z.of_nat n) < inject_Z (Z.of_nat m).
Proof. rewrite <- Zlt_Qlt. lia. Qed.

(** [progress_percent] lies between 0 and 100; for a positive budget it is
    the share of recorded trials in percent while fewer trials than the
    budget are recorded, and 100 from then on, also when more trials than
    the budget are stored; for a budget of 0 it is 0. *)
Theorem progress_percent_range s :
  0 <= progress_percent s <= 100
  /\ (max_trials s = 0%nat -> progress_percent s = 0)
  /\ ((0 < max_trials s <= trials_completed s)%nat ->
      progress_percent s == 100)
  /\ ((trials_completed s < max_trials s)%nat ->
      progress_percent s
      == inject_Z (Z.of_nat (trials_completed s))
         / inject_Z (Z.of_nat (max_trials s)) * 100
      /\ progress_percent s < 100).
Proof.
  unfold progress_percent.
  destruct (max_trials s) as [|m] eqn:Em; cbn [Nat.eqb].
  - repeat split; try lra; try lia. all: intros; lia.
  - set (n := inject_Z (Z.of_nat (trials_completed s))).
    set (d := inject_Z (Z.of_nat (S m))).
    assert (Hn : 0 <= n) by apply inject_nat_nonneg.
    assert (Hd : 0 < d) by (apply (inject_nat_lt 0 (S m)); lia).
    assert (Hi : 0 < / d) by now apply Qinv_lt_0_compat.
    assert (Hone : / d * d == 1)
      by (rewrite Qmult_comm; apply Qmult_inv_r; lra).
    assert (Hge : (S m <= trials_completed s)%nat -> 100 <= n / d * 100).
    { intros H. apply inject_nat_le in H. fold n d in H.
      unfold Qdiv. nra. }
    assert (Hlt : (trials_completed s < S m)%nat -> n / d * 100 < 100).
    { intros H. apply inject_nat_lt in H. fold n d in H.
      unfold Qdiv. nra. }
    assert (Hpos : 0 <= n / d * 100) by (unfold Qdiv; nra).
    split; [|split; [|split]].
    + unfold pymin. cases_Qltb; split; lra.
    + discriminate.
    + intros [_ H]. specialize (Hge H). unfold pymin. cases_Qltb; lra.
    + intros H. specialize (Hlt H). unfold pymin. cases_Qltb; split; lra.
Qed.

End ProgressFacts.

(** ** Session manager: create, delete, stop *)

Section ManagerFacts.
Import Session.
Context {Plan Obs : Type}.
Implicit Types (m : gmap string (OptimizationSession Plan Obs)).

(** [stop_session] never raises and touches no other session.  It returns
    the session now stored under the id, or [None] for an unknown id; the
    session it returns is not RUNNING; and a second call, at any later
    time, changes nothing and returns the same session. *)
Theorem stop_session_idempotent now now' m session_id :
  exists m1 r1,
    SessionManager.stop_session now m session_id = Ok (m1, r1)
    /\ r1 = m1 !! session_id
    /\ (r1 = None <-> m !! session_id = None)
    /\ (forall k, k <> session_id -> m1 !! k = m !! k)
    /\ (forall s, r1 = Some s -> status s <> RUNNING)
    /\ SessionManager.stop_session now' m1 session_id = Ok (m1, r1).
Proof.
  unfold SessionManager.stop_session.
  destruct (m !! session_id) as [s|] eqn:Es.
  - destruct (status_eqb (status s) RUNNING) eqn:Erun.
    + unfold transition_to_stopping. rewrite Erun. cbn.
      eexists _, _. split; [reflexivity|].
      rewrite lookup_insert_eq. cbn. repeat split; try discriminate.
      * intros k Hk. now rewrite lookup_insert_ne.
      * intros s' [= <-]. cbn. discriminate.
    + exists m, (Some s). rewrite Es, Erun. repeat split; try discriminate.
      intros s' [= <-] Hrun. rewrite Hrun in Erun. discriminate.
  - exists m, None. rewrite Es. repeat split; congruence.
Qed.

(** [create_session] succeeds exactly when the service name has 1 to 255
    characters and the budget is at least 1.  It then registers, under the
    given id, a PENDING session without trials and without a best result,
    returns that id, and leaves every other session as it was. *)
Theorem create_session_registers new_id now m name budget :
  match SessionManager.create_session new_id now m name budget with
  | Ok (m', sid) =>
      (1 <= String.length name <= 255)%nat /\ (1 <= budget)%nat
      /\ sid = new_id
      /\ (exists s,
            SessionManager.get_session m' sid = Some s
            /\ id s = new_id /\ service_name s = name
            /\ status s = PENDING /\ max_trials s = budget
            /\ trials s = [] /\ best_result s = None
            /\ best_score s = 0 /\ progress_percent s == 0)
      /\ (forall k, k <> new_id -> m' !! k = m !! k)
  | Raise e =>
      e = ValidationError
      /\ ~ ((1 <= String.length name <= 255)%nat /\ (1 <= budget)%nat)
  end.
Proof.
  unfold SessionManager.create_session, new_session.
  destruct (1 <=? String.length name)%nat eqn:E1;
    destruct (String.length name <=? 255)%nat eqn:E2;
    destruct (1 <=? budget)%nat eqn:E3; cbn;
    try (split; [reflexivity|]; intros [[? ?] ?];
         apply Nat.leb_gt in E1 || apply Nat.leb_gt in E2
         || apply Nat.leb_gt in E3; lia).
  apply Nat.leb_le in E1, E2, E3.
  split; [lia|]. split; [lia|]. split; [reflexivity|]. split.
  - eexists. unfold SessionManager.get_session.
    rewrite lookup_insert_eq. split; [reflexivity|]. cbn.
    repeat split.
    unfold progress_percent; cbn.
    destruct budget as [|b]; [lia|]. cbn [Nat.eqb].
    assert (Hz : inject_Z (Z.of_nat 0) / inject_Z (Z.of_nat (S b)) * 100 == 0).
    { change (inject_Z (Z.of_nat 0)) with 0. unfold Qdiv. ring. }
    unfold pymin. cases_Qltb; lra.
  - intros k Hk. now rewrite lookup_insert_ne.
Qed.

(** [delete_session] reports whether the id was registered; afterwards the
    id is unknown, every other session is as it was, and deleting an
    unknown id changes nothing. *)
Theorem delete_session_removes m session_id :
  SessionManager.get_session (fst (SessionManager.delete_session m session_id))
    session_id = None
  /\ (snd (SessionManager.delete_session m session_id) = true
      <-> is_Some (m !! session_id))
  /\ (forall k, k <> session_id ->
        fst (SessionManager.delete_session m session_id) !! k = m !! k)
  /\ (m !! session_id = None ->
      SessionManager.delete_session m session_id = (m, false)).
Proof.
  unfold SessionManager.delete_session, SessionManager.get_session.
  destruct (m !! session_id) as [s|] eqn:Es; cbn.
  - rewrite lookup_delete_eq. repeat split; eauto.
    + intros k Hk. now rewrite lookup_delete_ne.
    + discriminate.
  - repeat split; try exact Es; try discriminate.
    intros [x Hx]. discriminate.
Qed.

End ManagerFacts.

(** ** Worker: how a run ends *)

Section WorkerMore.
Import Session.
Context {Plan Obs Optimizer Client ClientEnv : Type}.
Variable propose : Optimizer -> result (Plan * Optimizer).
Variable record : Optimizer -> Plan -> Q -> result Optimizer.
Variable apply_policy : Client -> ClientEnv -> Plan -> option Obs * Client.
Variable calculate_severity : Obs -> result Q.
Variable session_id : string.
Variable ev : Worker.Events ClientEnv.

Local Abbreviation sessions_map := (gmap string (OptimizationSession Plan Obs)).
Local Abbreviation state := (Worker.State Plan Obs Optimizer Client).
Local Abbreviation iteration :=
  (Worker.iteration propose record apply_policy calculate_severity
     session_id ev).
Local Abbreviation loop :=
  (Worker.loop propose record apply_policy calculate_severity session_id ev).
Local Abbreviation run :=
  (Worker.run propose record apply_policy calculate_severity session_id ev).
Local Abbreviation session_of := (Worker.session_of session_id).
Local Abbreviation update_session := (Worker.update_session session_id).
Local Abbreviation serve_stop := (Worker.serve_stop session_id).
Local Abbreviation on_exception := (Worker.on_exception session_id ev).

Lemma grown_refl (s : OptimizationSession Plan Obs) : grown_from s s.
Proof.
  unfold grown_from. repeat split; auto; try apply Qle_refl.
  exists []. now rewrite app_nil_r.
Qed.

Lemma grown_trans (s1 s2 s3 : OptimizationSession Plan Obs) :
  grown_from s1 s2 -> grown_from s2 s3 -> grown_from s1 s3.
Proof.
  intros ([n1 H1] & Hb1 & Hc1 & Hm1 & Hi1) ([n2 H2] & Hb2 & Hc2 & Hm2 & Hi2).
  unfold grown_from. repeat split; try congruence.
  - exists (n1 ++ n2). rewrite H2, H1. now rewrite app_assoc.
  - eapply Qle_trans; eauto.
  - auto.
Qed.

(** Two sessions that differ in status and timestamps only. *)
Lemma grown_same (s s' : OptimizationSession Plan Obs) :
  trials s' = trials s -> best_result s' = best_result s ->
  max_trials s' = max_trials s -> id s' = id s -> grown_from s s'.
Proof.
  intros Ht Hb Hm Hi. unfold grown_from, best_score. rewrite Ht, Hb.
  repeat split; auto; try apply Qle_refl.
  exists []. now rewrite app_nil_r.
Qed.

Lemma grown_add_trial now (s : OptimizationSession Plan Obs) t :
  valid_score (severity_score t) = true ->
  grown_from s (add_trial now s t).
Proof.
  intros Hv. unfold grown_from. split; [now exists [t]|].
  split; [now apply add_trial_best_score_le|].
  split; [|split; reflexivity].
  intros Hle.
  destruct (add_trial_best_cases now s t) as [Hsame|(sc & Hsc & Hnew & _)].
  - unfold best_score in *. now rewrite Hsame.
  - unfold best_score. rewrite Hnew. cbn.
    rewrite Hsc in Hv. cbn in Hv. unfold score_in_range in Hv.
    apply andb_true_iff in Hv as [_ H10]. now apply Qle_bool_iff.
Qed.

Lemma new_Trial_valid now tid p o sc (t : Trial Plan Obs) :
  new_Trial now tid p o sc = Ok t ->
  valid_score (severity_score t) = true /\ trial_id t = tid.
Proof.
  unfold new_Trial. destruct (valid_score sc) eqn:E; [|discriminate].
  intros [= <-]. now split.
Qed.

Lemma lookup_update_session' (m : sessions_map) :
  update_session m !! session_id = m !! session_id.
Proof.
  unfold Worker.update_session, SessionManager.update_session.
  destruct (m !! session_id) as [s|] eqn:E; [|exact E].
  rewrite lookup_insert. case_decide; congruence.
Qed.

(** What a served [stop_session] does to this worker's session. *)
Lemma serve_stop_session now (m : sessions_map) s :
  m !! session_id = Some s ->
  exists s',
    serve_stop now m !! session_id = Some s'
    /\ grown_from s s'
    /\ length (trials s') = length (trials s)
    /\ (status s = RUNNING -> status s' = COMPLETED)
    /\ (status s <> RUNNING -> s' = s).
Proof.
  intros Hs. unfold Worker.serve_stop, SessionManager.stop_session.
  rewrite Hs. destruct (status_eqb (status s) RUNNING) eqn:Erun.
  - unfold transition_to_stopping. rewrite Erun. cbn.
    rewrite lookup_insert_eq. eexists. split; [reflexivity|]. cbn.
    split; [now apply grown_same|]. split; [reflexivity|].
    split; [reflexivity|].
    intros Hne. destruct (status s); cbn in Erun; congruence.
  - exists s. split; [exact Hs|]. split; [apply grown_refl|].
    split; [reflexivity|]. split; [|reflexivity].
    intros Hrun. rewrite Hrun in Erun. discriminate.
Qed.

(** An iteration keeps the session registered, lets it grow by at most one
    trial, and does not touch its status unless a stop request is served. *)
Lemma iteration_grows i (st : state) s :
  session_of st = Some s ->
  exists s',
    session_of (Worker.state_after (iteration i st)) = Some s'
    /\ grown_from s s'
    /\ (length (trials s') <= S (length (trials s)))%nat
    /\ (Worker.http_stop ev i = false -> status s' = status s).
Proof.
  intros Hs. unfold Worker.iteration, Worker.session_of in *.
  destruct (Worker.stop_flag st || Worker.stop_called ev i).
  { exists s. cbn. split; [exact Hs|]. split; [apply grown_refl|].
    split; [lia|reflexivity]. }
  destruct (propose (Worker.optimizer st)) as [[plan opt1]|e].
  2:{ exists s. cbn. split; [exact Hs|]. split; [apply grown_refl|].
      split; [lia|reflexivity]. }
  destruct (apply_policy _ _ plan) as [observation client1].
  set (m1 := if Worker.http_stop ev i
             then serve_stop (Worker.clock ev i) (Worker.sessions st)
             else Worker.sessions st).
  assert (Hm1 : exists s1,
             m1 !! session_id = Some s1 /\ grown_from s s1
             /\ length (trials s1) = length (trials s)
             /\ (Worker.http_stop ev i = false -> s1 = s)).
  { subst m1. destruct (Worker.http_stop ev i).
    - destruct (serve_stop_session (Worker.clock ev i) _ s Hs)
        as (s1 & H1 & H2 & H3 & _).
      exists s1. split; [exact H1|]. split; [exact H2|].
      split; [exact H3|discriminate].
    - exists s. split; [exact Hs|]. split; [apply grown_refl|].
      split; reflexivity. }
  destruct Hm1 as (s1 & Hs1 & Hg1 & Hl1 & Hst1).
  assert (Hkeep : exists s',
             m1 !! session_id = Some s' /\ grown_from s s'
             /\ (length (trials s') <= S (length (trials s)))%nat
             /\ (Worker.http_stop ev i = false -> status s' = status s)).
  { exists s1. split; [exact Hs1|]. split; [exact Hg1|]. split; [lia|].
    intros H. now rewrite (Hst1 H). }
  destruct observation as [obs|]; cbn; [|exact Hkeep].
  destruct (calculate_severity obs) as [score|e]; cbn; [|exact Hkeep].
  destruct (new_Trial _ i plan (Some obs) (Some score)) as [t|e] eqn:Et;
    cbn; [|exact Hkeep].
  apply new_Trial_valid in Et as [Hv _].
  assert (Hadd : exists s',
             alter (fun s0 => add_trial (Worker.clock ev i) s0 t)
                   session_id m1 !! session_id = Some s'
             /\ grown_from s s'
             /\ (length (trials s') <= S (length (trials s)))%nat
             /\ (Worker.http_stop ev i = false -> status s' = status s)).
  { rewrite lookup_alter_eq, Hs1. cbn. eexists. split; [reflexivity|].
    split; [eapply grown_trans; [exact Hg1|now apply grown_add_trial]|].
    split.
    - cbn. rewrite length_app. cbn. lia.
    - intros H. cbn. now rewrite (Hst1 H). }
  destruct (record opt1 plan score) as [opt2|e]; cbn.
  - now rewrite lookup_update_session'.
  - exact Hadd.
Qed.

Lemma loop_grows (trial_ids : list nat) : forall (st : state) s,
  session_of st = Some s ->
  exists s',
    session_of (fst (loop trial_ids st)) = Some s'
    /\ grown_from s s'
    /\ (length (trials s') <= length (trials s) + length trial_ids)%nat.
Proof.
  induction trial_ids as [|i rest IH]; intros st s Hs; cbn.
  - exists s. split; [exact Hs|]. split; [apply grown_refl|lia].
  - destruct (iteration_grows i st s Hs) as (s1 & Hs1 & Hg1 & Hl1 & _).
    destruct (iteration i st) as [st'|st'|st' e]; cbn in Hs1 |- *.
    + destruct (IH st' s1 Hs1) as (s2 & Hs2 & Hg2 & Hl2).
      exists s2. split; [exact Hs2|].
      split; [eapply grown_trans; eauto|lia].
    + exists s1. split; [exact Hs1|]. split; [exact Hg1|lia].
    + exists s1. split; [exact Hs1|]. split; [exact Hg1|lia].
Qed.

Lemma on_exception_session (st : state) s :
  session_of st = Some s ->
  session_of (on_exception st)
  = Some (transition_to_failed (Worker.end_time ev) s).
Proof.
  intros Hs. unfold Worker.on_exception, Worker.session_of in *; cbn.
  rewrite lookup_update_session', lookup_alter_eq, Hs. reflexivity.
Qed.

Lemma grown_failed now (s : OptimizationSession Plan Obs) :
  grown_from s (transition_to_failed now s).
Proof. now apply grown_same. Qed.

(** The session a run leaves behind. *)
Lemma run_grows (st : state) s :
  session_of st = Some s ->
  exists s',
    session_of (run st) = Some s'
    /\ (status s' = COMPLETED \/ status s' = FAILED)
    /\ grown_from s s'
    /\ (length (trials s') <= length (trials s) + max_trials s)%nat.
Proof.
  intros Hs. unfold Worker.run, SessionManager.get_session.
  unfold Worker.session_of in Hs. rewrite Hs.
  destruct (transition_to_running _ s) as [s1|e] eqn:Erun.
  - assert (Hg1 : grown_from s s1 /\ trials s1 = trials s
                  /\ max_trials s1 = max_trials s).
    { unfold transition_to_running in Erun.
      destruct (negb _); [discriminate|]. injection Erun as <-.
      split; [now apply grown_same|now split]. }
    destruct Hg1 as (Hg1 & Ht1 & Hm1).
    set (st1 := Worker.mkState _ _ _ _).
    assert (Hst1 : session_of st1 = Some s1).
    { unfold Worker.session_of, st1; cbn.
      now rewrite lookup_update_session', lookup_insert_eq. }
    destruct (loop_grows (seq 0 (max_trials s1)) st1 s1 Hst1)
      as (s2 & Hs2 & Hg2 & Hl2).
    rewrite length_seq, Ht1, Hm1 in Hl2.
    destruct (loop (seq 0 (max_trials s1)) st1) as [st2 [e|]]; cbn in Hs2.
    + rewrite (on_exception_session st2 s2 Hs2). eexists.
      split; [reflexivity|]. split; [now right|].
      split; [|exact Hl2].
      eapply grown_trans; [exact Hg1|].
      eapply grown_trans; [exact Hg2|apply grown_failed].
    + rewrite Hs2.
      destruct (transition_to_completed _ s2) as [s3|e] eqn:Edone.
      * unfold transition_to_completed in Edone.
        destruct (negb _); [discriminate|]. injection Edone as <-.
        unfold Worker.session_of; cbn.
        rewrite lookup_update_session', lookup_insert_eq.
        eexists. split; [reflexivity|]. split; [now left|].
        split; [|exact Hl2].
        eapply grown_trans; [exact Hg1|].
        eapply grown_trans; [exact Hg2|now apply grown_same].
      * rewrite (on_exception_session st2 s2 Hs2). eexists.
        split; [reflexivity|]. split; [now right|].
        split; [|exact Hl2].
        eapply grown_trans; [exact Hg1|].
        eapply grown_trans; [exact Hg2|apply grown_failed].
  - fold (session_of st) in Hs.
    rewrite (on_exception_session st s Hs). eexists.
    split; [reflexivity|]. split; [now right|].
    split; [apply grown_failed|]. cbn. lia.
Qed.

(** A run of the worker always leaves its session in a terminal state,
    COMPLETED or FAILED.  The trials the session had come first in its
    final trial list, and at most [max_trials] trials were added. *)
Theorem run_ends_terminal (st : state) s :
  session_of st = Some s ->
  exists s',
    session_of (run st) = Some s'
    /\ is_complete s' = true
    /\ (exists new,
          trials s' = trials s ++ new
          /\ (length new <= max_trials s)%nat)
    /\ max_trials s' = max_trials s.
Proof.
  intros Hs.
  destruct (run_grows st s Hs) as (s' & Hs' & Hterm & Hg & Hlen).
  destruct Hg as ([new Hnew] & _ & _ & Hmax & _).
  exists s'. split; [exact Hs'|]. split.
  - unfold is_complete. destruct Hterm as [-> | ->]; reflexivity.
  - split; [|exact Hmax]. exists new. split; [exact Hnew|].
    rewrite Hnew, length_app in Hlen. lia.
Qed.

(** Over a run the best score of the session never decreases, and it stays
    at most 10 if it was. *)
Theorem run_best_score_monotone (st : state) s :
  session_of st = Some s ->
  exists s',
    session_of (run st) = Some s'
    /\ best_score s <= best_score s'
    /\ (best_score s <= 10 -> best_score s' <= 10).
Proof.
  intros Hs.
  destruct (run_grows st s Hs) as (s' & Hs' & _ & Hg & _).
  destruct Hg as (_ & Hb & Hc & _).
  exists s'. auto.
Qed.

(** A worker started on a session that is not PENDING runs no iteration:
    the optimizer, the executor client and the trials are untouched, and
    the session is marked FAILED, also when it was COMPLETED before. *)
Theorem run_on_started_session_fails (st : state) s :
  session_of st = Some s ->
  status s <> PENDING ->
  session_of (run st) = Some (transition_to_failed (Worker.end_time ev) s)
  /\ Worker.optimizer (run st) = Worker.optimizer st
  /\ Worker.executor_client (run st) = Worker.executor_client st
  /\ Worker.stop_flag (run st) = Worker.stop_flag st.
Proof.
  intros Hs Hne.
  assert (Hrun : run st = on_exception st).
  { unfold Worker.run, SessionManager.get_session.
    unfold Worker.session_of in Hs. rewrite Hs.
    unfold transition_to_running.
    destruct (status s); cbn; try reflexivity. contradiction. }
  rewrite Hrun. split; [now apply on_exception_session|]. repeat split.
Qed.

Section HappyPath.

(** The collaborators never raise, the executor always returns an
    observation, and every score is within the range a trial accepts. *)
Hypothesis propose_ok :
  forall o, exists plan o', propose o = Ok (plan, o').
Hypothesis apply_ok :
  forall c e plan, exists obs c', apply_policy c e plan = (Some obs, c').
Hypothesis severity_ok :
  forall obs, exists q,
    calculate_severity obs = Ok q /\ valid_score (Some q) = true.
Hypothesis record_ok :
  forall o plan q, exists o', record o plan q = Ok o'.
(** No [stop_session] request is served during the run. *)
Hypothesis no_http_stop : forall i, Worker.http_stop ev i = false.




End HappyPath.

End WorkerMore.


Lemma run_ends_terminal_witness :
  exists s',
    Worker.session_of "s-1" (Scenario.run0 Scenario.first_call_fails)
    = Some s'
    /\ Session.is_complete s' = true.
Proof.
  destruct (run_ends_terminal
              (Service.propose Scenario.fixed_selector) Service.record
              Service.apply_policy
              (Service.calculate_severity Scenario.analyzer)
              "s-1" Scenario.first_call_fails
              Scenario.state0 Scenario.session0 eq_refl)
    as (s' & Hs' & Hdone & _).
  exists s'. split; [exact Hs'|exact Hdone].
Defined.

Lemma run_best_score_monotone_witness :
  exists s',
    Worker.session_of "s-1" (Scenario.run0 Scenario.first_call_fails)
    = Some s'
    /\ Session.best_score Scenario.session0 <= Session.best_score s'.
Proof.
  destruct (run_best_score_monotone
              (Service.propose Scenario.fixed_selector) Service.record
              Service.apply_policy
              (Service.calculate_severity Scenario.analyzer)
              "s-1" Scenario.first_call_fails
              Scenario.state0 Scenario.session0 eq_refl)
    as (s' & Hs' & Hle & _).
  exists s'. split; [exact Hs'|exact Hle].
Defined.

Lemma run_on_started_session_fails_witness :
  Worker.session_of "s-3"
    (Worker.run Scenario.steady_propose Scenario.steady_record
       Scenario.steady_apply Scenario.steady_severity "s-3"
       Scenario.stop_before_third Scenario.finished_state)
  = Some (Session.transition_to_failed 10 Scenario.finished_session).
Proof.
  apply (run_on_started_session_fails
           Scenario.steady_propose Scenario.steady_record
           Scenario.steady_apply Scenario.steady_severity "s-3"
           Scenario.stop_before_third
           Scenario.finished_state Scenario.finished_session eq_refl).
  discriminate.
Defined.

(** ** Circuit breaker: what every sequence of calls preserves *)

Section BreakerMore.
Import Executor.
Implicit Types (cb : CircuitBreaker).

Lemma breaker_call_consistent cb call :
  (1 <= failure_threshold cb)%Z ->
  breaker_consistent cb ->
  breaker_consistent (breaker_call cb call)
  /\ failure_threshold (breaker_call cb call) = failure_threshold cb
  /\ recovery_timeout (breaker_call cb call) = recovery_timeout cb.
Proof.
  intros Hth Hc. pose proof Hc as (Hnn & Hclosed & Hopen).
  destruct call as [now| |now]; cbn [breaker_call].
  - unfold can_attempt. destruct (state cb) eqn:Est.
    + split; [exact Hc|split; reflexivity].
    + destruct (truthyQ (last_failure_time cb) && _); cbn [snd].
      * split; [|split; reflexivity].
        destruct (Hopen ltac:(congruence)) as [H1 H2].
        unfold breaker_consistent; cbn. repeat split; auto. discriminate.
      * split; [exact Hc|split; reflexivity].
    + split; [exact Hc|split; reflexivity].
  - unfold record_success. destruct (state cb) eqn:Est.
    + unfold breaker_consistent; cbn. repeat split; try lia; congruence.
    + split; [exact Hc|split; reflexivity].
    + unfold breaker_consistent; cbn. repeat split; try lia; congruence.
  - unfold breaker_consistent, record_failure; cbn.
    split; [|split; reflexivity].
    destruct (failure_threshold cb <=? failure_count cb + 1)%Z eqn:E.
    + repeat split; try lia; discriminate.
    + destruct (state cb) eqn:Est.
      * repeat split; try lia; try discriminate. contradiction.
      * destruct (Hopen ltac:(congruence)). lia.
      * destruct (Hopen ltac:(congruence)). lia.
Qed.

(** Whatever calls are made on a breaker created with a threshold of at
    least 1, its failure count is not negative and is below the threshold
    exactly while it is closed, and an open or half-open breaker has a
    failure time to measure the recovery from; the threshold and the
    recovery timeout never change. *)
Theorem breaker_stays_consistent threshold timeout calls :
  (1 <= threshold)%Z ->
  breaker_consistent (breaker_calls calls (new_breaker threshold timeout))
  /\ failure_threshold (breaker_calls calls (new_breaker threshold timeout))
     = threshold
  /\ recovery_timeout (breaker_calls calls (new_breaker threshold timeout))
     = timeout.
Proof.
  intros Hth.
  assert (Hgen : forall cb,
            (1 <= failure_threshold cb)%Z -> breaker_consistent cb ->
            breaker_consistent (breaker_calls calls cb)
            /\ failure_threshold (breaker_calls calls cb)
               = failure_threshold cb
            /\ recovery_timeout (breaker_calls calls cb)
               = recovery_timeout cb).
  { induction calls as [|call calls IH]; intros cb H1 Hc; cbn; [auto|].
    destruct (breaker_call_consistent cb call H1 Hc) as (Hc' & Ht & Hr).
    destruct (IH (breaker_call cb call) ltac:(lia) Hc') as (Hc2 & Ht2 & Hr2).
    unfold breaker_calls in *. split; [exact Hc2|]. split; congruence. }
  apply (Hgen (new_breaker threshold timeout)); cbn; [exact Hth|].
  unfold breaker_consistent; cbn. repeat split; try lia; congruence.
Qed.

End BreakerMore.

Lemma breaker_stays_consistent_witness :
  Executor.breaker_consistent
    (Executor.breaker_calls
       [Executor.RecordFailure 1; Executor.RecordFailure 2;
        Executor.RecordFailure 3; Executor.AskCanAttempt 70;
        Executor.RecordSuccess]
       (Executor.new_breaker 3 60)).
Proof.
  apply (breaker_stays_consistent 3 60). lia.
Defined.

(** ** Executor client: requests, sleeps and the breaker *)

Section ApplyMore.
Import Executor.
Context {Obs : Type}.
Implicit Types (c : ExecutorClient) (e : Env Obs) (cb : CircuitBreaker).

(** The shape of what the retry loop does from attempt [a] on: [k] retried
    attempts, each followed by its sleep, and then either the attempts are
    used up or one more request ends the call. *)
Lemma attempts_shape c e n : forall a cb sl,
  exists k,
    sleeps (attempts c e n a cb sl)
    = sl ++ List.map (jittered_delay c e) (seq a k)
    /\ (a + k <= requests (attempts c e n a cb sl) <= a + n)%nat
    /\ (requests (attempts c e n a cb sl) <= S (a + k))%nat
    /\ (forall i, (a <= i < a + k)%nat -> is_retried (outcome e i) = true)
    /\ (forall obs,
          returned (attempts c e n a cb sl) = Some obs ->
          requests (attempts c e n a cb sl) = S (a + k)
          /\ outcome e (a + k) = Response 200 (Some obs)).
Proof.
  induction n as [|n IH]; intros a cb sl.
  - exists 0%nat. cbn. rewrite app_nil_r.
    split; [reflexivity|]. split; [lia|]. split; [lia|].
    split; [intros i Hi; lia|discriminate].
  - assert (Hend : forall r,
        attempts c e (S n) a cb sl = r ->
        sleeps r = sl -> requests r = S a ->
        (forall obs, returned r = Some obs ->
                     outcome e a = Response 200 (Some obs)) ->
        exists k,
          sleeps r = sl ++ List.map (jittered_delay c e) (seq a k)
          /\ (a + k <= requests r <= a + S n)%nat
          /\ (requests r <= S (a + k))%nat
          /\ (forall i, (a <= i < a + k)%nat ->
                        is_retried (outcome e i) = true)
          /\ (forall obs, returned r = Some obs ->
                requests r = S (a + k)
                /\ outcome e (a + k) = Response 200 (Some obs))).
    { intros r _ Hsl Hreq Hret. exists 0%nat. cbn.
      rewrite app_nil_r, Nat.add_0_r.
      split; [exact Hsl|]. split; [lia|]. split; [lia|].
      split; [intros i Hi; lia|]. intros obs Hobs. split; [exact Hreq|auto]. }
    assert (Hgo : forall cb',
        attempts c e (S n) a cb sl
        = attempts c e n (S a) cb' (sl ++ [jittered_delay c e a]) ->
        is_retried (outcome e a) = true ->
        exists k,
          sleeps (attempts c e (S n) a cb sl)
          = sl ++ List.map (jittered_delay c e) (seq a k)
          /\ (a + k <= requests (attempts c e (S n) a cb sl) <= a + S n)%nat
          /\ (requests (attempts c e (S n) a cb sl) <= S (a + k))%nat
          /\ (forall i, (a <= i < a + k)%nat ->
                        is_retried (outcome e i) = true)
          /\ (forall obs,
                returned (attempts c e (S n) a cb sl) = Some obs ->
                requests (attempts c e (S n) a cb sl) = S (a + k)
                /\ outcome e (a + k) = Response 200 (Some obs))).
    { intros cb' Heq Hretry. rewrite Heq.
      destruct (IH (S a) cb' (sl ++ [jittered_delay c e a]))
        as (k & Hsl & Hreq & Hreq' & Hall & Hret).
      exists (S k). cbn [seq List.map]. rewrite Hsl, <- app_assoc. cbn.
      split; [reflexivity|]. split; [lia|]. split; [lia|]. split.
      - intros i Hi. destruct (decide (i = a)) as [->|Hne]; [exact Hretry|].
        apply Hall. lia.
      - intros obs Hobs. destruct (Hret obs Hobs) as [H1 H2].
        replace (a + S k)%nat with (S a + k)%nat by lia.
        split; [lia|exact H2]. }
    cbn [attempts] in *.
    destruct (outcome e a) as [code body| | |] eqn:Eo.
    + destruct (code =? 200)%Z eqn:E200.
      * apply Z.eqb_eq in E200. subst code.
        destruct body as [obs|]; eapply Hend; try reflexivity.
        -- intros obs' [= <-]. reflexivity.
        -- discriminate.
      * destruct (500 <=? code)%Z eqn:E500.
        -- eapply Hgo; [reflexivity|]. unfold is_retried.
           now rewrite E200, E500.
        -- eapply Hend; try reflexivity. discriminate.
    + eapply Hgo; reflexivity.
    + eapply Hgo; reflexivity.
    + eapply Hend; try reflexivity. discriminate.
Qed.

(** A call sends at most [max_retries] requests.  It sleeps only after an
    attempt that is retried, once per such attempt and for the delay of
    that attempt, so never more often than it sends requests.  When it
    returns an observation, that is the body of a 200 answer to its last
    request. *)
Theorem apply_policy_effort c e :
  (requests (apply_policy c e) <= max_retries c)%nat
  /\ (exists k,
        sleeps (apply_policy c e)
        = List.map (jittered_delay c e) (seq 0 k)
        /\ (k <= requests (apply_policy c e) <= S k)%nat
        /\ forall i, (i < k)%nat -> is_retried (outcome e i) = true)
  /\ (forall obs,
        returned (apply_policy c e) = Some obs ->
        exists i,
          requests (apply_policy c e) = S i
          /\ outcome e i = Response 200 (Some obs)).
Proof.
  unfold apply_policy.
  destruct (can_attempt (call_time e) (circuit_breaker c)) as [allowed cb'].
  destruct allowed; cbn [negb].
  - destruct (attempts_shape c e (max_retries c) 0 cb' [])
      as (k & Hsl & Hreq & Hreq' & Hall & Hret).
    split; [lia|]. split.
    + exists k. split; [exact Hsl|]. split; [lia|].
      intros i Hi. apply Hall. lia.
    + intros obs Hobs. destruct (Hret obs Hobs) as [H1 H2]. eauto.
  - cbn. split; [lia|]. split.
    + exists 0%nat. split; [reflexivity|]. split; [lia|]. intros i Hi. lia.
    + discriminate.
Qed.

(** The breaker after a run of the retry loop that returns an observation:
    closed with a count of zero, or open. *)
Lemma attempts_success_breaker c e n : forall a cb sl obs,
  returned (attempts c e n a cb sl) = Some obs ->
  (state (circuit_breaker (client_after (attempts c e n a cb sl))) = CLOSED
   /\ failure_count (circuit_breaker (client_after (attempts c e n a cb sl)))
      = 0%Z)
  \/ state (circuit_breaker (client_after (attempts c e n a cb sl))) = OPEN.
Proof.
  induction n as [|n IH]; intros a cb sl obs; cbn [attempts];
    [discriminate|].
  destruct (outcome e a) as [code body| | |]; try discriminate;
    try apply IH.
  destruct (code =? 200)%Z.
  - destruct body as [obs'|]; [|discriminate]. intros _. cbn.
    unfold record_success. destruct (state cb) eqn:Est; cbn; auto.
  - destruct (500 <=? code)%Z; [apply IH|discriminate].
Qed.

(** A call that returns an observation leaves the breaker closed with a
    failure count of zero, or open; it never leaves it half-open. *)
Theorem apply_policy_success_breaker c e obs :
  returned (apply_policy c e) = Some obs ->
  (state (circuit_breaker (client_after (apply_policy c e))) = CLOSED
   /\ failure_count (circuit_breaker (client_after (apply_policy c e)))
      = 0%Z)
  \/ state (circuit_breaker (client_after (apply_policy c e))) = OPEN.
Proof.
  unfold apply_policy.
  destruct (can_attempt (call_time e) (circuit_breaker c)) as [allowed cb'].
  destruct allowed; cbn [negb]; [apply attempts_success_breaker|].
  discriminate.
Qed.

End ApplyMore.

Lemma apply_policy_success_breaker_witness :
  Executor.returned
    (Executor.apply_policy Executor.default_client
       (Scenario.always 7 (Executor.Response 200 (Some Scenario.slow_healthy))))
  = Some Scenario.slow_healthy
  /\ Executor.state
       (Executor.circuit_breaker
          (Executor.client_after
             (Executor.apply_policy Executor.default_client
                (Scenario.always 7
                   (Executor.Response 200 (Some Scenario.slow_healthy))))))
     <> Executor.HALF_OPEN.
Proof.
  split; [reflexivity|].
  destruct (apply_policy_success_breaker Executor.default_client
              (Scenario.always 7
                 (Executor.Response 200 (Some Scenario.slow_healthy)))
              Scenario.slow_healthy eq_refl) as [[H _]|H];
    rewrite H; discriminate.
Defined.

(** The open case happens: two timeouts bring the count from three to the
    threshold of five, the third request is answered, and the call returns
    the observation with the breaker open. *)
Example success_with_open_breaker :
  Executor.returned
    (Executor.apply_policy Scenario.worn_client Scenario.two_timeouts_then_ok)
  = Some Scenario.slow_healthy
  /\ Executor.circuit_breaker
       (Executor.client_after
          (Executor.apply_policy Scenario.worn_client
             Scenario.two_timeouts_then_ok))
     = Executor.mkBreaker 5 60 Executor.OPEN 5 (Some 12).
Proof. split; reflexivity. Qed.

(** ** Backoff *)

Lemma Qsum_app (l1 l2 : list Q) : Qsum (l1 ++ l2) == Qsum l1 + Qsum l2.
Proof.
  unfold Qsum. induction l1 as [|x l1 IH]; cbn.
  - lra.
  - rewrite IH. lra.
Qed.

Lemma Qsum_map_le {A} (f g : A -> Q) (l : list A) :
  (forall x, In x l -> f x <= g x) ->
  Qsum (List.map f l) <= Qsum (List.map g l).
Proof.
  unfold Qsum. induction l as [|x l IH]; intros H; cbn.
  - lra.
  - pose proof (H x (or_introl eq_refl)).
    assert (fold_right Qplus 0 (List.map f l)
            <= fold_right Qplus 0 (List.map g l))
      by (apply IH; intros y Hy; apply H; now right).
    lra.
Qed.

Lemma Qsum_map_nonneg {A} (g : A -> Q) (l : list A) :
  (forall x, 0 <= g x) -> 0 <= Qsum (List.map g l).
Proof.
  intros H. unfold Qsum. induction l as [|x l IH]; cbn; [lra|].
  pose proof (H x). lra.
Qed.

Lemma pow2_pos (i : nat) : 0 < inject_Z (2 ^ Z.of_nat i).
Proof.
  rewrite <- (Zlt_Qlt 0). apply Z.pow_pos_nonneg; lia.
Qed.

Lemma pow2_succ (i : nat) :
  inject_Z (2 ^ Z.of_nat (S i)) == 2 * inject_Z (2 ^ Z.of_nat i).
Proof.
  rewrite Nat2Z.inj_succ, Z.pow_succ_r by lia.
  rewrite inject_Z_mult. reflexivity.
Qed.

Section BackoffFacts.
Import Executor.
Context {Obs : Type}.
Implicit Types (c : ExecutorClient) (e : Env Obs).

(** With a base delay and a maximal delay that are not negative, the delay
    before jitter lies between 0 and the maximal delay, never exceeds the
    base delay doubled once per attempt and equals it while that is within
    the maximum, and it does not shrink from one attempt to the next. *)
Theorem backoff_delay_shape c (attempt : nat) :
  0 <= base_delay c -> 0 <= max_delay c ->
  0 <= backoff_delay c attempt <= max_delay c
  /\ backoff_delay c attempt
     <= base_delay c * inject_Z (2 ^ Z.of_nat attempt)
  /\ (base_delay c * inject_Z (2 ^ Z.of_nat attempt) <= max_delay c ->
      backoff_delay c attempt
      == base_delay c * inject_Z (2 ^ Z.of_nat attempt))
  /\ backoff_delay c attempt <= backoff_delay c (S attempt).
Proof.
  intros Hb Hm. unfold backoff_delay.
  pose proof (pow2_pos attempt) as Hp.
  pose proof (pow2_succ attempt) as Hs.
  set (p := inject_Z (2 ^ Z.of_nat attempt)) in *.
  set (p' := inject_Z (2 ^ Z.of_nat (S attempt))) in *.
  assert (0 <= base_delay c * p) by nra.
  assert (base_delay c * p <= base_delay c * p') by nra.
  unfold pymin. cases_Qltb; repeat split; try lra; intros; lra.
Qed.

Lemma backoff_delay_nonneg c i :
  0 <= base_delay c -> 0 <= max_delay c -> 0 <= backoff_delay c i.
Proof.
  intros Hb Hm. unfold backoff_delay. pose proof (pow2_pos i).
  assert (0 <= base_delay c * inject_Z (2 ^ Z.of_nat i)) by nra.
  unfold pymin. cases_Qltb; lra.
Qed.

(** The retry upper bound.  When the jitter drawn for an attempt is within
    the share [jitter_percent] of that attempt's delay, every sleep of a
    call is within that share of its delay, and all the sleeps of the call
    together take at most the sum, over the [max_retries] attempts, of the
    delay times (1 + jitter_percent / 100). *)
Theorem sleep_budget c e :
  0 <= base_delay c -> 0 <= max_delay c -> 0 <= jitter_percent c ->
  (forall i,
      - (backoff_delay c i * (jitter_percent c / 100)) <= jitter_draw e i
      /\ jitter_draw e i <= backoff_delay c i * (jitter_percent c / 100)) ->
  (exists k,
      sleeps (apply_policy c e) = List.map (jittered_delay c e) (seq 0 k)
      /\ forall i,
           backoff_delay c i * (1 - jitter_percent c / 100)
           <= jittered_delay c e i
           /\ jittered_delay c e i
              <= backoff_delay c i * (1 + jitter_percent c / 100))
  /\ Qsum (sleeps (apply_policy c e))
     <= Qsum (List.map
                (fun i => backoff_delay c i * (1 + jitter_percent c / 100))
                (seq 0 (max_retries c))).
Proof.
  intros Hb Hm Hj Hdraw.
  assert (Hwithin : forall i,
             backoff_delay c i * (1 - jitter_percent c / 100)
             <= jittered_delay c e i
             /\ jittered_delay c e i
                <= backoff_delay c i * (1 + jitter_percent c / 100)).
  { intros i. destruct (Hdraw i) as [Hlo Hhi]. unfold jittered_delay.
    split; lra. }
  assert (Hub : forall i,
             0 <= backoff_delay c i * (1 + jitter_percent c / 100)).
  { intros i. pose proof (backoff_delay_nonneg c i Hb Hm).
    assert (0 <= jitter_percent c / 100)
      by (apply Qle_shift_div_l; [reflexivity|lra]).
    nra. }
  assert (Hshape : exists k,
             sleeps (apply_policy c e)
             = List.map (jittered_delay c e) (seq 0 k)
             /\ (k <= max_retries c)%nat).
  { unfold apply_policy.
    destruct (can_attempt (call_time e) (circuit_breaker c)) as [allowed cb'].
    destruct allowed; cbn [negb].
    - destruct (attempts_shape c e (max_retries c) 0 cb' [])
        as (k & Hsl & Hreq & _).
      exists k. split; [exact Hsl|lia].
    - exists 0%nat. split; [reflexivity|lia]. }
  destruct Hshape as (k & Hsl & Hk). split.
  - exists k. split; [exact Hsl|exact Hwithin].
  - rewrite Hsl.
    apply Qle_trans with
      (Qsum (List.map
               (fun i => backoff_delay c i * (1 + jitter_percent c / 100))
               (seq 0 k))).
    + apply Qsum_map_le. intros i _. apply Hwithin.
    + replace (max_retries c) with (k + (max_retries c - k))%nat by lia.
      rewrite seq_app, map_app, Qsum_app.
      pose proof (Qsum_map_nonneg
                    (fun i => backoff_delay c i
                              * (1 + jitter_percent c / 100))
                    (seq (0 + k) (max_retries c - k)) Hub).
      lra.
Qed.

End BackoffFacts.

Lemma backoff_delay_shape_witness :
  0 <= Executor.backoff_delay Executor.default_client 4 <= 8
  /\ Executor.backoff_delay Executor.default_client 3
     <= Executor.backoff_delay Executor.default_client 4.
Proof.
  pose proof (backoff_delay_shape Executor.default_client 4) as H4.
  pose proof (backoff_delay_shape Executor.default_client 3) as H3.
  assert (Hb : 0 <= Executor.base_delay Executor.default_client)
    by (unfold Qle; simpl; lia).
  assert (Hm : 0 <= Executor.max_delay Executor.default_client)
    by (unfold Qle; simpl; lia).
  split; [apply (H4 Hb Hm)|apply (H3 Hb Hm)].
Defined.

Lemma sleep_budget_witness :
  Qsum (Executor.sleeps
          (Executor.apply_policy Executor.default_client
             (Scenario.always 7 (Executor.Response 503 None))))
  <= Qsum (List.map
             (fun i => Executor.backoff_delay Executor.default_client i
                       * (1 + 10 / 100))
             (seq 0 5)).
Proof.
  apply (sleep_budget Executor.default_client
           (Scenario.always 7 (Executor.Response 503 None))).
  - unfold Qle; simpl; lia.
  - unfold Qle; simpl; lia.
  - unfold Qle; simpl; lia.
  - intros i. simpl.
    pose proof (backoff_delay_nonneg Executor.default_client i
                  ltac:(unfold Qle; simpl; lia)
                  ltac:(unfold Qle; simpl; lia)) as Hd.
    change (Executor.jitter_percent Executor.default_client) with 10.
    assert (H10 : 0 <= 10 / 100) by (unfold Qle; simpl; lia).
    split; nra.
Defined.

(** ** Health checks and the breaker *)

Section HealthFacts.
Import Executor.
Context {Obs : Type}.
Implicit Types (c : ExecutorClient) (e : Env Obs) (cb : CircuitBreaker).

Lemma health_check_unhealthy c now (o : Outcome Obs) :
  is_healthy o = false ->
  health_check c now o
  = (false, with_breaker c (record_failure now (circuit_breaker c))).
Proof.
  destruct o as [code body| | |]; cbn; try reflexivity.
  now intros ->.
Qed.

Lemma health_checks_unhealthy (probes : list (Q * Outcome Obs)) : forall c,
  Forall (fun p => is_healthy (snd p) = false) probes ->
  circuit_breaker (health_checks probes c)
  = record_failures (List.map fst probes) (circuit_breaker c).
Proof.
  induction probes as [|[now o] probes IH]; intros c Hall; cbn.
  - reflexivity.
  - apply Forall_cons in Hall as [Ho Hall]. cbn in Ho.
    unfold health_checks in *. rewrite (health_check_unhealthy c now o Ho).
    cbn. now rewrite IH.
Qed.

(** Health checks feed the breaker that guards [apply_policy].  On a client
    whose breaker is new, [failure_threshold] health checks in a row that
    are not answered with 200 open the breaker, and a call of
    [apply_policy] made within [recovery_timeout] of the last of them
    returns [None] without sending a request.  A health check answered
    with 200 on a closed breaker sets the failure count back to zero. *)
Theorem failed_health_checks_open_the_breaker c e threshold timeout
    (earlier : list (Q * Outcome Obs)) (t_last : Q) (o_last : Outcome Obs) :
  circuit_breaker c = new_breaker threshold timeout ->
  (Z.of_nat (List.length earlier) + 1 = threshold)%Z ->
  Forall (fun p => is_healthy (snd p) = false) earlier ->
  is_healthy o_last = false ->
  ~ t_last == 0 ->
  call_time e - t_last <= inject_Z timeout ->
  state (circuit_breaker (health_checks earlier c)) = CLOSED
  /\ state (circuit_breaker
              (health_checks (earlier ++ [(t_last, o_last)]) c)) = OPEN
  /\ returned
       (apply_policy (health_checks (earlier ++ [(t_last, o_last)]) c) e)
     = None
  /\ requests
       (apply_policy (health_checks (earlier ++ [(t_last, o_last)]) c) e)
     = 0%nat
  /\ (forall c' now (body : option Obs),
        state (circuit_breaker c') = CLOSED ->
        health_check c' now (Response 200 body)
        = (true, with_breaker c'
                   (mkBreaker (failure_threshold (circuit_breaker c'))
                      (recovery_timeout (circuit_breaker c')) CLOSED 0
                      (last_failure_time (circuit_breaker c'))))).
Proof.
  intros Hnew Hlen Hall Hlast Hnz Hearly.
  assert (Hall' : Forall (fun p : Q * Outcome Obs => is_healthy (snd p) = false)
                    (earlier ++ [(t_last, o_last)])).
  { apply Forall_app. split; [exact Hall|]. now constructor. }
  pose proof (health_checks_unhealthy earlier c Hall) as Hcb1.
  pose proof (health_checks_unhealthy _ c Hall') as Hcb2.
  rewrite map_app, record_failures_app in Hcb2. cbn in Hcb2.
  rewrite Hnew in Hcb1, Hcb2.
  destruct (record_failures_fields (List.map fst earlier)
              (new_breaker threshold timeout)) as (Hth & Hto & Hcount).
  cbn in Hth, Hto, Hcount. rewrite length_map in Hcount.
  assert (Hclosed : state (record_failures (List.map fst earlier)
                             (new_breaker threshold timeout)) = CLOSED).
  { apply record_failures_closed; cbn; [reflexivity|].
    rewrite length_map. lia. }
  assert (Hopen : state (circuit_breaker
                           (health_checks (earlier ++ [(t_last, o_last)]) c))
                  = OPEN).
  { rewrite Hcb2. apply record_failure_opens. rewrite Hth, Hcount. lia. }
  assert (Hrefuse : can_attempt (call_time e)
                      (circuit_breaker
                         (health_checks (earlier ++ [(t_last, o_last)]) c))
                    = (false,
                       circuit_breaker
                         (health_checks (earlier ++ [(t_last, o_last)]) c))).
  { unfold can_attempt. rewrite Hopen. rewrite Hcb2. cbn.
    assert (Qeq_bool t_last 0 = false) as ->.
    { destruct (Qeq_bool t_last 0) eqn:E; [|reflexivity].
      apply Qeq_bool_iff in E. contradiction. }
    cbn. rewrite Hto.
    now assert (Qgtb (call_time e - t_last) (inject_Z timeout) = false) as ->
      by now apply Qgtb_le. }
  split; [now rewrite Hcb1|]. split; [exact Hopen|].
  split; [|split].
  - unfold apply_policy. now rewrite Hrefuse.
  - unfold apply_policy. now rewrite Hrefuse.
  - intros c' now body Hst. cbn. unfold record_success. now rewrite Hst.
Qed.

End HealthFacts.

Lemma failed_health_checks_open_the_breaker_witness :
  Executor.returned
    (Executor.apply_policy
       (Executor.health_checks
          (Scenario.failing_probes ++ [(5, Scenario.fifth_probe)])
          Executor.default_client)
       (Scenario.always 30
          (Executor.Response 200 (Some Scenario.slow_healthy))))
  = None.
Proof.
  apply (failed_health_checks_open_the_breaker Executor.default_client
           (Scenario.always 30
              (Executor.Response 200 (Some Scenario.slow_healthy)))
           5 60 Scenario.failing_probes 5 Scenario.fifth_probe).
  - reflexivity.
  - reflexivity.
  - repeat constructor.
  - reflexivity.
  - unfold Qeq; simpl; lia.
  - unfold Qle; simpl; lia.
Defined.

(** ** The service's analyzer: ranges, monotonicity, aggregation *)

Section ServiceAnalyzerFacts.
Import Analyzer.

Lemma service_perf_range scorer obs :
  0 <= PerformanceScorer.score scorer obs <= 9.
Proof.
  unfold PerformanceScorer.score.
  destruct (latency_ms obs) as [l|]; [|split; lra].
  destruct (Qle_bool l (PerformanceScorer.baseline_ms scorer)) eqn:E1;
    [split; lra|].
  destruct (Qgeb l (PerformanceScorer.threshold_ms scorer)) eqn:E2;
    [split; lra|].
  assert (PerformanceScorer.baseline_ms scorer < l) as Hlo.
  { apply Qnot_le_lt. intros H. apply Qle_bool_iff in H. congruence. }
  apply Qgeb_lt in E2.
  assert (HBT : PerformanceScorer.baseline_ms scorer
                < PerformanceScorer.threshold_ms scorer) by lra.
  pose proof (ramp_pos _ _ HBT l Hlo).
  pose proof (ramp_below _ _ HBT l E2).
  unfold pymin. cases_Qltb; split; lra.
Qed.

Lemma service_struct_range obs : 0 <= StructureScorer.score obs <= 6.
Proof.
  unfold StructureScorer.score.
  destruct (trace_data obs) as [tr|]; [|split; lra].
  pose proof (inject_nat_nonneg (List.length (spans tr))) as Hn.
  destruct (List.length (spans tr) <=? 2)%nat;
    [|destruct (List.length (spans tr) <=? 5)%nat];
    destruct (0 <? List.length (List.filter StructureScorer.is_error_span
                                  (spans tr)))%nat;
    unfold pymax, pymin; cases_Qltb; split; lra.
Qed.

Lemma service_bug_values obs : In (BugScorer.score obs) [0; 3; 6; 8; 10].
Proof.
  unfold BugScorer.score.
  repeat match goal with
         | |- context [if ?b then _ else _] => destruct b
         end; cbn; auto 10.
Qed.

(** Whatever the observation and the configuration, the bug score is one
    of 0, 3, 6, 8 and 10, the performance score lies between 0 and 9 (the
    interpolation never divides by zero), and the structure score lies
    between 0 and 6. *)
Theorem service_sub_scores_range scorer obs :
  In (BugScorer.score obs) [0; 3; 6; 8; 10]
  /\ 0 <= PerformanceScorer.score scorer obs <= 9
  /\ 0 <= StructureScorer.score obs <= 6.
Proof.
  split; [apply service_bug_values|].
  split; [apply service_perf_range|apply service_struct_range].
Qed.

(** Performance score and latency: with everything else fixed, a higher
    latency never gives a lower score, for every baseline and threshold. *)
Theorem service_perf_monotone scorer obs1 obs2 l1 l2 :
  latency_ms obs1 = Some l1 ->
  latency_ms obs2 = Some l2 ->
  l1 <= l2 ->
  PerformanceScorer.score scorer obs1 <= PerformanceScorer.score scorer obs2.
Proof.
  intros H1 H2 Hle.
  pose proof (service_perf_range scorer obs1) as R1.
  pose proof (service_perf_range scorer obs2) as R2.
  unfold PerformanceScorer.score in *. rewrite H1 in *. rewrite H2 in *.
  set (B := PerformanceScorer.baseline_ms scorer) in *.
  set (T := PerformanceScorer.threshold_ms scorer) in *.
  destruct (Qle_bool l1 B) eqn:E1; [lra|].
  assert (B < l1) as Hlo1.
  { apply Qnot_le_lt. intros H. apply Qle_bool_iff in H. congruence. }
  assert (Qle_bool l2 B = false) as E2.
  { destruct (Qle_bool l2 B) eqn:E; [|reflexivity].
    apply Qle_bool_iff in E. lra. }
  rewrite E2 in *.
  destruct (Qgeb l2 T) eqn:E3; [lra|].
  apply Qgeb_lt in E3.
  assert (Qgeb l1 T = false) as E4 by (apply Qgeb_lt; lra).
  rewrite E4 in *.
  assert (HBT : B < T) by lra.
  pose proof (ramp_pos B T HBT l1 Hlo1).
  pose proof (ramp_below B T HBT l2 E3).
  assert (Hmono : (l1 - B) / (T - B) * 9 <= (l2 - B) / (T - B) * 9).
  { unfold Qdiv. assert (0 < / (T - B)) by (apply Qinv_lt_0_compat; lra).
    nra. }
  unfold pymin in *. cases_Qltb; lra.
Qed.

(** The structure score is decided by the number of spans alone, except
    for traces of one or two spans: 0 without a trace or without spans, 3
    for three to five spans, 6 from six spans on; for one or two spans it
    is 2 if some span has a status other than ok or unset, and half the
    number of spans otherwise. *)
Theorem service_struct_by_span_count obs :
  match trace_data obs with
  | None => StructureScorer.score obs = 0
  | Some tr =>
      let n := List.length (spans tr) in
      (n = 0%nat -> StructureScorer.score obs == 0)
      /\ ((1 <= n <= 2)%nat ->
          StructureScorer.score obs
          == if existsb StructureScorer.is_error_span (spans tr)
             then 2 else inject_Z (Z.of_nat n) * (1 # 2))
      /\ ((3 <= n <= 5)%nat -> StructureScorer.score obs == 3)
      /\ ((6 <= n)%nat -> StructureScorer.score obs == 6)
  end.
Proof.
  unfold StructureScorer.score.
  destruct (trace_data obs) as [tr|]; [|reflexivity]. cbn zeta.
  assert (Herr : (0 <? List.length (List.filter StructureScorer.is_error_span
                                      (spans tr)))%nat
                 = existsb StructureScorer.is_error_span (spans tr)).
  { induction (spans tr) as [|sp l IH]; cbn; [reflexivity|].
    destruct (StructureScorer.is_error_span sp); cbn; [reflexivity|exact IH]. }
  rewrite Herr.
  set (n := List.length (spans tr)).
  assert (Hn : forall k : nat, (k <= n)%nat ->
                 inject_Z (Z.of_nat k) <= inject_Z (Z.of_nat n))
    by (intros k; apply inject_nat_le).
  assert (Hn' : forall k : nat, (n <= k)%nat ->
                  inject_Z (Z.of_nat n) <= inject_Z (Z.of_nat k))
    by (intros k; apply inject_nat_le).
  repeat split.
  - intros H0. rewrite H0. cbn.
    destruct (existsb _ _) eqn:E.
    + destruct (spans tr); [discriminate|]. subst n. discriminate.
    + vm_compute. reflexivity.
  - intros [H1 H2].
    assert ((n <=? 2)%nat = true) as -> by (apply Nat.leb_le; lia).
    pose proof (Hn 1%nat H1) as Ha. pose proof (Hn' 2%nat H2) as Hb.
    change (inject_Z (Z.of_nat 1)) with 1 in Ha.
    change (inject_Z (Z.of_nat 2)) with 2 in Hb.
    destruct (existsb _ _); unfold pymax, pymin; cases_Qltb; lra.
  - intros [H3 H5].
    assert ((n <=? 2)%nat = false) as -> by (apply Nat.leb_gt; lia).
    assert ((n <=? 5)%nat = true) as -> by (apply Nat.leb_le; lia).
    pose proof (Hn' 5%nat H5) as Hb.
    change (inject_Z (Z.of_nat 5)) with 5 in Hb.
    destruct (existsb _ _); unfold pymax, pymin; cases_Qltb; lra.
  - intros H6.
    assert ((n <=? 2)%nat = false) as -> by (apply Nat.leb_gt; lia).
    assert ((n <=? 5)%nat = false) as -> by (apply Nat.leb_gt; lia).
    destruct (existsb _ _); unfold pymax, pymin; cases_Qltb; lra.
Qed.

(** With weights that are not negative and not all zero, the analyzer is
    built, its normalized weights sum to 1, and the total score is the
    weighted mean of the three sub-scores: the clamp to [0, 10] never cuts
    anything off. *)
Theorem service_total_is_weighted_mean baseline threshold w_bug w_perf
    w_struct obs :
  0 <= w_bug -> 0 <= w_perf -> 0 <= w_struct ->
  0 < w_bug + w_perf + w_struct ->
  exists service,
    AnalyzerService.init baseline threshold w_bug w_perf w_struct
    = Ok service
    /\ AnalyzerService.bug_weight service
       + AnalyzerService.perf_weight service
       + AnalyzerService.struct_weight service == 1
    /\ AnalyzerService.total_score
         (AnalyzerService.calculate_severity service obs)
       == (w_bug * BugScorer.score obs
           + w_perf
             * PerformanceScorer.score
                 (PerformanceScorer.mk baseline threshold) obs
           + w_struct * StructureScorer.score obs)
          / (w_bug + w_perf + w_struct)
    /\ 0 <= AnalyzerService.total_score
              (AnalyzerService.calculate_severity service obs) <= 10.
Proof.
  intros Hb Hp Hs Hsum.
  set (total := w_bug + w_perf + w_struct) in *.
  assert (Hnz : Qeq_bool total 0 = false).
  { destruct (Qeq_bool total 0) eqn:E; [|reflexivity].
    apply Qeq_bool_iff in E. lra. }
  unfold AnalyzerService.init, AnalyzerService.fdiv. fold total.
  rewrite Hnz. cbn. eexists. split; [reflexivity|]. cbn.
  assert (Hi : 0 < / total) by now apply Qinv_lt_0_compat.
  assert (Hone : total * / total == 1) by (apply Qmult_inv_r; lra).
  set (B := BugScorer.score obs).
  set (P := PerformanceScorer.score (PerformanceScorer.mk baseline threshold)
              obs).
  set (S := StructureScorer.score obs).
  assert (HB : 0 <= B <= 10).
  { destruct (service_bug_values obs) as [H|[H|[H|[H|[H|[]]]]]];
      subst B; rewrite <- H; split; lra. }
  pose proof (service_perf_range (PerformanceScorer.mk baseline threshold) obs)
    as HP. fold P in HP.
  pose proof (service_struct_range obs) as HS. fold S in HS.
  assert (Hmean : w_bug / total * B + w_perf / total * P
                  + w_struct / total * S
                  == (w_bug * B + w_perf * P + w_struct * S) / total).
  { unfold Qdiv. ring. }
  assert (Hrange : 0 <= (w_bug * B + w_perf * P + w_struct * S) / total <= 10).
  { split.
    - apply Qle_shift_div_l; [exact Hsum|]. nra.
    - apply Qle_shift_div_r; [exact Hsum|]. unfold total. nra. }
  split.
  - unfold Qdiv. unfold total in Hone |- *. nra.
  - assert (Hclamp : pymax 0 (pymin 10 (w_bug / total * B + w_perf / total * P
                                       + w_struct / total * S))
                     == (w_bug * B + w_perf * P + w_struct * S) / total).
    { unfold pymax, pymin. cases_Qltb; lra. }
    split; [exact Hclamp|]. rewrite Hclamp. exact Hrange.
Qed.

End ServiceAnalyzerFacts.

Lemma service_perf_monotone_witness :
  Analyzer.PerformanceScorer.score (Analyzer.PerformanceScorer.mk 100 500)
    Scenario.benign_log
  <= Analyzer.PerformanceScorer.score (Analyzer.PerformanceScorer.mk 100 500)
       Scenario.slow_healthy.
Proof.
  apply (service_perf_monotone (Analyzer.PerformanceScorer.mk 100 500)
           Scenario.benign_log Scenario.slow_healthy 100 600).
  - reflexivity.
  - reflexivity.
  - unfold Qle; simpl; lia.
Defined.

Lemma service_total_is_weighted_mean_witness :
  exists service,
    Analyzer.AnalyzerService.init 100 500 1 1 1 = Ok service
    /\ Analyzer.AnalyzerService.bug_weight service
       + Analyzer.AnalyzerService.perf_weight service
       + Analyzer.AnalyzerService.struct_weight service == 1
    /\ Analyzer.AnalyzerService.total_score
         (Analyzer.AnalyzerService.calculate_severity service
            Scenario.slow_healthy)
       == (1 * Analyzer.BugScorer.score Scenario.slow_healthy
           + 1 * Analyzer.PerformanceScorer.score
                   (Analyzer.PerformanceScorer.mk 100 500)
                   Scenario.slow_healthy
           + 1 * Analyzer.StructureScorer.score Scenario.slow_healthy)
          / (1 + 1 + 1)
    /\ 0 <= Analyzer.AnalyzerService.total_score
              (Analyzer.AnalyzerService.calculate_severity service
                 Scenario.slow_healthy) <= 10.
Proof.
  apply (service_total_is_weighted_mean 100 500 1 1 1 Scenario.slow_healthy);
    unfold Qle, Qlt; simpl; lia.
Defined.

(** ** The optimizer: plans, points and the recorded history *)

Section OptimizerFacts.
Import Optimizer.

Lemma point_to_dict_from_spec cfg : forall pt acc,
  (List.length cfg <= List.length pt)%nat ->
  exists plan,
    SpaceConverter.point_to_dict_from acc cfg pt = Ok plan
    /\ (forall k, k ∉ List.map dim_name cfg -> plan !! k = acc !! k)
    /\ (NoDup (List.map dim_name cfg) ->
        forall (i : nat) d v,
          cfg !! i = Some d -> pt !! i = Some v ->
          plan !! dim_name d = Some v).
Proof.
  induction cfg as [|d0 rest IH]; intros pt acc Hlen.
  - exists acc. split; [reflexivity|]. split; [reflexivity|].
    intros _ i d v H. discriminate.
  - destruct pt as [|v0 pt']; [cbn in Hlen; lia|].
    cbn in Hlen.
    destruct (IH pt' (<[dim_name d0 := v0]> acc)) as (plan & Hr & Hout & Hin);
      [lia|].
    exists plan. split; [exact Hr|]. split.
    + intros k Hk. cbn in Hk. apply not_elem_of_cons in Hk.
      destruct Hk as [Hne Hk]. rewrite Hout by exact Hk.
      apply lookup_insert_ne. congruence.
    + intros Hnd i d v Hd Hv. cbn in Hnd. apply NoDup_cons in Hnd.
      destruct Hnd as [Hfresh Hnd].
      destruct i as [|i]; cbn in Hd, Hv.
      * injection Hd as <-. injection Hv as <-.
        rewrite Hout by exact Hfresh. apply lookup_insert_eq.
      * eapply Hin; eauto.
Qed.

Lemma point_to_dict_from_short cfg : forall pt acc,
  (List.length pt < List.length cfg)%nat ->
  SpaceConverter.point_to_dict_from acc cfg pt = Raise IndexError.
Proof.
  induction cfg as [|d0 rest IH]; intros pt acc Hlen; [cbn in Hlen; lia|].
  destruct pt as [|v0 pt']; [reflexivity|].
  cbn in Hlen |- *. apply IH. lia.
Qed.

(** From a point to a plan and back: if no two dimensions share a name and
    the point has a coordinate for each, [point_to_dict] returns a plan
    whose keys are the dimension names, and [record] reads the point's
    coordinates back from it in order; a point with fewer coordinates
    than dimensions raises IndexError. *)
Theorem plan_round_trip self point score :
  NoDup (List.map dim_name (search_space_config self)) ->
  let cfg := search_space_config self in
  if (List.length cfg <=? List.length point)%nat then
    exists plan,
      SpaceConverter.point_to_dict cfg point = Ok plan
      /\ (forall k, k ∈ List.map dim_name cfg <-> is_Some (plan !! k))
      /\ observation_history_X (record self plan score)
         = observation_history_X self
           ++ [List.map Some (take (List.length cfg) point)]
  else SpaceConverter.point_to_dict cfg point = Raise IndexError.
Proof.
  intros Hnd cfg. subst cfg.
  destruct (Nat.leb_spec (List.length (search_space_config self))
              (List.length point)) as [Hlen|Hlen];
    [|now apply point_to_dict_from_short].
  destruct (point_to_dict_from_spec (search_space_config self) point ∅ Hlen)
    as (plan & Hr & Hout & Hin).
  specialize (Hin Hnd).
  exists plan. split; [exact Hr|].
  assert (Hrow : forall cfg' pt',
             (forall (i : nat) d v, cfg' !! i = Some d -> pt' !! i = Some v ->
                                    plan !! dim_name d = Some v) ->
             (List.length cfg' <= List.length pt')%nat ->
             List.map (fun dim => plan !! dim_name dim) cfg'
             = List.map Some (take (List.length cfg') pt')).
  { induction cfg' as [|d rest IH]; intros pt' H Hl; [reflexivity|].
    destruct pt' as [|v pt'']; [cbn in Hl; lia|].
    cbn. f_equal.
    - apply (H 0%nat d v); reflexivity.
    - apply IH; [|cbn in Hl; lia].
      intros i d' v' Hd Hv. apply (H (S i) d' v'); assumption. }
  split.
  - intros k. split.
    + intros Hk. apply list_elem_of_In, in_map_iff in Hk.
      destruct Hk as (d & <- & Hd).
      apply list_elem_of_In, list_elem_of_lookup in Hd.
      destruct Hd as [i Hi].
      destruct (lookup_lt_is_Some_2 point i) as [v Hv].
      { apply lookup_lt_Some in Hi. lia. }
      exists v. eapply Hin; eauto.
    + intros [v Hv].
      destruct (decide (k ∈ List.map dim_name (search_space_config self)))
        as [Hk|Hk]; [exact Hk|].
      rewrite Hout in Hv by exact Hk. rewrite lookup_empty in Hv.
      discriminate.
  - cbn. f_equal. f_equal. apply Hrow; assumption.
Qed.

Lemma convert_names cfg : forall dims,
  SpaceConverter.convert cfg = Ok dims ->
  List.map dimension_name dims = List.map dim_name (List.filter known_type cfg).
Proof.
  induction cfg as [|d rest IH]; intros dims H; cbn in H.
  - injection H as <-. reflexivity.
  - cbn [List.filter]. unfold known_type at 1.
    destruct (String.eqb (dim_type d) "categorical").
    + destruct (SpaceConverter.convert rest) as [ds|e]; [|discriminate].
      cbn in H. injection H as <-. cbn. f_equal. now apply IH.
    + destruct (String.eqb (dim_type d) "integer").
      * destruct (SpaceConverter.bounds_pair _) as [b|e]; [|discriminate].
        cbn in H.
        destruct (SpaceConverter.convert rest) as [ds|e]; [|discriminate].
        cbn in H. injection H as <-. cbn. f_equal. now apply IH.
      * destruct (String.eqb (dim_type d) "real").
        -- destruct (SpaceConverter.bounds_pair _) as [b|e]; [|discriminate].
           cbn in H.
           destruct (SpaceConverter.convert rest) as [ds|e]; [|discriminate].
           cbn in H. injection H as <-. cbn. f_equal. now apply IH.
        -- cbn. now apply IH.
Qed.

Lemma filter_all_known cfg :
  forallb known_type cfg = true -> List.filter known_type cfg = cfg.
Proof.
  induction cfg as [|d rest IH]; [reflexivity|]. cbn.
  destruct (known_type d); [|discriminate]. cbn. intros H. now rewrite IH.
Qed.

Lemma filter_some_unknown cfg :
  Exists (fun d => known_type d = false) cfg ->
  (List.length (List.filter known_type cfg) < List.length cfg)%nat.
Proof.
  assert (Hle : forall l : list DimConfig,
             (List.length (List.filter known_type l) <= List.length l)%nat).
  { induction l as [|d l IH]; cbn; [lia|].
    destruct (known_type d); cbn; lia. }
  induction 1 as [d rest Hd|d rest _ IH]; cbn.
  - rewrite Hd. specialize (Hle rest). lia.
  - destruct (known_type d); cbn; lia.
Qed.

Lemma random_choice_raises rng seq e :
  random_choice rng seq = Raise e -> e = IndexError.
Proof.
  unfold random_choice, random_random.
  destruct (nth_error seq _); [discriminate|]. now intros [= <-].
Qed.

Lemma random_point_shape dims : forall rng,
  match random_point dims rng with
  | Ok (pt, rng') =>
      List.length pt = List.length dims
      /\ position rng' = (position rng + List.length dims)%nat
      /\ draws rng' = draws rng
  | Raise e => e = IndexError
  end.
Proof.
  induction dims as [|dim rest IH]; intros rng; cbn [random_point].
  - cbn. repeat split; lia.
  - assert (Hstep : forall v rng1,
               position rng1 = S (position rng) -> draws rng1 = draws rng ->
               match (let* pr := random_point rest rng1 in
                      Ok (v :: fst pr, snd pr)) with
               | Ok (pt, rng') =>
                   List.length pt = S (List.length rest)
                   /\ position rng' = (position rng + S (List.length rest))%nat
                   /\ draws rng' = draws rng
               | Raise e => e = IndexError
               end).
    { intros v rng1 Hp Hd. specialize (IH rng1).
      destruct (random_point rest rng1) as [[pt rng']|e]; cbn; [|exact IH].
      destruct IH as (Hl & Hpos & Hdr). repeat split; [lia|lia|congruence]. }
    destruct dim as [cs name|lo hi name|lo hi name].
    + destruct (random_choice rng cs) as [[v rng1]|e] eqn:E;
        cbn [rbind fst snd].
      * refine (Hstep v rng1 _ _); unfold random_choice, random_random in E;
          destruct (nth_error cs _); try discriminate;
          injection E as <- <-; reflexivity.
      * now apply random_choice_raises in E.
    + refine (Hstep _ _ _ _); reflexivity.
    + refine (Hstep _ _ _ _); reflexivity.
Qed.

(** A search space with an entry whose type is none of categorical,
    integer and real is accepted by the constructor, and then the first
    proposal always raises IndexError: the entry gets no dimension, so the
    sampled point is shorter than the list of configured names. *)
Theorem unknown_type_fails_first_proposal select_next_point cfg self rng :
  init cfg = Ok self ->
  Exists (fun dim_config => known_type dim_config = false) cfg ->
  propose select_next_point self rng = Raise IndexError.
Proof.
  unfold init. intros Hinit Hex.
  destruct (SpaceConverter.convert cfg) as [dims|e] eqn:Hc; [|discriminate].
  cbn in Hinit. injection Hinit as <-.
  unfold propose. cbn.
  pose proof (random_point_shape dims rng) as Hrp.
  destruct (random_point dims rng) as [[pt rng']|e]; cbn; [|now subst e].
  destruct Hrp as (Hl & _ & _).
  rewrite point_to_dict_from_short; [reflexivity|].
  rewrite Hl.
  pose proof (f_equal (@List.length _) (convert_names cfg dims Hc)) as Hn.
  rewrite !length_map in Hn. rewrite Hn.
  now apply filter_some_unknown.
Qed.

Lemma random_choice_ok rng seq :
  0 <= draws rng (position rng) < 1 ->
  seq <> [] ->
  exists v,
    random_choice rng seq
    = Ok (v, mkRandom (draws rng) (S (position rng)))
    /\ In v seq.
Proof.
  intros [Hu0 Hu1] Hne. unfold random_choice, random_random.
  set (u := draws rng (position rng)) in *.
  set (n := List.length seq).
  assert (Hn : (0 < n)%nat) by (destruct seq; [congruence|cbn; lia]).
  assert (HN : 0 < inject_Z (Z.of_nat n)).
  { change 0 with (inject_Z 0). rewrite <- Zlt_Qlt. lia. }
  set (x := u * inject_Z (Z.of_nat n)).
  assert (Hx0 : 0 <= x) by (unfold x; nra).
  assert (Hx1 : x < inject_Z (Z.of_nat n)) by (unfold x; nra).
  assert (Hf0 : (0 <= Qfloor x)%Z).
  { change 0%Z with (Qfloor 0). now apply Qfloor_resp_le. }
  assert (Hf1 : (Qfloor x < Z.of_nat n)%Z).
  { rewrite Zlt_Qlt. pose proof (Qfloor_le x). lra. }
  assert (Hi : (Z.to_nat (Qfloor x) < n)%nat) by lia.
  destruct (nth_error seq (Z.to_nat (Qfloor x))) as [v|] eqn:E.
  - exists v. split; [reflexivity|]. eapply nth_error_In; eauto.
  - apply nth_error_None in E. fold n in E. lia.
Qed.

Lemma random_point_in_space dims : forall rng,
  Forall samplable dims ->
  (forall i, 0 <= draws rng i < 1) ->
  exists pt rng',
    random_point dims rng = Ok (pt, rng')
    /\ Forall2 in_dimension dims pt.
Proof.
  induction dims as [|dim rest IH]; intros rng Hs Hd; cbn [random_point].
  - exists [], rng. split; [reflexivity|constructor].
  - apply Forall_cons in Hs. destruct Hs as [Hdim Hs].
    assert (Hnum : forall lo hi, lo < hi ->
               lo <= lo + draws rng (position rng) * (hi - lo)
               /\ lo + draws rng (position rng) * (hi - lo) < hi).
    { intros lo hi Hlt. specialize (Hd (position rng)). split; nra. }
    assert (Hstep : forall v rng1,
               draws rng1 = draws rng -> in_dimension dim v ->
               exists pt rng',
                 (let* pr := random_point rest rng1 in
                  Ok (v :: fst pr, snd pr)) = Ok (pt, rng')
                 /\ Forall2 in_dimension (dim :: rest) pt).
    { intros v rng1 Hdr Hv.
      destruct (IH rng1 Hs) as (pt & rng' & Hr & Hin).
      { intros i. rewrite Hdr. apply Hd. }
      exists (v :: pt), rng'. rewrite Hr. split; [reflexivity|].
      now constructor. }
    destruct dim as [cs name|lo hi name|lo hi name]; cbn in Hdim.
    + destruct (random_choice_ok rng cs (Hd _) Hdim) as (v & -> & Hv).
      cbn [rbind fst snd]. apply Hstep; [reflexivity|exact Hv].
    + cbn [random_random rbind fst snd].
      refine (Hstep _ _ _ _); [reflexivity|]. cbn. now apply Hnum.
    + cbn [random_random rbind fst snd].
      refine (Hstep _ _ _ _); [reflexivity|]. cbn. now apply Hnum.
Qed.

(** The first proposal lies in the search space: when every configured
    type is known, no two dimensions share a name, every categorical has a
    category, every numeric dimension has its lower bound below the upper
    one and [random.random] draws from [0, 1), [propose] returns a plan
    with exactly the configured names, each bound to a category of its
    dimension or to a number from [low, high), and consumes one draw per
    dimension. *)
Theorem first_proposal_in_space select_next_point cfg self rng :
  init cfg = Ok self ->
  forallb known_type cfg = true ->
  NoDup (List.map dim_name cfg) ->
  Forall samplable (dimensions self) ->
  (forall i, 0 <= draws rng i < 1) ->
  exists plan rng',
    propose select_next_point self rng = Ok (plan, rng')
    /\ position rng' = (position rng + List.length cfg)%nat
    /\ (forall k, k ∈ List.map dim_name cfg <-> is_Some (plan !! k))
    /\ Forall (fun dim =>
                 exists v, plan !! dimension_name dim = Some v
                           /\ in_dimension dim v)
              (dimensions self).
Proof.
  unfold init. intros Hinit Hknown Hnd Hs Hd.
  destruct (SpaceConverter.convert cfg) as [dims|e] eqn:Hc; [|discriminate].
  cbn in Hinit. injection Hinit as <-. cbn in Hs |- *.
  pose proof (convert_names cfg dims Hc) as Hnames.
  rewrite (filter_all_known cfg Hknown) in Hnames.
  assert (Hlen : List.length dims = List.length cfg).
  { pose proof (f_equal (@List.length _) Hnames) as H.
    now rewrite !length_map in H. }
  destruct (random_point_in_space dims rng Hs Hd) as (pt & rng' & Hr & Hin).
  pose proof (random_point_shape dims rng) as Hshape. rewrite Hr in Hshape.
  destruct Hshape as (Hpt & Hpos & _).
  destruct (point_to_dict_from_spec cfg pt ∅) as (plan & Hp & Hout & Hlook);
    [lia|].
  specialize (Hlook Hnd).
  exists plan, rng'. unfold propose. cbn. rewrite Hr. cbn.
  unfold SpaceConverter.point_to_dict. rewrite Hp. cbn.
  split; [reflexivity|]. split; [lia|]. split.
  - intros k. split.
    + intros Hk. apply list_elem_of_In, in_map_iff in Hk.
      destruct Hk as (d & <- & Hk).
      apply list_elem_of_In, list_elem_of_lookup in Hk.
      destruct Hk as [i Hi].
      destruct (lookup_lt_is_Some_2 pt i) as [v Hv].
      { apply lookup_lt_Some in Hi. lia. }
      exists v. eapply Hlook; eauto.
    + intros [v Hv].
      destruct (decide (k ∈ List.map dim_name cfg)) as [Hk|Hk]; [exact Hk|].
      rewrite Hout in Hv by exact Hk. rewrite lookup_empty in Hv.
      discriminate.
  - apply Forall_lookup. intros i dim Hdim.
    destruct (Forall2_lookup_l _ _ _ _ _ Hin Hdim) as (v & Hv & Hvin).
    destruct (lookup_lt_is_Some_2 cfg i) as [d Hdc].
    { apply lookup_lt_Some in Hdim. lia. }
    exists v. split; [|exact Hvin].
    assert (Hn : dimension_name dim = dim_name d).
    { assert (H1 : List.map dimension_name dims !! i
                   = Some (dimension_name dim)).
      { change (List.map dimension_name dims)
          with (dimension_name <$> dims).
        rewrite list_lookup_fmap, Hdim. reflexivity. }
      assert (H2 : List.map dim_name cfg !! i = Some (dim_name d)).
      { change (List.map dim_name cfg) with (dim_name <$> cfg).
        rewrite list_lookup_fmap, Hdc. reflexivity. }
      rewrite Hnames in H1. congruence. }
    rewrite Hn. eapply Hlook; eauto.
Qed.

Lemma records_snoc rs : forall self plan score,
  records (rs ++ [(plan, score)]) self = record (records rs self) plan score.
Proof.
  induction rs as [|[p s] rs IH]; intros self plan score; cbn.
  - reflexivity.
  - apply IH.
Qed.



Lemma records_best cfg self0 results :
  init cfg = Ok self0 ->
  let self := records results self0 in
  0 <= best_value self
  /\ Forall (fun r => snd r <= best_value self) results
  /\ match best_point self with
     | None => best_value self = 0 /\ Forall (fun r => snd r <= 0) results
     | Some plan => 0 < best_value self
                    /\ (plan, best_value self) ∈ results
     end.
Proof.
  unfold init. intros Hinit.
  destruct (SpaceConverter.convert cfg) as [dims|e]; [|discriminate].
  cbn in Hinit. injection Hinit as <-. cbn zeta.
  induction results as [|[plan score] rs IH] using rev_ind.
  - cbn. split; [lra|]. split; [constructor|]. split; [reflexivity|constructor].
  - rewrite records_snoc.
    destruct IH as (H0 & Hall & Hbest).
    set (self := records rs _) in *.
    unfold record. cbn [best_value best_point].
    destruct (Qgtb score (best_value self)) eqn:E.
    + apply Qgtb_gt in E.
      split; [lra|]. split.
      * apply Forall_app. split.
        -- eapply Forall_impl; [exact Hall|]. cbn. intros r Hr. lra.
        -- constructor; [cbn; lra|constructor].
      * split; [lra|]. apply elem_of_app. right. apply list_elem_of_singleton.
        reflexivity.
    + apply Qgtb_le in E.
      split; [exact H0|]. split.
      * apply Forall_app. split; [exact Hall|].
        constructor; [exact E|constructor].
      * destruct (best_point self) as [p|].
        -- destruct Hbest as [Hpos Hin]. split; [exact Hpos|].
           apply elem_of_app. now left.
        -- destruct Hbest as [Hz Hle]. split; [exact Hz|].
           apply Forall_app. split; [exact Hle|].
           constructor; [cbn; rewrite Hz in E; exact E|constructor].
Qed.

(** What [get_best] returns: starting from a new optimizer, while no
    recorded score is positive it is the empty plan with score 0;
    otherwise it is a recorded plan together with its score, which is
    positive and at least every recorded score. *)
Theorem get_best_is_recorded_maximum cfg self0 results :
  init cfg = Ok self0 ->
  let best := get_best (records results self0) in
  Forall (fun r => snd r <= snd best) results
  /\ (Forall (fun r => snd r <= 0) results -> best = (∅, 0))
  /\ (Exists (fun r => 0 < snd r) results ->
      best ∈ results /\ 0 < snd best).
Proof.
  intros Hinit. cbn zeta.
  destruct (records_best cfg self0 results Hinit) as (H0 & Hall & Hbest).
  unfold get_best. cbn [snd].
  split; [exact Hall|].
  destruct (best_point (records results self0)) as [plan|].
  - destruct Hbest as [Hpos Hin]. split.
    + intros Hle. exfalso.
      rewrite Forall_forall in Hle. specialize (Hle _ Hin). cbn in Hle. lra.
    + intros _. split; [exact Hin|exact Hpos].
  - destruct Hbest as [Hz Hle]. split.
    + intros _. now rewrite Hz.
    + intros Hex. exfalso. apply Exists_exists in Hex.
      destruct Hex as (r & Hr & Hpos).
      rewrite Forall_forall in Hle. specialize (Hle _ Hr). lra.
Qed.




End OptimizerFacts.

Lemma plan_round_trip_witness :
  exists plan,
    Optimizer.SpaceConverter.point_to_dict Scenario.space
      [Optimizer.VNum 250] = Ok plan
    /\ (forall k, k ∈ List.map Optimizer.dim_name Scenario.space
                  <-> is_Some (plan !! k))
    /\ Optimizer.observation_history_X
         (Optimizer.record Scenario.optimizer0 plan 5)
       = Optimizer.observation_history_X Scenario.optimizer0
         ++ [List.map Some (take (List.length Scenario.space)
                              [Optimizer.VNum 250])].
Proof.
  apply (plan_round_trip Scenario.optimizer0 [Optimizer.VNum 250] 5).
  cbn. apply NoDup_singleton.
Defined.

Lemma unknown_type_fails_first_proposal_witness :
  Optimizer.propose Scenario.fixed_selector Scenario.odd_optimizer
    (Scenario.rng (1 # 2))
  = Raise IndexError.
Proof.
  apply (unknown_type_fails_first_proposal Scenario.fixed_selector
           Scenario.odd_space).
  - reflexivity.
  - apply Exists_cons_tl, Exists_cons_hd. reflexivity.
Defined.

Lemma first_proposal_in_space_witness :
  exists plan rng',
    Optimizer.propose Scenario.fixed_selector Scenario.optimizer0
      (Scenario.rng (1 # 2)) = Ok (plan, rng')
    /\ Optimizer.position rng'
       = (Optimizer.position (Scenario.rng (1 # 2))
          + List.length Scenario.space)%nat
    /\ (forall k, k ∈ List.map Optimizer.dim_name Scenario.space
                  <-> is_Some (plan !! k))
    /\ Forall (fun dim =>
                 exists v, plan !! Optimizer.dimension_name dim = Some v
                           /\ Optimizer.in_dimension dim v)
              (Optimizer.dimensions Scenario.optimizer0).
Proof.
  apply (first_proposal_in_space Scenario.fixed_selector Scenario.space).
  - reflexivity.
  - reflexivity.
  - cbn. apply NoDup_singleton.
  - constructor; [cbn; lra|constructor].
  - intros i. cbn. lra.
Defined.


Lemma get_best_is_recorded_maximum_witness :
  Forall (fun r => snd r
                   <= snd (Optimizer.get_best
                             (Optimizer.records Scenario.two_results
                                Scenario.optimizer0)))
    Scenario.two_results
  /\ (Forall (fun r => snd r <= 0) Scenario.two_results ->
      Optimizer.get_best
        (Optimizer.records Scenario.two_results Scenario.optimizer0)
      = (∅, 0))
  /\ (Exists (fun r => 0 < snd r) Scenario.two_results ->
      Optimizer.get_best
        (Optimizer.records Scenario.two_results Scenario.optimizer0)
      ∈ Scenario.two_results
      /\ 0 < snd (Optimizer.get_best
                    (Optimizer.records Scenario.two_results
                       Scenario.optimizer0))).
Proof.
  apply (get_best_is_recorded_maximum Scenario.space Scenario.optimizer0
           Scenario.two_results).
  reflexivity.
Defined.


(** ** The typed analyzer: monotonicity and aggregation *)

Section TypedAnalyzerFacts.
Import TypedAnalyzer.

Lemma typed_perf_range obs config :
  0 <= PerformanceScorer.score obs config <= 10.
Proof.
  destruct (Qlt_le_dec 0 (baseline_latency_ms config)) as [HB|HB];
    [|rewrite typed_perf_bad_baseline by exact HB; split; lra].
  destruct (latency_ms obs) as [A|] eqn:HA;
    [|rewrite typed_perf_missing by exact HA; split; lra].
  rewrite (typed_perf_present obs config A HA HB).
  destruct (Qgtb A _); [split; lra|].
  unfold pymin, pymax. cases_Qltb; split; lra.
Qed.

Lemma typed_bug_range obs config : 0 <= BugScorer.score obs config <= 10.
Proof.
  unfold BugScorer.score, BugScorer.score_body, Zge_py.
  destruct (status_code obs) as [code|]; cbn; [|split; lra].
  repeat match goal with
         | |- context [if ?b then _ else _] => destruct b; cbn
         end; split; lra.
Qed.

(** Performance score and latency in the typed analyzer: the score lies
    between 0 and 10, and with the configuration fixed a higher latency
    never gives a lower score. *)
Theorem typed_perf_monotone obs1 obs2 config l1 l2 :
  latency_ms obs1 = Some l1 ->
  latency_ms obs2 = Some l2 ->
  l1 <= l2 ->
  0 <= PerformanceScorer.score obs1 config
  /\ PerformanceScorer.score obs1 config
     <= PerformanceScorer.score obs2 config
  /\ PerformanceScorer.score obs2 config <= 10.
Proof.
  intros H1 H2 Hle.
  pose proof (typed_perf_range obs1 config) as R1.
  pose proof (typed_perf_range obs2 config) as R2.
  split; [tauto|]. split; [|tauto].
  destruct (Qlt_le_dec 0 (baseline_latency_ms config)) as [HB|HB];
    [|rewrite !typed_perf_bad_baseline by exact HB; lra].
  rewrite (typed_perf_present obs1 config l1 H1 HB) in *.
  rewrite (typed_perf_present obs2 config l2 H2 HB) in *.
  set (B := baseline_latency_ms config) in *.
  set (T := threshold_latency_ms config) in *.
  destruct (Qgtb l2 T) eqn:E2; [tauto|].
  apply Qgtb_le in E2.
  assert (Qgtb l1 T = false) as -> by (apply Qgtb_le; lra).
  destruct (Qgtb T B) eqn:E; [|lra].
  apply Qgtb_gt in E.
  assert (Hmono : (l1 - B) / (T - B) * 9 <= (l2 - B) / (T - B) * 9).
  { unfold Qdiv. assert (0 < / (T - B)) by (apply Qinv_lt_0_compat; lra).
    nra. }
  unfold pymin, pymax. cases_Qltb; lra.
Qed.

(** Aggregation in the typed analyzer: with weights that are not negative
    and not all zero, and a structure score between 0 and 10, the total is
    the weighted mean of the three sub-scores, lies between 0 and 10, and
    the breakdown reports the sub-scores and the weights as configured. *)
Theorem typed_total_is_weighted_mean struct_scorer config obs :
  0 <= get_weight config "bug" ->
  0 <= get_weight config "perf" ->
  0 <= get_weight config "struct" ->
  0 < get_weight config "bug" + get_weight config "perf"
      + get_weight config "struct" ->
  0 <= struct_scorer obs config <= 10 ->
  exists total,
    AnalyzerService.calculate_severity struct_scorer config obs
    = (total,
       Some (AnalyzerService.mkBreakdown
               (BugScorer.score obs config)
               (PerformanceScorer.score obs config)
               (struct_scorer obs config) total
               (get_weight config "bug", get_weight config "perf",
                get_weight config "struct")))
    /\ total
       == (get_weight config "bug" * BugScorer.score obs config
           + get_weight config "perf" * PerformanceScorer.score obs config
           + get_weight config "struct" * struct_scorer obs config)
          / (get_weight config "bug" + get_weight config "perf"
             + get_weight config "struct")
    /\ 0 <= total <= 10.
Proof.
  intros Hb Hp Hs Hsum HS.
  unfold AnalyzerService.calculate_severity.
  set (wb := get_weight config "bug") in *.
  set (wp := get_weight config "perf") in *.
  set (ws := get_weight config "struct") in *.
  set (B := BugScorer.score obs config).
  set (P := PerformanceScorer.score obs config).
  set (S := struct_scorer obs config) in *.
  pose proof (typed_bug_range obs config) as HB. fold B in HB.
  pose proof (typed_perf_range obs config) as HP. fold P in HP.
  assert (Hnz : Qeq_bool (wb + wp + ws) 0 = false).
  { destruct (Qeq_bool (wb + wp + ws) 0) eqn:E; [|reflexivity].
    apply Qeq_bool_iff in E. lra. }
  rewrite Hnz. eexists. split; [reflexivity|].
  assert (Hrange : 0 <= (wb * B + wp * P + ws * S) / (wb + wp + ws) <= 10).
  { split.
    - apply Qle_shift_div_l; [exact Hsum|]. nra.
    - apply Qle_shift_div_r; [exact Hsum|]. nra. }
  assert (Hclamp : pymin 10 (pymax 0 ((wb * B + wp * P + ws * S)
                                      / (wb + wp + ws)))
                   == (wb * B + wp * P + ws * S) / (wb + wp + ws)).
  { unfold pymax, pymin. cases_Qltb; lra. }
  split; [exact Hclamp|]. rewrite Hclamp. exact Hrange.
Qed.

End TypedAnalyzerFacts.

Lemma typed_perf_monotone_witness :
  0 <= TypedAnalyzer.PerformanceScorer.score Scenario.keyword_log_typed
         Scenario.typed_config
  /\ TypedAnalyzer.PerformanceScorer.score Scenario.keyword_log_typed
       Scenario.typed_config
     <= TypedAnalyzer.PerformanceScorer.score Scenario.at_threshold_typed
          Scenario.typed_config
  /\ TypedAnalyzer.PerformanceScorer.score Scenario.at_threshold_typed
       Scenario.typed_config <= 10.
Proof.
  apply (typed_perf_monotone Scenario.keyword_log_typed
           Scenario.at_threshold_typed Scenario.typed_config 100 500).
  - reflexivity.
  - reflexivity.
  - unfold Qle; simpl; lia.
Defined.

Lemma typed_total_is_weighted_mean_witness :
  exists total,
    TypedAnalyzer.AnalyzerService.calculate_severity (fun _ _ => 5)
      Scenario.typed_config Scenario.at_threshold_typed
    = (total,
       Some (TypedAnalyzer.AnalyzerService.mkBreakdown
               (TypedAnalyzer.BugScorer.score Scenario.at_threshold_typed
                  Scenario.typed_config)
               (TypedAnalyzer.PerformanceScorer.score
                  Scenario.at_threshold_typed Scenario.typed_config)
               5 total
               (TypedAnalyzer.get_weight Scenario.typed_config "bug",
                TypedAnalyzer.get_weight Scenario.typed_config "perf",
                TypedAnalyzer.get_weight Scenario.typed_config "struct")))
    /\ total
       == (TypedAnalyzer.get_weight Scenario.typed_config "bug"
           * TypedAnalyzer.BugScorer.score Scenario.at_threshold_typed
               Scenario.typed_config
           + TypedAnalyzer.get_weight Scenario.typed_config "perf"
             * TypedAnalyzer.PerformanceScorer.score
                 Scenario.at_threshold_typed Scenario.typed_config
           + TypedAnalyzer.get_weight Scenario.typed_config "struct" * 5)
          / (TypedAnalyzer.get_weight Scenario.typed_config "bug"
             + TypedAnalyzer.get_weight Scenario.typed_config "perf"
             + TypedAnalyzer.get_weight Scenario.typed_config "struct")
    /\ 0 <= total <= 10.
Proof.
  apply (typed_total_is_weighted_mean (fun _ _ => 5) Scenario.typed_config
           Scenario.at_threshold_typed).
  - vm_compute. discriminate.
  - vm_compute. discriminate.
  - vm_compute. discriminate.
  - vm_compute. reflexivity.
  - split; vm_compute; discriminate.
Defined.

(** ** The typed analyzer's structure scorer and its edit distance *)

Section StructureFacts.
Import TypedAnalyzer.StructureScorer.

Lemma set2_spec m n dp (i j v : nat) :
  table_shape m n dp -> (i <= m)%nat -> (j <= n)%nat ->
  exists dp',
    set2 dp i j v = Ok dp'
    /\ table_shape m n dp'
    /\ get2 dp' i j = Ok v
    /\ forall i' j' : nat, (i' <> i \/ j' <> j) ->
                           get2 dp' i' j' = get2 dp i' j'.
Proof.
  intros [Hlen Hrows] Hi Hj.
  destruct (lookup_lt_is_Some_2 dp i) as [row Hrow]; [lia|].
  pose proof (Hrows i row Hrow) as Hrl.
  exists (<[i := <[j := v]> row]> dp).
  assert (Hi' : (i < List.length dp)%nat) by lia.
  assert (Hj' : (j < List.length row)%nat) by lia.
  split.
  { unfold set2, getitem, setitem. rewrite Hrow. cbn [rbind].
    apply Nat.ltb_lt in Hj'. rewrite Hj'. cbn [rbind].
    apply Nat.ltb_lt in Hi'. rewrite Hi'. reflexivity. }
  split.
  { split; [rewrite length_insert; exact Hlen|].
    intros i' row' Hr.
    destruct (decide (i = i')) as [<-|Hne].
    - rewrite list_lookup_insert_eq in Hr by exact Hi'.
      injection Hr as <-. rewrite length_insert. exact Hrl.
    - rewrite list_lookup_insert_ne in Hr by exact Hne. eauto. }
  split.
  { unfold get2, getitem. rewrite list_lookup_insert_eq by exact Hi'.
    cbn [rbind]. rewrite list_lookup_insert_eq by exact Hj'. reflexivity. }
  intros i' j' Hne. unfold get2, getitem.
  destruct (decide (i = i')) as [<-|Hi''].
  - rewrite list_lookup_insert_eq by exact Hi'. rewrite Hrow. cbn [rbind].
    rewrite list_lookup_insert_ne by (intros ->; tauto). reflexivity.
  - rewrite list_lookup_insert_ne by exact Hi''. reflexivity.
Qed.

Lemma for_each_inv {St} (I : nat -> St -> Prop)
    (body : nat -> St -> result St) : forall k a s,
  I a s ->
  (forall i s, (a <= i < a + k)%nat -> I i s ->
               exists s', body i s = Ok s' /\ I (S i) s') ->
  exists s', for_each (seq a k) body s = Ok s' /\ I (a + k)%nat s'.
Proof.
  induction k as [|k IH]; intros a s Ha Hstep; cbn.
  - exists s. rewrite Nat.add_0_r. split; [reflexivity|exact Ha].
  - destruct (Hstep a s) as (s1 & -> & H1); [lia|exact Ha|]. cbn.
    destruct (IH (S a) s1 H1) as (s' & Hr & Hs').
    { intros i s2 Hi. apply Hstep. lia. }
    exists s'. split; [exact Hr|].
    replace (a + S k)%nat with (S a + k)%nat by lia. exact Hs'.
Qed.

Lemma levenshtein_nil_l l2 : levenshtein [] l2 = List.length l2.
Proof. destruct l2; reflexivity. Qed.

Lemma levenshtein_nil_r l1 : levenshtein l1 [] = List.length l1.
Proof. destruct l1; reflexivity. Qed.

Lemma levenshtein_cons a l1 b l2 :
  levenshtein (a :: l1) (b :: l2)
  = if String.eqb a b then levenshtein l1 l2
    else S (Nat.min (levenshtein l1 (b :: l2))
              (Nat.min (levenshtein (a :: l1) l2) (levenshtein l1 l2))).
Proof. reflexivity. Qed.

Lemma prefix_distance_0_l list1 list2 (j : nat) :
  (j <= List.length list2)%nat -> prefix_distance list1 list2 0 j = j.
Proof.
  intros Hj. unfold prefix_distance. rewrite take_0. cbn [List.rev].
  rewrite levenshtein_nil_l, length_rev, length_take_le; [reflexivity|exact Hj].
Qed.

Lemma prefix_distance_0_r list1 list2 (i : nat) :
  (i <= List.length list1)%nat -> prefix_distance list1 list2 i 0 = i.
Proof.
  intros Hi. unfold prefix_distance. rewrite (take_0 list2). cbn [List.rev].
  rewrite levenshtein_nil_r, length_rev, length_take_le; [reflexivity|exact Hi].
Qed.

Lemma prefix_distance_S list1 list2 (i j : nat) a b :
  list1 !! i = Some a -> list2 !! j = Some b ->
  prefix_distance list1 list2 (S i) (S j)
  = if String.eqb a b then prefix_distance list1 list2 i j
    else S (Nat.min (prefix_distance list1 list2 i (S j))
              (Nat.min (prefix_distance list1 list2 (S i) j)
                 (prefix_distance list1 list2 i j))).
Proof.
  intros Ha Hb. unfold prefix_distance.
  rewrite (take_S_r list1 i a Ha), (take_S_r list2 j b Hb).
  rewrite !rev_app_distr. cbn [List.rev app].
  apply levenshtein_cons.
Qed.

Lemma edit_distance_table list1 list2 :
  _edit_distance list1 list2
  = Ok (prefix_distance list1 list2 (List.length list1) (List.length list2)).
Proof.
  unfold _edit_distance.
  set (m := List.length list1). set (n := List.length list2).
  set (D := prefix_distance list1 list2).
  set (dp0 := replicate (m + 1) (replicate (n + 1) 0%nat)).
  assert (H0 : table_shape m n dp0).
  { split.
    - unfold dp0. rewrite length_replicate. lia.
    - intros i row Hr. apply lookup_replicate in Hr. destruct Hr as [-> _].
      rewrite length_replicate. lia. }
  (* the first column *)
  destruct (for_each_inv
              (fun i dp => table_shape m n dp
                           /\ forall i' : nat, (i' < i)%nat ->
                                               get2 dp i' 0 = Ok i')
              (fun i dp => set2 dp i 0 i) (m + 1) 0 dp0)
    as (dp1 & Hr1 & Hs1 & Hc1).
  { split; [exact H0|]. intros i' Hi'. lia. }
  { intros i dp Hi [Hs Hc].
    destruct (set2_spec m n dp i 0 i Hs) as (dp' & Hr & Hs' & Hg & Ho);
      [lia|lia|].
    exists dp'. split; [exact Hr|]. split; [exact Hs'|].
    intros i' Hi'. destruct (decide (i' = i)) as [->|Hne]; [exact Hg|].
    rewrite Ho by tauto. apply Hc. lia. }
  unfold for_range at 1. rewrite Nat.sub_0_r, Hr1. cbn [rbind].
  (* the first row *)
  destruct (for_each_inv
              (fun j dp => table_shape m n dp
                           /\ (forall i' : nat, (i' <= m)%nat ->
                                                get2 dp i' 0 = Ok i')
                           /\ forall j' : nat, (j' < j)%nat ->
                                               get2 dp 0 j' = Ok j')
              (fun j dp => set2 dp 0 j j) (n + 1) 0 dp1)
    as (dp2 & Hr2 & Hs2 & Hc2 & Hw2).
  { split; [exact Hs1|]. split; [|intros j' Hj'; lia].
    intros i' Hi'. apply Hc1. lia. }
  { intros j dp Hj (Hs & Hc & Hw).
    destruct (set2_spec m n dp 0 j j Hs) as (dp' & Hr & Hs' & Hg & Ho);
      [lia|lia|].
    exists dp'. split; [exact Hr|]. split; [exact Hs'|]. split.
    - intros i' Hi'.
      destruct (decide (i' = 0%nat /\ j = 0%nat)) as [[-> ->]|Hne];
        [exact Hg|].
      rewrite Ho by lia. now apply Hc.
    - intros j' Hj'. destruct (decide (j' = j)) as [->|Hne]; [exact Hg|].
      rewrite Ho by tauto. apply Hw. lia. }
  unfold for_range at 1. rewrite Nat.sub_0_r, Hr2. cbn [rbind].
  (* the rows 1 to m *)
  destruct (for_each_inv
              (fun i dp => table_shape m n dp
                           /\ forall i' j' : nat,
                                (i' <= m)%nat -> (j' <= n)%nat ->
                                (i' = 0 \/ j' = 0 \/ i' < i)%nat ->
                                get2 dp i' j' = Ok (D i' j'))
              (fun i dp =>
                 for_range 1 (n + 1) (fun j dp =>
                   let* a := getitem list1 (i - 1) in
                   let* b := getitem list2 (j - 1) in
                   if String.eqb a b then
                     let* v := get2 dp (i - 1) (j - 1) in
                     set2 dp i j v
                   else
                     let* x := get2 dp (i - 1) j in
                     let* y := get2 dp i (j - 1) in
                     let* z := get2 dp (i - 1) (j - 1) in
                     set2 dp i j (1 + Nat.min x (Nat.min y z))) dp)
              m 1 dp2)
    as (dp3 & Hr3 & Hs3 & Hc3).
  { split; [exact Hs2|]. intros i' j' Hi' Hj' Hcell.
    assert (Hz : (i' = 0 \/ j' = 0)%nat) by lia.
    destruct Hz as [->| ->].
    - rewrite Hw2 by lia. unfold D. now rewrite prefix_distance_0_l.
    - rewrite Hc2 by lia. unfold D. now rewrite prefix_distance_0_r. }
  { intros i dp Hi [Hs Hc].
    destruct i as [|i0]; [lia|].
    destruct (lookup_lt_is_Some_2 list1 i0) as [a Ha]; [fold m; lia|].
    destruct (for_each_inv
                (fun j dp => table_shape m n dp
                             /\ forall i' j' : nat,
                                  (i' <= m)%nat -> (j' <= n)%nat ->
                                  (i' = 0 \/ j' = 0 \/ i' < S i0
                                   \/ (i' = S i0 /\ j' < j))%nat ->
                                  get2 dp i' j' = Ok (D i' j'))
                (fun j dp =>
                   let* a := getitem list1 (S i0 - 1) in
                   let* b := getitem list2 (j - 1) in
                   if String.eqb a b then
                     let* v := get2 dp (S i0 - 1) (j - 1) in
                     set2 dp (S i0) j v
                   else
                     let* x := get2 dp (S i0 - 1) j in
                     let* y := get2 dp (S i0) (j - 1) in
                     let* z := get2 dp (S i0 - 1) (j - 1) in
                     set2 dp (S i0) j (1 + Nat.min x (Nat.min y z)))
                n 1 dp)
      as (dp' & Hr & Hs' & Hc').
    { split; [exact Hs|]. intros i' j' Hi' Hj' Hcell. apply Hc; lia. }
    { intros j dq Hj [Hsq Hcq].
      destruct j as [|j0]; [lia|].
      destruct (lookup_lt_is_Some_2 list2 j0) as [b Hb]; [fold n; lia|].
      replace (S i0 - 1)%nat with i0 by lia.
      replace (S j0 - 1)%nat with j0 by lia.
      unfold getitem at 1 2. rewrite Ha, Hb. cbn [rbind].
      assert (Hz : get2 dq i0 j0 = Ok (D i0 j0)) by (apply Hcq; lia).
      assert (Hx : get2 dq i0 (S j0) = Ok (D i0 (S j0))) by (apply Hcq; lia).
      assert (Hy : get2 dq (S i0) j0 = Ok (D (S i0) j0)) by (apply Hcq; lia).
      pose proof (prefix_distance_S list1 list2 i0 j0 a b Ha Hb) as HD.
      fold D in HD.
      assert (Hfill : forall v, v = D (S i0) (S j0) ->
                exists s',
                  set2 dq (S i0) (S j0) v = Ok s'
                  /\ table_shape m n s'
                  /\ forall i' j' : nat,
                       (i' <= m)%nat -> (j' <= n)%nat ->
                       (i' = 0 \/ j' = 0 \/ i' < S i0
                        \/ (i' = S i0 /\ j' < S (S j0)))%nat ->
                       get2 s' i' j' = Ok (D i' j')).
      { intros v ->.
        destruct (set2_spec m n dq (S i0) (S j0) (D (S i0) (S j0)) Hsq)
          as (s' & Hrs & Hss & Hg & Ho); [lia|lia|].
        exists s'. split; [exact Hrs|]. split; [exact Hss|].
        intros i' j' Hi' Hj' Hcell.
        destruct (decide (i' = S i0 /\ j' = S j0)) as [[-> ->]|Hne];
          [exact Hg|].
        rewrite Ho by lia. apply Hcq; lia. }
      destruct (String.eqb a b).
      - rewrite Hz. cbn [rbind]. apply Hfill. now rewrite HD.
      - rewrite Hx. cbn [rbind]. rewrite Hy. cbn [rbind]. rewrite Hz.
        cbn [rbind]. apply Hfill. now rewrite HD. }
    exists dp'. split.
    { unfold for_range. rewrite Nat.add_sub. exact Hr. }
    split; [exact Hs'|].
    intros i' j' Hi' Hj' Hcell. apply Hc'; lia. }
  unfold for_range at 1. rewrite Nat.add_sub, Hr3. cbn [rbind].
  apply Hc3; lia.
Qed.

Lemma levenshtein_refl l : levenshtein l l = 0%nat.
Proof.
  induction l as [|a l IH]; [reflexivity|].
  rewrite levenshtein_cons, String.eqb_refl. exact IH.
Qed.

Lemma levenshtein_zero l1 : forall l2, levenshtein l1 l2 = 0%nat -> l1 = l2.
Proof.
  induction l1 as [|a l1 IH]; intros l2 H.
  - rewrite levenshtein_nil_l in H. now destruct l2.
  - destruct l2 as [|b l2]; [discriminate|].
    rewrite levenshtein_cons in H.
    destruct (String.eqb a b) eqn:E; [|discriminate].
    apply String.eqb_eq in E. subst b. f_equal. now apply IH.
Qed.

Lemma levenshtein_bounds l1 : forall l2,
  (List.length l1 <= List.length l2 + levenshtein l1 l2
   /\ List.length l2 <= List.length l1 + levenshtein l1 l2
   /\ levenshtein l1 l2 <= Nat.max (List.length l1) (List.length l2))%nat.
Proof.
  induction l1 as [|a l1 IH]; intros l2.
  - rewrite levenshtein_nil_l. cbn. lia.
  - induction l2 as [|b l2 IH2].
    + rewrite levenshtein_nil_r. cbn. lia.
    + rewrite levenshtein_cons.
      pose proof (IH l2). pose proof (IH (b :: l2)).
      cbn [List.length] in *. destruct (String.eqb a b); lia.
Qed.

Lemma edit_distance_reversed list1 list2 :
  _edit_distance list1 list2
  = Ok (levenshtein (List.rev list1) (List.rev list2)).
Proof.
  rewrite edit_distance_table. unfold prefix_distance.
  now rewrite !firstn_all.
Qed.

(** [_edit_distance] never raises.  The table it fills holds, in cell
    (i, j), the Levenshtein distance between the first i names of one list
    and the first j names of the other, so the result is the distance
    between the two lists (read from their ends): it is 0 exactly for equal
    lists, at least the difference of the lengths and at most the greater
    length. *)
Theorem edit_distance_is_levenshtein list1 list2 :
  exists d,
    _edit_distance list1 list2 = Ok d
    /\ d = levenshtein (List.rev list1) (List.rev list2)
    /\ (d = 0%nat <-> list1 = list2)
    /\ (List.length list1 <= List.length list2 + d)%nat
    /\ (List.length list2 <= List.length list1 + d)%nat
    /\ (d <= Nat.max (List.length list1) (List.length list2))%nat.
Proof.
  exists (levenshtein (List.rev list1) (List.rev list2)).
  split; [apply edit_distance_reversed|]. split; [reflexivity|].
  pose proof (levenshtein_bounds (List.rev list1) (List.rev list2)) as Hb.
  rewrite !length_rev in Hb.
  split; [|exact Hb].
  split.
  - intros H. apply levenshtein_zero in H.
    rewrite <- (rev_involutive list1), <- (rev_involutive list2).
    now rewrite H.
  - intros ->. apply levenshtein_refl.
Qed.

Lemma count_change_cases c b :
  (_check_span_count_change c b = 3
   /\ (1 <= List.length (td_spans b))%nat
   /\ (3 * List.length (td_spans b) < 2 * List.length (td_spans c))%nat)
  \/ (_check_span_count_change c b = 0
      /\ (List.length (td_spans b) = 0%nat
          \/ (2 * List.length (td_spans c)
              <= 3 * List.length (td_spans b))%nat)).
Proof.
  unfold _check_span_count_change.
  destruct (Nat.eqb_spec (List.length (td_spans b)) 0) as [E|E];
    [right; split; [reflexivity|now left]|].
  destruct (Qgtb _ _) eqn:G.
  - left. split; [reflexivity|]. split; [lia|].
    apply Qgtb_gt in G. unfold Qlt in G. cbn in G. lia.
  - right. split; [reflexivity|]. right.
    apply Qgtb_le in G. unfold Qle in G. cbn in G. lia.
Qed.

Lemma sequence_change_cases c b :
  (_check_operation_sequence_change c b = 5
   /\ (1 <= List.length (td_spans b))%nat
   /\ (1 <= List.length (td_spans c))%nat
   /\ (2 < levenshtein (List.rev (operation_names b))
                       (List.rev (operation_names c)))%nat)
  \/ (_check_operation_sequence_change c b = 0
      /\ (List.length (td_spans b) = 0%nat
          \/ List.length (td_spans c) = 0%nat
          \/ (levenshtein (List.rev (operation_names b))
                          (List.rev (operation_names c)) <= 2)%nat)).
Proof.
  unfold _check_operation_sequence_change.
  rewrite edit_distance_reversed. cbn [rbind except_default].
  assert (Hb : List.length (operation_names b) = List.length (td_spans b))
    by (unfold operation_names; apply length_map).
  assert (Hc : List.length (operation_names c) = List.length (td_spans c))
    by (unfold operation_names; apply length_map).
  rewrite Hb, Hc.
  destruct (Nat.eqb_spec (List.length (td_spans b)) 0) as [E|E];
    [right; split; [reflexivity|now left]|].
  destruct (Nat.eqb_spec (List.length (td_spans c)) 0) as [E'|E'];
    [right; split; [reflexivity|right; now left]|].
  cbn [orb].
  destruct (Nat.ltb_spec 2 (levenshtein (List.rev (operation_names b))
                              (List.rev (operation_names c)))) as [L|L].
  - left. repeat split; lia.
  - right. split; [reflexivity|]. right. right. exact L.
Qed.

Lemma error_spans_cases c :
  _check_error_spans c
  = if existsb is_error_span (td_spans c) then 2 else 0.
Proof. reflexivity. Qed.

Lemma latency_spike_cases c b :
  _check_span_latency_spike c b = 2 \/ _check_span_latency_spike c b = 0.
Proof.
  unfold _check_span_latency_spike. destruct (existsb _ _); auto.
Qed.

Lemma score_table c b :
  score (Some c) (Some b)
  = if Qeq_bool (_check_operation_sequence_change c b) 5 then 5
    else if Qeq_bool (_check_span_count_change c b) 3 then 3
    else if Qeq_bool (_check_error_spans c) 2
            || Qeq_bool (_check_span_latency_spike c b) 2 then 2
    else 0.
Proof.
  unfold score.
  destruct (count_change_cases c b) as [[-> _]|[-> _]];
    destruct (sequence_change_cases c b) as [[-> _]|[-> _]];
    destruct (latency_spike_cases c b) as [-> | ->];
    rewrite error_spans_cases;
    destruct (existsb is_error_span (td_spans c));
    vm_compute; reflexivity.
Qed.

Lemma dict_set_keys {V} (d : list (option string * V)) k v k' :
  k' ∈ List.map fst (dict_set d k v) <-> k' = k \/ k' ∈ List.map fst d.
Proof.
  induction d as [|[k0 v0] rest IH]; cbn.
  - rewrite list_elem_of_singleton. split; [auto|].
    intros [H|H]; [exact H|]. now apply elem_of_nil in H.
  - destruct (decide (k0 = k)) as [->|Hne]; cbn.
    + rewrite elem_of_cons. tauto.
    + rewrite !elem_of_cons, IH. tauto.
Qed.

Lemma dict_set_nodup {V} (d : list (option string * V)) k v :
  NoDup (List.map fst d) -> NoDup (List.map fst (dict_set d k v)).
Proof.
  induction d as [|[k0 v0] rest IH]; cbn; intros Hnd.
  - apply NoDup_singleton.
  - apply NoDup_cons in Hnd. destruct Hnd as [Hfresh Hnd].
    destruct (decide (k0 = k)) as [->|Hne]; cbn.
    + apply NoDup_cons. split; assumption.
    + apply NoDup_cons. split; [|now apply IH].
      rewrite dict_set_keys. intros [H|H]; [congruence|contradiction].
Qed.

Lemma dict_get_item {V} (d : list (option string * V)) k v :
  NoDup (List.map fst d) -> (k, v) ∈ d -> dict_get d k = Some v.
Proof.
  induction d as [|[k0 v0] rest IH]; cbn; intros Hnd Hin.
  - now apply elem_of_nil in Hin.
  - apply NoDup_cons in Hnd. destruct Hnd as [Hfresh Hnd].
    apply elem_of_cons in Hin. destruct Hin as [[= -> ->]|Hin].
    + now rewrite decide_True.
    + rewrite decide_False; [now apply IH|].
      intros ->. apply Hfresh. apply list_elem_of_In, in_map_iff.
      exists (k, v). split; [reflexivity|now apply list_elem_of_In].
Qed.

Lemma durations_nodup t : NoDup (List.map fst (durations t)).
Proof.
  unfold durations.
  assert (H : forall items (d : list (option string * Q)),
             NoDup (List.map fst d) ->
             NoDup (List.map fst
                      (fold_left
                         (fun d s => dict_set d (sd_operationName s)
                                       (default 0 (sd_duration s)))
                         items d))).
  { induction items as [|s items IH]; intros d Hd; cbn; [exact Hd|].
    apply IH. now apply dict_set_nodup. }
  apply H. cbn. apply NoDup_nil. exact I.
Qed.

Lemma latency_spike_self t : _check_span_latency_spike t t = 0.
Proof.
  unfold _check_span_latency_spike.
  destruct (existsb _ _) eqn:E; [|reflexivity]. exfalso.
  apply existsb_exists in E. destruct E as ([k v] & Hin & Hspike).
  cbn [fst snd] in Hspike.
  rewrite (dict_get_item (durations t) k v) in Hspike;
    [|apply durations_nodup|now apply list_elem_of_In].
  apply andb_true_iff in Hspike. destruct Hspike as [Hpos Hratio].
  apply Qgtb_gt in Hpos. apply Qgtb_gt in Hratio.
  assert (Hone : v / v == 1) by (unfold Qdiv; apply Qmult_inv_r; lra).
  rewrite Hone in Hratio. lra.
Qed.

Lemma operation_names_length t :
  List.length (List.rev (operation_names t)) = List.length (td_spans t).
Proof. unfold operation_names. now rewrite length_rev, length_map. Qed.

(** The structure score of the typed analyzer.  It is one of 0, 2, 3 and
    5, and 0 without a trace or without a baseline.  A trace compared
    with itself scores 2 if one of its spans carries an error mark and 0
    otherwise.  A trace with more than two spans more than a baseline
    that has spans scores 5.  The score 3 occurs only for a baseline of
    one to three spans and a trace with one or two spans more. *)
Theorem structure_score_values :
  (forall cur base, In (score cur base) [0; 2; 3; 5])
  /\ (forall cur base, cur = None \/ base = None -> score cur base = 0)
  /\ (forall t,
        score (Some t) (Some t)
        = if existsb is_error_span (td_spans t) then 2 else 0)
  /\ (forall c b,
        (1 <= List.length (td_spans b))%nat ->
        (List.length (td_spans b) + 2 < List.length (td_spans c))%nat ->
        score (Some c) (Some b) = 5)
  /\ (forall c b,
        score (Some c) (Some b) = 3 ->
        (1 <= List.length (td_spans b) <= 3)%nat
        /\ (List.length (td_spans b) < List.length (td_spans c)
            <= List.length (td_spans b) + 2)%nat).
Proof.
  split; [|split; [|split; [|split]]].
  - intros [c|] [b|]; try (cbn; now left).
    rewrite score_table.
    destruct (count_change_cases c b) as [[-> _]|[-> _]];
      destruct (sequence_change_cases c b) as [[-> _]|[-> _]];
      destruct (latency_spike_cases c b) as [-> | ->];
      rewrite error_spans_cases;
      destruct (existsb is_error_span (td_spans c));
      vm_compute; tauto.
  - intros cur base [-> | ->]; [destruct base|]; reflexivity.
  - intros t. rewrite score_table, latency_spike_self.
    destruct (count_change_cases t t) as [(_ & _ & H)|[-> _]]; [lia|].
    destruct (sequence_change_cases t t) as [(_ & _ & _ & H)|[-> _]].
    { rewrite levenshtein_refl in H. lia. }
    rewrite error_spans_cases.
    destruct (existsb is_error_span (td_spans t)); vm_compute; reflexivity.
  - intros c b Hb Hc. rewrite score_table.
    pose proof (levenshtein_bounds (List.rev (operation_names b))
                  (List.rev (operation_names c))) as Hlev.
    rewrite !operation_names_length in Hlev.
    destruct (sequence_change_cases c b) as [[-> _]|[_ H]];
      [reflexivity|lia].
  - intros c b H. rewrite score_table in H.
    pose proof (levenshtein_bounds (List.rev (operation_names b))
                  (List.rev (operation_names c))) as Hlev.
    rewrite !operation_names_length in Hlev.
    destruct (sequence_change_cases c b) as [[Hs _]|[Hs Hseq]];
      rewrite Hs in H; [vm_compute in H; discriminate|].
    destruct (count_change_cases c b) as [(Hc & H1 & H2)|[Hc _]];
      rewrite Hc in H.
    + lia.
    + exfalso. revert H. rewrite error_spans_cases.
      destruct (latency_spike_cases c b) as [-> | ->];
        destruct (existsb is_error_span (td_spans c));
        vm_compute; discriminate.
Qed.

End StructureFacts.
